(** * person-detection: the frame pipeline, its scaling heuristics and its
    metrics export, embedded from [src/detector.py], [src/draw.py],
    [src/video_io.py] and [src/main.py].

    Python values are modelled as the interpreter has them: [int] is [Z],
    [float] is IEEE 754 binary64 (the Standard Library's [spec_float] at
    precision 53), [str] is [string], objects that are mutated in place
    (numpy frames, dicts, dataclass instances, capture and writer handles)
    live in a store and are passed by address. *)

From Stdlib Require Import ZArith List String Ascii Bool Lia SpecFloat DecimalString.
From Stdlib Require Import Sorted Permutation.
From stdpp Require Import base list strings gmap.

Open Scope string_scope.
Open Scope list_scope.
Open Scope Z_scope.

(* ===================================================================== *)
(** * Python runtime: exceptions and results *)
(* ===================================================================== *)

Module py.

(** The exception classes the program raises or lets through.  [External]
    stands for whatever a collaborator (OpenCV, the YOLO backend, the
    operating system) raises.  [ModelFault] is no Python exception: it
    marks a dereference of an address that was never allocated, or a loop
    bound of the model being exhausted; [process_video_no_fault] shows
    that runs do not produce it. *)
Inductive exn_class :=
| FileNotFoundError
| ValueError
| TypeError
| OverflowError
| ZeroDivisionError
| External
| ModelFault.

Record exn := Exn { exn_kind : exn_class; exn_msg : string }.

Inductive result (A : Type) :=
| Ok (a : A)
| Raise (e : exn).
Arguments Ok {A} a.
Arguments Raise {A} e.

Definition rbind {A B} (r : result A) (k : A -> result B) : result B :=
  match r with
  | Ok a => k a
  | Raise e => Raise e
  end.

(** What a call into a collaborator does: return, or raise with a message. *)
Inductive external (A : Type) :=
| Returns (a : A)
| Throws (msg : string).
Arguments Returns {A} a.
Arguments Throws {A} msg.

Definition call {A} (x : external A) : result A :=
  match x with
  | Returns a => Ok a
  | Throws msg => Raise (Exn External msg)
  end.

#[global] Instance result_ret : MRet result := fun A a => Ok a.
#[global] Instance result_bind : MBind result := fun A B k r => rbind r k.

End py.
Export py.

(* ===================================================================== *)
(** * Python floats *)
(* ===================================================================== *)

Module pyfloat.

Definition prec : Z := 53.
Definition emax : Z := 1024.

(** A Python [float]. *)
Definition float := spec_float.

(** An integer as an (unrounded) significand with exponent 0. *)
Definition exact_int (z : Z) : float :=
  match z with
  | Z0 => S754_zero false
  | Zpos p => S754_finite false p 0
  | Zneg p => S754_finite true p 0
  end.

Definition is_nan (x : float) : bool :=
  match x with S754_nan => true | _ => false end.
Definition is_inf (x : float) : bool :=
  match x with S754_infinity _ => true | _ => false end.
Definition is_zero (x : float) : bool :=
  match x with S754_zero _ => true | _ => false end.
Definition is_finite (x : float) : bool :=
  match x with S754_zero _ | S754_finite _ _ _ => true | _ => false end.

(** [x - y], [x / y] on floats: IEEE 754, round to nearest even. *)
Definition fsub (x y : float) : float := SFsub prec emax x y.
Definition fdiv (x y : float) : float := SFdiv prec emax x y.

(** [x < y], [x <= y], [x == y], [x > y]; all false on NaN. *)
Definition flt (x y : float) : bool := SFltb x y.
Definition fle (x y : float) : bool := SFleb x y.
Definition fgt (x y : float) : bool := SFltb y x.

(** The float a decimal literal [num/den] denotes: the nearest binary64. *)
Definition literal (num den : Z) : float :=
  fdiv (exact_int num) (exact_int den).

(** [float(n)] and the implicit conversion of an [int] operand. *)
Definition float_of_int (n : Z) : result float :=
  let x := binary_normalize prec emax n 0 false in
  if is_inf x
  then Raise (Exn OverflowError "int too large to convert to float")
  else Ok x.

(** [a / b] on two [int]s: the correctly rounded quotient. *)
Definition int_truediv (a b : Z) : result float :=
  if b =? 0 then Raise (Exn ZeroDivisionError "division by zero")
  else
    let q := fdiv (exact_int a) (exact_int b) in
    if is_inf q
    then Raise (Exn OverflowError "integer division result too large for a float")
    else Ok q.

(** [n / y] with [n] an [int] and [y] a [float]. *)
Definition int_div_float (n : Z) (y : float) : result float :=
  rbind (float_of_int n) (fun x =>
  if is_zero y then Raise (Exn ZeroDivisionError "float division by zero")
  else Ok (fdiv x y)).

Definition signed (s : bool) (m : positive) : Z :=
  if s then Zneg m else Zpos m.

(** [math.ceil] and [int] on a finite float: exact. *)
Definition ceil_finite (s : bool) (m : positive) (e : Z) : Z :=
  - Z.shiftl (- signed s m) e.
Definition trunc_finite (s : bool) (m : positive) (e : Z) : Z :=
  if s then - Z.shiftl (Zpos m) e else Z.shiftl (Zpos m) e.

Definition to_integer (f : bool -> positive -> Z -> Z) (x : float) : result Z :=
  match x with
  | S754_zero _ => Ok 0
  | S754_finite s m e => Ok (f s m e)
  | S754_infinity _ =>
      Raise (Exn OverflowError "cannot convert float infinity to integer")
  | S754_nan => Raise (Exn ValueError "cannot convert float NaN to integer")
  end.

Definition math_ceil : float -> result Z := to_integer ceil_finite.
Definition int_of_float : float -> result Z := to_integer trunc_finite.

(** The builtins [max(a, b)] and [min(a, b)]: the first argument unless the
    second compares strictly beyond it. *)
Definition max2 (a b : float) : float := if fgt b a then b else a.
Definition min2 (a b : float) : float := if flt b a then b else a.

(** Round half to even of [n / d], for [d > 0]. *)
Definition div_half_even (n d : Z) : Z :=
  let q := n / d in
  let r := n mod d in
  match 2 * r ?= d with
  | Lt => q
  | Gt => q + 1
  | Eq => if Z.even q then q else q + 1
  end.

(** [|x| * 10^ndigits] rounded half to even, on the exact value of [x]. *)
Definition scaled_digits (m : positive) (e : Z) (ndigits : Z) : Z :=
  let p := 10 ^ ndigits in
  if 0 <=? e then Zpos m * 2 ^ e * p
  else div_half_even (Zpos m * p) (2 ^ (- e)).

(** [round(x, ndigits)] for [ndigits >= 0]: the decimal with that many
    places nearest to the exact value of [x] (ties to even), read back as
    the nearest float. *)
Definition round (x : float) (ndigits : Z) : float :=
  match x with
  | S754_finite s m e =>
      match scaled_digits m e ndigits with
      | Zpos k => fdiv (S754_finite s k 0) (exact_int (10 ^ ndigits))
      | _ => S754_zero s
      end
  | _ => x
  end.

Definition f0 : float := S754_zero false.
Definition f1 : float := Eval vm_compute in literal 1 1.
Definition f30 : float := Eval vm_compute in literal 30 1.
Definition f60 : float := Eval vm_compute in literal 60 1.
Definition f150 : float := Eval vm_compute in literal 150 1.

End pyfloat.
Import pyfloat.

(* ===================================================================== *)
(** * Python strings and paths *)
(* ===================================================================== *)

Module pystr.

(** [str.lower] on UTF-8 text, exact wherever the result is compared with
    an ASCII word: the letters A to Z, and the Kelvin sign U+212A (bytes
    226 132 170), the one character outside ASCII that lowers into it. *)
Definition lower_ascii (c : ascii) : ascii :=
  let n := nat_of_ascii c in
  if (Nat.leb 65 n && Nat.leb n 90)%bool then ascii_of_nat (n + 32) else c.

Fixpoint lower (s : string) : string :=
  match s with
  | EmptyString => EmptyString
  | String c s' =>
      match c, s' with
      | "226"%char, String "132"%char (String "170"%char s'') =>
          String "k"%char (lower s'')
      | _, _ => String (lower_ascii c) (lower s')
      end
  end.

(** [s.rfind(c)]: the index of the last occurrence. *)
Fixpoint rfind (c : ascii) (s : string) : option nat :=
  match s with
  | EmptyString => None
  | String a s' =>
      match rfind c s' with
      | Some i => Some (S i)
      | None => if Ascii.eqb a c then Some O else None
      end
  end.

(** Decimal digits of a non-negative integer. *)
Definition digits (n : Z) : string :=
  NilZero.string_of_uint (N.to_uint (Z.to_N n)).

(** [repr] of a string without quotes or escapes, and of a list of such. *)
Definition repr_str (s : string) : string := "'" +:+ s +:+ "'".
Definition repr_list (l : list string) : string :=
  "[" +:+ String.concat ", " (map repr_str l) +:+ "]".

(** [format(x, '.2f')]. *)
Definition format_2f (x : float) : string :=
  match x with
  | S754_nan => "nan"
  | S754_infinity s => if s then "-inf" else "inf"
  | S754_zero s => if s then "-0.00" else "0.00"
  | S754_finite s m e =>
      let k := scaled_digits m e 2 in
      let frac := k mod 100 in
      (if s then "-" else "") +:+ digits (k / 100) +:+ "."
        +:+ (if frac <? 10 then "0" else "") +:+ digits frac
  end.

(** Stable insertion sort: what [sorted(xs, key=...)] returns. *)
Section sorted.
Context {A : Type} (key : A -> string).

Fixpoint insert_by (x : A) (l : list A) : list A :=
  match l with
  | [] => [x]
  | y :: l' =>
      if String.leb (key x) (key y) then x :: y :: l'
      else y :: insert_by x l'
  end.

Definition sorted (l : list A) : list A :=
  fold_right insert_by [] l.
End sorted.

End pystr.

(** [pathlib.Path] as its sequence of components. *)
Module pathlib.

Definition Path := list string.

(** [str(p)] *)
Definition str (p : Path) : string := String.concat "/" p.
(** [p.name] *)
Definition name (p : Path) : string := List.last p "".
(** [p.parent] *)
Definition parent (p : Path) : Path := removelast p.
(** [p / child] *)
Definition joinpath (p : Path) (child : string) : Path := p ++ [child].

(** [p.suffix]: the last dot of the name and what follows it, unless the
    dot starts or ends the name. *)
Definition suffix (p : Path) : string :=
  let n := name p in
  match pystr.rfind "." n with
  | Some i =>
      if (Nat.ltb 0 i && Nat.ltb i (String.length n - 1))%bool
      then String.substring i (String.length n - i) n
      else ""
  | None => ""
  end.

End pathlib.
Import pathlib.

(* ===================================================================== *)
(** * The collaborators: OpenCV, the YOLO backend, the file system *)
(* ===================================================================== *)

(** A numpy frame: rows of pixels of channel values. *)
Definition ndarray : Type := list (list (list Z)).

Definition bbox_t : Type := float * float * float * float.

(** One element of [result.boxes]. *)
Record yolo_box := {
  box_cls : option Z;
  box_conf : option float;
  box_xyxy : option bbox_t
}.

(** One element of what [model.predict] returns. *)
Record yolo_result := { boxes : option (list yolo_box) }.

Record predict_kwargs := {
  kw_conf : float;
  kw_classes : list Z;
  kw_verbose : bool;
  kw_imgsz : option (Z + Z * Z);
  kw_device : string
}.

Record yolo_model := {
  names : list (Z * string);
  predict : ndarray -> predict_kwargs -> external (list yolo_result)
}.

(** What [capture.read()] does next: hand out a frame or raise. *)
Inductive read_event :=
| Frame (img : ndarray)
| ReadError (msg : string).

(** A container as the decoder sees it. *)
Record video_stream := {
  vs_width : float;
  vs_height : float;
  vs_fps : float;
  vs_frame_count : float;
  vs_reads : list read_event
}.

Definition point : Type := Z * Z.
Definition color : Type := Z * Z * Z.

Record platform := {
  path_exists : string -> bool;
  is_file : string -> bool;
  iterdir : string -> external (list string);
  (** what [cv2.VideoCapture(path)] finds; [None]: it cannot be opened *)
  decode : string -> option video_stream;
  (** whether [cv2.VideoWriter(path, fourcc, fps, size)] opens *)
  writer_accepts : string -> Z -> float -> Z * Z -> bool;
  YOLO : string -> external yolo_model;
  cuda_is_available : bool;
  (** [None]: [torch.backends] has no [mps] *)
  mps_is_available : option bool;
  (** the successive readings of [time.perf_counter()] *)
  perf_counter_at : nat -> float;
  (** [cv2.getTextSize(text, font, scale, thickness)] *)
  cv2_getTextSize : string -> Z -> float -> Z -> (Z * Z) * Z;
  (** [cv2.rectangle(img, pt1, pt2, color, thickness, lineType)]: the new
      content of [img].  The two drawing calls are taken to succeed: a
      coordinate beyond the range of a C int, which OpenCV refuses, is
      outside this model. *)
  cv2_rectangle : ndarray -> point -> point -> color -> Z -> Z -> ndarray;
  (** [cv2.putText(img, text, org, font, scale, color, thickness, lineType)] *)
  cv2_putText :
    ndarray -> string -> point -> Z -> float -> color -> Z -> Z -> ndarray
}.

(* ===================================================================== *)
(** * The store and the monad of runs *)
(* ===================================================================== *)

(** [int | Tuple[int, int]] *)
Inductive imgsz_t :=
| ImgInt (n : Z)
| ImgPair (h w : Z).

(** [class VideoMetrics] of main.py, declared here because instances live
    in the store. *)
Record VideoMetrics := {
  input_path : string;
  output_path : string;
  frames : Z;
  total_detections : Z;
  avg_detections_per_frame : float;
  processing_fps : float;
  duration_seconds : float;
  model : string;
  conf : float;
  imgsz : option imgsz_t;
  device : string
}.

(** The values a metrics field or a dict entry holds. *)
Inductive value :=
| VStr (s : string)
| VInt (n : Z)
| VFloat (x : float)
| VTuple (a b : Z)
| VNone.

Definition pydict : Type := list (string * value).

Inductive pyobject :=
| Instance (m : VideoMetrics)
| Dict (d : pydict).

Record VideoCapture := {
  cap_opened : bool;
  cap_stream : option video_stream;
  cap_pending : list read_event
}.

Record VideoWriter := {
  wr_opened : bool;
  wr_path : string;
  wr_fourcc : Z;
  wr_fps : float;
  wr_size : Z * Z;
  wr_frames : list ndarray
}.

(** What ends up in a text file the program writes. *)
Inductive document :=
| JsonDoc (records : list pydict)
| CsvDoc (header : list string) (rows : list (list value)).

Record world := {
  arrays : list ndarray;
  captures : list VideoCapture;
  writers : list VideoWriter;
  objects : list pyobject;
  dirs : list Path;
  files : gmap string document;
  clock : nat
}.

Module run.

Definition M (A : Type) : Type := world -> result A * world.

#[global] Instance M_ret : MRet M := fun A a w => (Ok a, w).
#[global] Instance M_bind : MBind M := fun A B k m w =>
  match m w with
  | (Ok a, w1) => k a w1
  | (Raise e, w1) => (Raise e, w1)
  end.

Definition raise {A} (k : exn_class) (msg : string) : M A :=
  fun w => (Raise (Exn k msg), w).

Definition lift {A} (r : result A) : M A := fun w => (r, w).

(** [try: body finally: cleanup] *)
Definition try_finally {A} (body : M A) (cleanup : M unit) : M A :=
  fun w =>
    match body w with
    | (r, w1) =>
        match cleanup w1 with
        | (Ok _, w2) => (r, w2)
        | (Raise e, w2) => (Raise e, w2)
        end
    end.

Definition fault {A} : M A := raise ModelFault "address not allocated".

Definition with_arrays (f : list ndarray -> list ndarray) (w : world) : world :=
  {| arrays := f (arrays w); captures := captures w; writers := writers w;
     objects := objects w; dirs := dirs w; files := files w; clock := clock w |}.
Definition with_captures (f : list VideoCapture -> list VideoCapture)
    (w : world) : world :=
  {| arrays := arrays w; captures := f (captures w); writers := writers w;
     objects := objects w; dirs := dirs w; files := files w; clock := clock w |}.
Definition with_writers (f : list VideoWriter -> list VideoWriter)
    (w : world) : world :=
  {| arrays := arrays w; captures := captures w; writers := f (writers w);
     objects := objects w; dirs := dirs w; files := files w; clock := clock w |}.
Definition with_objects (f : list pyobject -> list pyobject) (w : world) : world :=
  {| arrays := arrays w; captures := captures w; writers := writers w;
     objects := f (objects w); dirs := dirs w; files := files w; clock := clock w |}.
Definition with_dirs (f : list Path -> list Path) (w : world) : world :=
  {| arrays := arrays w; captures := captures w; writers := writers w;
     objects := objects w; dirs := f (dirs w); files := files w; clock := clock w |}.
Definition with_files (f : gmap string document -> gmap string document)
    (w : world) : world :=
  {| arrays := arrays w; captures := captures w; writers := writers w;
     objects := objects w; dirs := dirs w; files := f (files w); clock := clock w |}.
Definition with_clock (f : nat -> nat) (w : world) : world :=
  {| arrays := arrays w; captures := captures w; writers := writers w;
     objects := objects w; dirs := dirs w; files := files w; clock := f (clock w) |}.

(** A new object gets the next address of its store. *)
Definition new_array (img : ndarray) : M nat :=
  fun w => (Ok (length (arrays w)), with_arrays (fun l => l ++ [img]) w).
Definition get_array (a : nat) : M ndarray :=
  fun w => match arrays w !! a with
           | Some img => (Ok img, w)
           | None => fault w
           end.
Definition set_array (a : nat) (img : ndarray) : M unit :=
  fun w => match arrays w !! a with
           | Some _ => (Ok tt, with_arrays (fun l => <[a := img]> l) w)
           | None => fault w
           end.

Definition new_capture (c : VideoCapture) : M nat :=
  fun w => (Ok (length (captures w)), with_captures (fun l => l ++ [c]) w).
Definition get_capture (a : nat) : M VideoCapture :=
  fun w => match captures w !! a with
           | Some c => (Ok c, w)
           | None => fault w
           end.
Definition set_capture (a : nat) (c : VideoCapture) : M unit :=
  fun w => match captures w !! a with
           | Some _ => (Ok tt, with_captures (fun l => <[a := c]> l) w)
           | None => fault w
           end.

Definition new_writer (c : VideoWriter) : M nat :=
  fun w => (Ok (length (writers w)), with_writers (fun l => l ++ [c]) w).
Definition get_writer (a : nat) : M VideoWriter :=
  fun w => match writers w !! a with
           | Some c => (Ok c, w)
           | None => fault w
           end.
Definition set_writer (a : nat) (c : VideoWriter) : M unit :=
  fun w => match writers w !! a with
           | Some _ => (Ok tt, with_writers (fun l => <[a := c]> l) w)
           | None => fault w
           end.

Definition new_object (o : pyobject) : M nat :=
  fun w => (Ok (length (objects w)), with_objects (fun l => l ++ [o]) w).
Definition get_object (a : nat) : M pyobject :=
  fun w => match objects w !! a with
           | Some o => (Ok o, w)
           | None => fault w
           end.
Definition set_object (a : nat) (o : pyobject) : M unit :=
  fun w => match objects w !! a with
           | Some _ => (Ok tt, with_objects (fun l => <[a := o]> l) w)
           | None => fault w
           end.

(** [for x in xs: body(x)] *)
Fixpoint for_each {A} (xs : list A) (body : A -> M unit) : M unit :=
  match xs with
  | [] => mret tt
  | x :: rest => _ ← body x; for_each rest body
  end.

(** [[f(x) for x in xs]] *)
Fixpoint map_m {A B} (f : A -> M B) (xs : list A) : M (list B) :=
  match xs with
  | [] => mret []
  | x :: rest => y ← f x; ys ← map_m f rest; mret (y :: ys)
  end.

(** [p.mkdir(parents=True, exist_ok=True)] *)
Definition mkdir (p : Path) : M unit :=
  fun w => (Ok tt, with_dirs (fun l => l ++ [p]) w).

(** [time.perf_counter()] *)
Definition perf_counter (P : platform) : M float :=
  fun w => (Ok (perf_counter_at P (clock w)), with_clock S w).

(** Writing a whole file, replacing what was there. *)
Definition write_file (p : Path) (doc : document) : M unit :=
  fun w => (Ok tt, with_files (fun fs => <[str p := doc]> fs) w).

End run.
Import run.

(* ===================================================================== *)
(** * The OpenCV objects the program holds *)
(* ===================================================================== *)

Module cv2.

Definition FONT_HERSHEY_SIMPLEX : Z := 0.
Definition LINE_AA : Z := 16.
Definition FILLED : Z := -1.

Inductive cap_prop :=
| CAP_PROP_FRAME_WIDTH
| CAP_PROP_FRAME_HEIGHT
| CAP_PROP_FPS
| CAP_PROP_FRAME_COUNT.

(** [cv2.VideoCapture(path)] *)
Definition VideoCapture_new (P : platform) (path : string) : M nat :=
  new_capture
    match decode P path with
    | Some vs => {| cap_opened := true; cap_stream := Some vs;
                    cap_pending := vs_reads vs |}
    | None => {| cap_opened := false; cap_stream := None; cap_pending := [] |}
    end.

(** [capture.isOpened()] *)
Definition isOpened (capture : nat) : M bool :=
  c ← get_capture capture; mret (cap_opened c).

(** [capture.get(prop)] *)
Definition get (capture : nat) (prop : cap_prop) : M float :=
  c ← get_capture capture;
  mret match cap_opened c, cap_stream c with
       | true, Some vs =>
           match prop with
           | CAP_PROP_FRAME_WIDTH => vs_width vs
           | CAP_PROP_FRAME_HEIGHT => vs_height vs
           | CAP_PROP_FPS => vs_fps vs
           | CAP_PROP_FRAME_COUNT => vs_frame_count vs
           end
       | _, _ => f0
       end.

(** [capture.release()] *)
Definition release (capture : nat) : M unit :=
  c ← get_capture capture;
  set_capture capture
    {| cap_opened := false; cap_stream := cap_stream c; cap_pending := [] |}.

(** [capture.read()]: [(True, frame)] with a fresh frame, or [(False, None)]
    at the end of the stream or on a released capture. *)
Definition read (capture : nat) : M (bool * option nat) :=
  c ← get_capture capture;
  match cap_opened c, cap_pending c with
  | true, ev :: rest =>
      _ ← set_capture capture
            {| cap_opened := true; cap_stream := cap_stream c;
               cap_pending := rest |};
      match ev with
      | Frame img => frame ← new_array img; mret (true, Some frame)
      | ReadError msg => raise External msg
      end
  | _, _ => mret (false, None)
  end.

(** [cv2.VideoWriter_fourcc(c1, c2, c3, c4)] *)
Definition VideoWriter_fourcc (c1 c2 c3 c4 : ascii) : Z :=
  Z.of_nat (nat_of_ascii c1) + Z.of_nat (nat_of_ascii c2) * 2 ^ 8
  + Z.of_nat (nat_of_ascii c3) * 2 ^ 16 + Z.of_nat (nat_of_ascii c4) * 2 ^ 24.

(** [cv2.VideoWriter(path, fourcc, fps, size)] *)
Definition VideoWriter_new (P : platform) (path : string) (fourcc : Z)
    (fps : float) (size : Z * Z) : M nat :=
  new_writer {| wr_opened := writer_accepts P path fourcc fps size;
                wr_path := path; wr_fourcc := fourcc; wr_fps := fps;
                wr_size := size; wr_frames := [] |}.

(** [writer.isOpened()] *)
Definition writer_isOpened (writer : nat) : M bool :=
  wr ← get_writer writer; mret (wr_opened wr).

(** [writer.write(frame)]: ignored by a writer that is not open. *)
Definition write (writer : nat) (frame : nat) : M unit :=
  img ← get_array frame;
  wr ← get_writer writer;
  if wr_opened wr then
    set_writer writer
      {| wr_opened := true; wr_path := wr_path wr; wr_fourcc := wr_fourcc wr;
         wr_fps := wr_fps wr; wr_size := wr_size wr;
         wr_frames := wr_frames wr ++ [img] |}
  else mret tt.

(** [writer.release()] *)
Definition writer_release (writer : nat) : M unit :=
  wr ← get_writer writer;
  set_writer writer
    {| wr_opened := false; wr_path := wr_path wr; wr_fourcc := wr_fourcc wr;
       wr_fps := wr_fps wr; wr_size := wr_size wr; wr_frames := wr_frames wr |}.

(** [rectangle] and [putText] draw into the array they are given. *)
Definition rectangle (P : platform) (img : nat) (pt1 pt2 : point) (c : color)
    (thickness lineType : Z) : M unit :=
  content ← get_array img;
  set_array img (cv2_rectangle P content pt1 pt2 c thickness lineType).

Definition putText (P : platform) (img : nat) (text : string) (org : point)
    (font : Z) (scale : float) (c : color) (thickness lineType : Z) : M unit :=
  content ← get_array img;
  set_array img (cv2_putText P content text org font scale c thickness lineType).

(** [frame.copy()] *)
Definition copy (frame : nat) : M nat :=
  content ← get_array frame; new_array content.

End cv2.

(* ===================================================================== *)
(** * detector.py *)
(* ===================================================================== *)

Module detector.

(** [class Detection] *)
Record Detection := {
  bbox : bbox_t;
  confidence : float;
  class_name : string
}.

(** [class Detector]: its attributes after [__init__]. *)
Record Detector := {
  model_path : string;
  conf_threshold : float;
  det_imgsz : option imgsz_t;
  det_device : string;
  det_model : yolo_model;
  person_class_id : Z
}.

(** [Detector._resolve_person_class_id] *)
Fixpoint _resolve_person_class_id (names : list (Z * string)) : result Z :=
  match names with
  | [] => Raise (Exn ValueError "The loaded model does not contain a 'person' class.")
  | (class_id, name) :: rest =>
      if String.eqb (pystr.lower name) "person" then Ok class_id
      else _resolve_person_class_id rest
  end.

(** [Detector.__init__] *)
Definition __init__ (P : platform) (model_path : string) (conf_threshold : float)
    (imgsz : option imgsz_t) (device : string) : result Detector :=
  model ← call (YOLO P model_path);
  pid ← _resolve_person_class_id (names model);
  mret {| model_path := model_path; conf_threshold := conf_threshold;
          det_imgsz := imgsz; det_device := device;
          det_model := model; person_class_id := pid |}.

Definition imgsz_kwarg (i : imgsz_t) : Z + Z * Z :=
  match i with
  | ImgInt n => inl n
  | ImgPair h w => inr (h, w)
  end.

(** The loop over [boxes] in [detect]. *)
Fixpoint collect (bs : list yolo_box) : list Detection :=
  match bs with
  | [] => []
  | b :: rest =>
      match box_cls b, box_conf b, box_xyxy b with
      | Some _, Some c, Some xyxy =>
          {| bbox := xyxy; confidence := c; class_name := "person" |}
            :: collect rest
      | _, _, _ => collect rest
      end
  end.

(** [Detector.detect] *)
Definition detect (self : Detector) (frame : ndarray) : result (list Detection) :=
  let kwargs :=
    {| kw_conf := conf_threshold self;
       kw_classes := [person_class_id self];
       kw_verbose := false;
       kw_imgsz := option_map imgsz_kwarg (det_imgsz self);
       kw_device := det_device self |} in
  results ← call (predict (det_model self) frame kwargs);
  match results with
  | [] => mret []
  | first_result :: _ =>
      match boxes first_result with
      | None => mret []
      | Some bs => mret (collect bs)
      end
  end.

End detector.
Import detector.

(* ===================================================================== *)
(** * draw.py *)
(* ===================================================================== *)

Module draw.

(** [class DrawScale] *)
Record DrawScale := {
  text_scale : float;
  text_thickness : Z;
  box_thickness : Z;
  padding : Z
}.

Definition f0_40 : float := Eval vm_compute in literal 40 100.
Definition f0_55 : float := Eval vm_compute in literal 55 100.
Definition f0_75 : float := Eval vm_compute in literal 75 100.

Definition scale_small : DrawScale :=
  {| text_scale := f0_40;
     text_thickness := 1; box_thickness := 1; padding := 2 |}.
Definition scale_medium : DrawScale :=
  {| text_scale := f0_55;
     text_thickness := 1; box_thickness := 2; padding := 4 |}.
Definition scale_large : DrawScale :=
  {| text_scale := f0_75;
     text_thickness := 2; box_thickness := 3; padding := 6 |}.

Definition box_width (b : bbox_t) : float :=
  let '(x1, y1, x2, y2) := b in max2 f1 (fsub x2 x1).
Definition box_height (b : bbox_t) : float :=
  let '(x1, y1, x2, y2) := b in max2 f1 (fsub y2 y1).
Definition box_ref (b : bbox_t) : float :=
  min2 (box_width b) (box_height b).

(** [_scales_for_bbox] *)
Definition _scales_for_bbox (b : bbox_t) : DrawScale :=
  let w := box_width b in
  let h := box_height b in
  let ref := min2 w h in
  if flt ref f60 then scale_small
  else if flt ref f150 then scale_medium
  else scale_large.

Definition FONT : Z := cv2.FONT_HERSHEY_SIMPLEX.
Definition TEXT_SCALE : float := Eval vm_compute in literal 5 10.
Definition TEXT_THICKNESS : Z := 1.
Definition BOX_THICKNESS : Z := 2.
Definition BOX_COLOR : color := (46, 204, 113).
Definition TEXT_COLOR : color := (20, 20, 20).

(** [_as_int_tuple] *)
Definition _as_int_tuple (b : bbox_t) : result (Z * Z * Z * Z) :=
  let '(c1, c2, c3, c4) := b in
  x1 ← int_of_float c1;
  y1 ← int_of_float c2;
  x2 ← int_of_float c3;
  y2 ← int_of_float c4;
  mret (x1, y1, x2, y2).

(** [_draw_label] *)
Definition _draw_label (P : platform) (canvas : nat) (x1 y1 : Z) (text : string)
    (text_scale : float) (text_thickness padding : Z) : M unit :=
  let '((text_width, text_height), baseline) :=
    cv2_getTextSize P text FONT text_scale text_thickness in
  let y_top := Z.max (y1 - text_height - baseline - 2 * padding) 0 in
  let x_end := x1 + text_width + 2 * padding in
  let y_end := y_top + text_height + baseline + 2 * padding in
  _ ← cv2.rectangle P canvas (x1, y_top) (x_end, y_end) BOX_COLOR
        cv2.FILLED cv2.LINE_AA;
  let text_org := (x1 + padding, y_end - padding - baseline / 2) in
  cv2.putText P canvas text text_org FONT text_scale TEXT_COLOR
    text_thickness cv2.LINE_AA.

(** The body of the loop of [draw_detections]. *)
Definition draw_one (P : platform) (annotated : nat) (detection : Detection)
    : M unit :=
  let scale := _scales_for_bbox (bbox detection) in
  '(x1, y1, x2, y2) ← lift (_as_int_tuple (bbox detection));
  _ ← cv2.rectangle P annotated (x1, y1) (x2, y2) BOX_COLOR
        (box_thickness scale) cv2.LINE_AA;
  let label :=
    class_name detection +:+ " " +:+ pystr.format_2f (confidence detection) in
  _draw_label P annotated x1 y1 label
    (text_scale scale) (text_thickness scale) (padding scale).

(** [draw_detections] *)
Definition draw_detections (P : platform) (frame : nat)
    (detections : list Detection) : M nat :=
  annotated ← cv2.copy frame;
  _ ← for_each detections (draw_one P annotated);
  mret annotated.

End draw.

(* ===================================================================== *)
(** * video_io.py *)
(* ===================================================================== *)

Module video_io.

(** [class VideoMetadata] *)
Record VideoMetadata := {
  width : Z;
  height : Z;
  fps : float;
  frame_count : Z
}.

(** [VideoMetadata.size] *)
Definition size (self : VideoMetadata) : Z * Z := (width self, height self).

(** [open_video_capture] *)
Definition open_video_capture (P : platform) (path : Path)
    : M (nat * VideoMetadata) :=
  let video_path := path in
  if negb (path_exists P (str video_path)) then
    raise FileNotFoundError ("Input video not found: " +:+ str video_path)
  else
    capture ← cv2.VideoCapture_new P (str video_path);
    opened ← cv2.isOpened capture;
    if negb opened then
      raise ValueError ("Failed to open video: " +:+ str video_path)
    else
      w ← cv2.get capture cv2.CAP_PROP_FRAME_WIDTH;
      width ← lift (int_of_float w);
      h ← cv2.get capture cv2.CAP_PROP_FRAME_HEIGHT;
      height ← lift (int_of_float h);
      r ← cv2.get capture cv2.CAP_PROP_FPS;
      let fps := if is_zero r then f0 else r in
      n ← cv2.get capture cv2.CAP_PROP_FRAME_COUNT;
      frame_count ← lift (int_of_float n);
      if (width <=? 0) || (height <=? 0) then
        _ ← cv2.release capture;
        raise ValueError ("Invalid video dimensions for: " +:+ str video_path)
      else
        mret (capture, {| width := width; height := height; fps := fps;
                          frame_count := frame_count |}).

(** [create_video_writer] *)
Definition create_video_writer (P : platform) (output_path : Path)
    (metadata : VideoMetadata) : M nat :=
  let output := output_path in
  _ ← mkdir (parent output);
  let fourcc := cv2.VideoWriter_fourcc "m" "p" "4" "v" in
  let fps := if fgt (fps metadata) f0 then fps metadata else f30 in
  writer ← cv2.VideoWriter_new P (str output) fourcc fps (size metadata);
  opened ← cv2.writer_isOpened writer;
  if negb opened then
    raise ValueError ("Failed to create VideoWriter for: " +:+ str output)
  else mret writer.

End video_io.

(* ===================================================================== *)
(** * main.py *)
(* ===================================================================== *)

Module main.
Import video_io.

Definition VIDEO_EXTENSIONS : gset string := {[ ".mp4"; ".mov"; ".avi"; ".mkv" ]}.

(** The expression [int(math.ceil(x / stride) * stride)]. *)
Definition snap (x stride : Z) : result Z :=
  q ← int_truediv x stride;
  c ← math_ceil q;
  mret (c * stride).

(** [_adjust_imgsz_to_stride] *)
Definition _adjust_imgsz_to_stride (imgsz : imgsz_t) (stride : Z)
    : result imgsz_t :=
  match imgsz with
  | ImgInt n => r ← snap n stride; mret (ImgInt r)
  | ImgPair height width =>
      h ← snap height stride;
      w ← snap width stride;
      mret (ImgPair h w)
  end.

(** [_normalize_device] *)
Definition _normalize_device (P : platform) (device : string) : string :=
  if negb (String.eqb (pystr.lower device) "auto") then device
  else if cuda_is_available P then "cuda:0"
  else match mps_is_available P with
       | Some true => "mps"
       | _ => "cpu"
       end.

(** The [while True] loop of [process_video].  [fuel] bounds the number of
    iterations; [process_video] passes one more than the reads the capture
    still holds, which [process_video_no_fault] shows is never exhausted.
    The progress line printed per frame is not part of the state. *)
Fixpoint stream_frames (fuel : nat) (P : platform) (capture : nat)
    (det : Detector) (writer : nat) (frame_index total_detections : Z)
    : M (Z * Z) :=
  match fuel with
  | O => raise ModelFault "loop bound exhausted"
  | S fuel' =>
      '(ret, frame) ← cv2.read capture;
      match ret, frame with
      | true, Some frame =>
          img ← get_array frame;
          detections ← lift (detect det img);
          let total_detections :=
            total_detections + Z.of_nat (length detections) in
          annotated ← draw.draw_detections P frame detections;
          _ ← cv2.write writer annotated;
          let frame_index := frame_index + 1 in
          stream_frames fuel' P capture det writer frame_index total_detections
      | _, _ => mret (frame_index, total_detections)
      end
  end.

(** [process_video]; the result is the address of the new [VideoMetrics]. *)
Definition process_video (P : platform) (input_path output_path : Path)
    (model_path : string) (conf : float) (imgsz : option imgsz_t)
    (device : string) : M nat :=
  '(capture, metadata) ← open_video_capture P input_path;
  let effective_imgsz :=
    match imgsz with
    | None => ImgPair (height metadata) (width metadata)
    | Some i => i
    end in
  effective_imgsz ← lift (_adjust_imgsz_to_stride effective_imgsz 32);
  let effective_device := _normalize_device P device in
  det ← lift (detector.__init__ P model_path conf (Some effective_imgsz)
                effective_device);
  writer ← create_video_writer P output_path metadata;
  start ← perf_counter P;
  '(frame_index, total_detections) ←
    try_finally
      (c ← get_capture capture;
       stream_frames (S (length (cap_pending c))) P capture det writer 0 0)
      (_ ← cv2.release capture; cv2.writer_release writer);
  finish ← perf_counter P;
  let duration := fsub finish start in
  processing_fps ←
    lift (if fgt duration f0 then int_div_float frame_index duration
          else Ok f0);
  avg_det ←
    lift (if negb (frame_index =? 0)
          then int_truediv total_detections frame_index
          else Ok f0);
  new_object (Instance
    {| input_path := str input_path;
       output_path := str output_path;
       frames := frame_index;
       total_detections := total_detections;
       avg_detections_per_frame := avg_det;
       processing_fps := processing_fps;
       duration_seconds := duration;
       model := model_path;
       conf := conf;
       imgsz := Some effective_imgsz;
       device := effective_device |}).

(** [_list_videos] *)
Definition is_video (P : platform) (p : Path) : bool :=
  is_file P (str p) && bool_decide (pystr.lower (suffix p) ∈ VIDEO_EXTENSIONS).

Definition _list_videos (P : platform) (directory : Path) : M (list Path) :=
  children ← lift (call (iterdir P (str directory)));
  mret (pystr.sorted name
          (List.filter (is_video P)
             (map (joinpath directory) children))).

(** [process_directory] *)
Definition process_directory (P : platform) (input_dir output_dir : Path)
    (model_path : string) (conf : float) (imgsz : option imgsz_t)
    (device : string) : M (list nat) :=
  videos ← _list_videos P input_dir;
  match videos with
  | [] =>
      raise FileNotFoundError
        ("No videos with extensions "
         +:+ pystr.repr_list (pystr.sorted id (elements VIDEO_EXTENSIONS))
         +:+ " found in " +:+ str input_dir)
  | _ =>
      _ ← mkdir output_dir;
      map_m (fun video_path =>
               let target_path := joinpath output_dir (name video_path) in
               process_video P video_path target_path model_path conf imgsz
                 device)
            videos
  end.

(** [dataclasses.asdict]: a new dict of the fields in declared order. *)
Definition imgsz_value (i : option imgsz_t) : value :=
  match i with
  | None => VNone
  | Some (ImgInt n) => VInt n
  | Some (ImgPair h w) => VTuple h w
  end.

Definition fields (m : VideoMetrics) : pydict :=
  [ ("input_path", VStr (input_path m));
    ("output_path", VStr (output_path m));
    ("frames", VInt (frames m));
    ("total_detections", VInt (total_detections m));
    ("avg_detections_per_frame", VFloat (avg_detections_per_frame m));
    ("processing_fps", VFloat (processing_fps m));
    ("duration_seconds", VFloat (duration_seconds m));
    ("model", VStr (model m));
    ("conf", VFloat (conf m));
    ("imgsz", imgsz_value (imgsz m));
    ("device", VStr (device m)) ].

Definition asdict (obj : nat) : M nat :=
  o ← get_object obj;
  match o with
  | Instance m => new_object (Dict (fields m))
  | Dict _ => raise TypeError "asdict() should be called on dataclass instances"
  end.

(** Reading a dict, and [d[key] = v]: an existing key keeps its place, a
    new one goes last. *)
Definition get_dict (d : nat) : M pydict :=
  o ← get_object d;
  match o with
  | Dict items => mret items
  | Instance _ => fault
  end.

Fixpoint setitem (key : string) (v : value) (items : pydict) : pydict :=
  match items with
  | [] => [(key, v)]
  | (k, old) :: rest =>
      if String.eqb k key then (k, v) :: rest
      else (k, old) :: setitem key v rest
  end.

Definition dict_setitem (d : nat) (key : string) (v : value) : M unit :=
  items ← get_dict d;
  set_object d (Dict (setitem key v items)).

(** [_round_float_fields] *)
Definition round_value (v : value) (ndigits : Z) : value :=
  match v with
  | VFloat x => VFloat (round x ndigits)
  | _ => v
  end.

Definition _round_float_fields (data : list nat) (ndigits : Z) : M (list nat) :=
  map_m (fun item =>
           items ← get_dict item;
           new_item ← new_object (Dict []);
           _ ← for_each items (fun '(key, v) =>
                 dict_setitem new_item key (round_value v ndigits));
           mret new_item)
        data.

(** [csv.DictWriter._dict_to_list] with [extrasaction='raise'] and
    [restval='']. *)
Definition lookup_key (key : string) (items : pydict) : option value :=
  snd <$> find (fun kv => String.eqb (fst kv) key) items.

Definition _dict_to_list (fieldnames : list string) (rowdict : pydict)
    : result (list value) :=
  if forallb (fun kv => existsb (String.eqb (fst kv)) fieldnames) rowdict
  then Ok (map (fun key => default (VStr "") (lookup_key key rowdict)) fieldnames)
  else Raise (Exn ValueError "dict contains fields not in fieldnames").

Definition append_row (p : Path) (cells : list value) : M unit :=
  fun w =>
    match files w !! str p with
    | Some (CsvDoc header rows) =>
        (Ok tt, with_files (fun fs => <[str p := CsvDoc header (rows ++ [cells])]> fs) w)
    | _ => fault w
    end.

(** [write_metrics_files] *)
Definition write_metrics_files (metrics : list nat) (output_dir : Path) : M unit :=
  _ ← mkdir output_dir;
  let json_path := joinpath output_dir "metrics.json" in
  let csv_path := joinpath output_dir "metrics.csv" in
  dicts ← map_m asdict metrics;
  data ← _round_float_fields dicts 2;
  records ← map_m get_dict data;
  _ ← write_file json_path (JsonDoc records);
  match data with
  | [] => mret tt
  | first :: _ =>
      items ← get_dict first;
      let headers := map fst items in
      _ ← write_file csv_path (CsvDoc headers []);
      for_each data (fun row =>
        rowdict ← get_dict row;
        cells ← lift (_dict_to_list headers rowdict);
        append_row csv_path cells)
  end.

(** What [parse_args] returns: the values of [--model], [--conf],
    [--imgsz] and [--device]. *)
Record Namespace := {
  args_model : string;
  args_conf : float;
  args_imgsz : option Z;
  args_device : string
}.

(** [main], given what [parse_args] returned and what [Path.is_dir]
    answers. *)
Definition main (P : platform) (is_dir : string -> bool) (args : Namespace)
    : M unit :=
  let input_path : Path := ["assets"] in
  let output_path : Path := ["outputs"] in
  if is_dir (str input_path) then
    let output_dir :=
      if String.eqb (suffix output_path) "" then output_path
      else parent output_path in
    metrics ← process_directory P input_path output_dir (args_model args)
                (args_conf args) (option_map ImgInt (args_imgsz args))
                (args_device args);
    write_metrics_files metrics output_dir
  else
    final_output ←
      (if is_dir (str output_path) || String.eqb (suffix output_path) "" then
         _ ← mkdir output_path;
         mret (joinpath output_path (name input_path))
       else
         _ ← mkdir (parent output_path);
         mret output_path);
    metrics ← process_video P input_path final_output (args_model args)
                (args_conf args) (option_map ImgInt (args_imgsz args))
                (args_device args);
    write_metrics_files [metrics] (parent final_output).

End main.

(* ===================================================================== *)
(** * Sample collaborators *)
(* ===================================================================== *)

Module sample.

Definition frame : ndarray := [[[0; 0; 0]; [255; 255; 255]]].

Definition person_box : yolo_box :=
  {| box_cls := Some 0;
     box_conf := Some (literal 87 100);
     box_xyxy := Some (literal 10 1, literal 10 1, literal 40 1, literal 40 1) |}.

Definition yolov8n : yolo_model :=
  {| names := [(0, "person"); (1, "bicycle")];
     predict := fun _ _ => Returns [ {| boxes := Some [person_box] |} ] |}.

(** A model without the class the detector looks for. *)
Definition plates_only : yolo_model :=
  {| names := [(0, "plate")];
     predict := fun _ _ => Returns [] |}.

(** A container of 640x480 at 25 frames per second holding three frames. *)
Definition clip : video_stream :=
  {| vs_width := literal 640 1;
     vs_height := literal 480 1;
     vs_fps := literal 25 1;
     vs_frame_count := literal 3 1;
     vs_reads := [Frame frame; Frame frame; Frame frame] |}.

(** Painting is kept abstract: a rectangle sets the first channel of the
    first pixel to its thickness, a text leaves the image as it is. *)
Definition paint (img : ndarray) (thickness : Z) : ndarray :=
  match img with
  | (( _ :: px) :: row) :: rows => ((thickness :: px) :: row) :: rows
  | _ => img
  end.

(** Ten frames in which the model finds nobody. *)
Definition long_clip : video_stream :=
  {| vs_width := literal 640 1;
     vs_height := literal 480 1;
     vs_fps := literal 25 1;
     vs_frame_count := literal 10 1;
     vs_reads := repeat (Frame frame) 10 |}.

Definition quiet : yolo_model :=
  {| names := [(0, "person")];
     predict := fun _ _ => Returns [ {| boxes := Some [] |} ] |}.

Definition machine (model : yolo_model) (stream : video_stream)
    (listing : list string) : platform :=
  {| path_exists := fun p => String.eqb p "assets/a.mp4"
                             || String.eqb p "assets/b.MP4";
     is_file := fun p => negb (String.eqb p "assets/old");
     iterdir := fun d => if String.eqb d "assets" then Returns listing
                         else Throws "No such file or directory";
     decode := fun p => Some stream;
     writer_accepts := fun _ _ _ _ => true;
     YOLO := fun _ => Returns model;
     cuda_is_available := false;
     mps_is_available := None;
     perf_counter_at := fun n => literal (Z.of_nat n * 3) 2;
     cv2_getTextSize := fun _ _ _ _ => ((60, 9), 4);
     cv2_rectangle := fun img _ _ _ thickness _ => paint img thickness;
     cv2_putText := fun img _ _ _ _ _ _ _ => img |}.

Definition pc : platform :=
  machine yolov8n clip ["b.MP4"; "notes.txt"; "a.mp4"; ".mp4"; "old"].
Definition pc_without_person : platform := machine plates_only clip [].
Definition pc_without_videos : platform :=
  machine yolov8n clip ["notes.txt"; ".mp4"].
Definition pc_quiet : platform := machine quiet long_clip [].

(** A machine on which no video writer opens. *)
Definition pc_without_codec : platform :=
  {| path_exists := path_exists pc;
     is_file := is_file pc;
     iterdir := iterdir pc;
     decode := decode pc;
     writer_accepts := fun _ _ _ _ => false;
     YOLO := YOLO pc;
     cuda_is_available := cuda_is_available pc;
     mps_is_available := mps_is_available pc;
     perf_counter_at := perf_counter_at pc;
     cv2_getTextSize := cv2_getTextSize pc;
     cv2_rectangle := cv2_rectangle pc;
     cv2_putText := cv2_putText pc |}.

Definition boot : world :=
  {| arrays := []; captures := []; writers := []; objects := [];
     dirs := []; files := ∅; clock := 0 |}.

Definition threshold : float := Eval vm_compute in literal 25 100.

(** One video through the pipeline. *)
Definition run : result nat * world :=
  main.process_video pc ["assets"; "a.mp4"] ["outputs"; "a.mp4"]
    "yolov8n.pt" threshold None "auto" boot.

(** A metrics record as a run would leave it, with unrounded floats. *)
Definition record : VideoMetrics :=
  {| input_path := "assets/a.mp4";
     output_path := "outputs/a.mp4";
     frames := 3;
     total_detections := 4;
     avg_detections_per_frame := literal 4 3;
     processing_fps := literal 2675 1000;
     duration_seconds := literal 1 8;
     model := "yolov8n.pt";
     conf := threshold;
     imgsz := Some (ImgPair 480 640);
     device := "cpu" |}.

Definition with_record : world :=
  {| arrays := []; captures := []; writers := [];
     objects := [Instance record];
     dirs := []; files := ∅; clock := 0 |}.

Definition with_frame : world :=
  {| arrays := [frame]; captures := []; writers := []; objects := [];
     dirs := []; files := ∅; clock := 0 |}.

Definition detection : Detection :=
  {| bbox := (literal 10 1, literal 10 1, literal 40 1, literal 40 1);
     confidence := literal 87 100;
     class_name := "person" |}.

(** A container whose third read fails, and a machine that decodes it. *)
Definition torn_clip : video_stream :=
  {| vs_width := literal 640 1;
     vs_height := literal 480 1;
     vs_fps := literal 25 1;
     vs_frame_count := literal 3 1;
     vs_reads := [Frame frame; Frame frame; ReadError "truncated"] |}.
Definition pc_torn : platform := machine yolov8n torn_clip [].

(** The detector a run on [pc] builds, and a frame as it annotates it. *)
Definition detector : Detector :=
  {| model_path := "yolov8n.pt";
     conf_threshold := threshold;
     det_imgsz := Some (ImgPair 480 640);
     det_device := "cpu";
     det_model := yolov8n;
     person_class_id := 0 |}.
Definition annotated : ndarray := [[[-1; 0; 0]; [255; 255; 255]]].

(** A detection whose box has lost a coordinate. *)
Definition lost : Detection :=
  {| bbox := (literal 10 1, S754_nan, literal 40 1, literal 40 1);
     confidence := literal 50 100;
     class_name := "person" |}.

(** A container without a frame. *)
Definition empty_clip : video_stream :=
  {| vs_width := literal 640 1;
     vs_height := literal 480 1;
     vs_fps := literal 25 1;
     vs_frame_count := exact_int 0;
     vs_reads := [] |}.
Definition pc_empty : platform := machine yolov8n empty_clip [].

(** A machine that cannot decode b.MP4. *)
Definition pc_second_broken : platform :=
  {| path_exists := path_exists pc;
     is_file := is_file pc;
     iterdir := iterdir pc;
     decode := fun p => if String.eqb p "assets/b.MP4" then None else Some clip;
     writer_accepts := writer_accepts pc;
     YOLO := YOLO pc;
     cuda_is_available := cuda_is_available pc;
     mps_is_available := mps_is_available pc;
     perf_counter_at := perf_counter_at pc;
     cv2_getTextSize := cv2_getTextSize pc;
     cv2_rectangle := cv2_rectangle pc;
     cv2_putText := cv2_putText pc |}.


(** [parse_args()] on an empty command line, and a file system in which
    assets is a directory. *)
Definition args : main.Namespace :=
  {| main.args_model := "yolov8n.pt";
     main.args_conf := threshold;
     main.args_imgsz := None;
     main.args_device := "auto" |}.
Definition assets_is_dir (p : string) : bool := String.eqb p "assets".

End sample.

(* ===================================================================== *)
(** * Vocabulary of the properties *)
(* ===================================================================== *)

(** A detection box whose four coordinates are finite numbers (the data
    model of detections admits no other). *)
Definition bbox_finite (b : bbox_t) : bool :=
  let '(x1, y1, x2, y2) := b in
  is_finite x1 && is_finite y1 && is_finite x2 && is_finite y2.

(** Every run of [m] leaves the world related by [R] to the one it started
    in, whether it returns or raises. *)
Definition respects (R : relation world) {A} (m : M A) : Prop :=
  forall w, R w (m w).2.

(** Two worlds that differ at most in the content of the array at [a]. *)
Definition differ_at (a : nat) (w w' : world) : Prop :=
  length (arrays w') = length (arrays w) /\
  (forall i, i <> a -> arrays w' !! i = arrays w !! i) /\
  captures w' = captures w /\ writers w' = writers w /\
  objects w' = objects w /\ dirs w' = dirs w /\ files w' = files w /\
  clock w' = clock w.

(** What streaming frames through the pipeline leaves alone: no object, no
    directory, no file and no clock reading changes, no capture or writer is
    created, and no array disappears. *)
Definition streaming (w w' : world) : Prop :=
  objects w' = objects w /\ dirs w' = dirs w /\ files w' = files w /\
  clock w' = clock w /\
  length (captures w') = length (captures w) /\
  length (writers w') = length (writers w) /\
  (length (arrays w) <= length (arrays w'))%nat.

(** What acquiring the source and the sink leaves alone: the clock is not
    read, no object is made and no file is written. *)
Definition acquiring (w w' : world) : Prop :=
  clock w' = clock w /\ objects w' = objects w /\ files w' = files w.

(** What the steps after the streaming phase leave alone. *)
Definition handles_kept (w w' : world) : Prop :=
  captures w' = captures w /\ writers w' = writers w.

(** The capture object [cv2.VideoCapture] builds for a container it can
    decode, and for one it cannot. *)
Definition opened_capture (vs : video_stream) : VideoCapture :=
  {| cap_opened := true; cap_stream := Some vs; cap_pending := vs_reads vs |}.
Definition failed_capture : VideoCapture :=
  {| cap_opened := false; cap_stream := None; cap_pending := [] |}.

(** The record a completed run of [process_video] builds from its counters
    and clock readings. *)
Definition metrics_of (P : platform) (i o : Path) (mp : string) (cf : float)
    (dev : string) (eff : imgsz_t) (fi td : Z) (start finish pfps avg : float)
    : VideoMetrics :=
  {| input_path := str i;
     output_path := str o;
     frames := fi;
     total_detections := td;
     avg_detections_per_frame := avg;
     processing_fps := pfps;
     duration_seconds := fsub finish start;
     model := mp;
     conf := cf;
     imgsz := Some eff;
     device := main._normalize_device P dev |}.

(** [runs_in_order f xs w ys w']: the calls [f x], for [x] along [xs], each
    return, one after the other, each starting in the world the previous one
    left, and [ys] are their results. *)
Inductive runs_in_order {A B} (f : A -> M B)
    : list A -> world -> list B -> world -> Prop :=
| runs_nil w : runs_in_order f [] w [] w
| runs_cons x xs y ys w w1 w' :
    f x w = (Ok y, w1) ->
    runs_in_order f xs w1 ys w' ->
    runs_in_order f (x :: xs) w (y :: ys) w'.

(** What the export writes for a metrics record: each field under its name,
    floats rounded to [ndigits] places. *)
Definition export_item (ndigits : Z) (kv : string * value) : string * value :=
  (kv.1, main.round_value kv.2 ndigits).

Definition exported (ms : list VideoMetrics) : list pydict :=
  map (fun m => map (export_item 2) (main.fields m)) ms.

(** A result that is not an artefact of the model. *)
Definition genuine {A} (r : result A) : Prop :=
  forall e, r = Raise e -> exn_kind e <> ModelFault.

(** What the streaming loop may end in, started with counters [fi] and [td]
    and the writer [wr] at address [writer]: no fault, and on return a
    frame counter advanced by the number of frames appended to the writer. *)
Definition streamed (writer : nat) (wr : VideoWriter) (fi td : Z)
    (out : result (Z * Z) * world) : Prop :=
  genuine out.1 /\
  forall fi' td', out.1 = Ok (fi', td') ->
    exists wr' written,
      writers out.2 !! writer = Some wr' /\ wr_opened wr' = true /\
      wr_frames wr' = wr_frames wr ++ written /\
      fi' = fi + Z.of_nat (length written) /\ td <= td'.

(** A capture after [release()], a writer after [release()]. *)
Definition closed_capture (c : VideoCapture) : VideoCapture :=
  {| cap_opened := false; cap_stream := cap_stream c; cap_pending := [] |}.
Definition closed_writer (wr : VideoWriter) : VideoWriter :=
  {| wr_opened := false; wr_path := wr_path wr; wr_fourcc := wr_fourcc wr;
     wr_fps := wr_fps wr; wr_size := wr_size wr; wr_frames := wr_frames wr |}.

(** A box of a prediction that carries a class, a confidence and
    coordinates. *)
Definition complete_box (b : yolo_box) : bool :=
  match box_cls b, box_conf b, box_xyxy b with
  | Some _, Some _, Some _ => true
  | _, _, _ => false
  end.

(** The keyword arguments [detect] hands to [model.predict]. *)
Definition asked (det : Detector) : predict_kwargs :=
  {| kw_conf := conf_threshold det;
     kw_classes := [person_class_id det];
     kw_verbose := false;
     kw_imgsz := option_map imgsz_kwarg (det_imgsz det);
     kw_device := det_device det |}.

(** The content of a canvas holding [img] after [_draw_label]. *)
Definition painted_label (P : platform) (img : ndarray) (x1 y1 : Z)
    (text : string) (text_scale : float) (text_thickness padding : Z) : ndarray :=
  let '((text_width, text_height), baseline) :=
    cv2_getTextSize P text draw.FONT text_scale text_thickness in
  let y_top := Z.max (y1 - text_height - baseline - 2 * padding) 0 in
  let x_end := x1 + text_width + 2 * padding in
  let y_end := y_top + text_height + baseline + 2 * padding in
  cv2_putText P
    (cv2_rectangle P img (x1, y_top) (x_end, y_end) draw.BOX_COLOR
       cv2.FILLED cv2.LINE_AA)
    text (x1 + padding, y_end - padding - baseline / 2) draw.FONT text_scale
    draw.TEXT_COLOR text_thickness cv2.LINE_AA.

(** The content of the copy after one turn of the loop of
    [draw_detections]: the box, then the label. *)
Definition painted_detection (P : platform) (img : ndarray) (d : Detection)
    : result ndarray :=
  let scale := draw._scales_for_bbox (bbox d) in
  '(x1, y1, x2, y2) ← draw._as_int_tuple (bbox d);
  mret (painted_label P
          (cv2_rectangle P img (x1, y1) (x2, y2) draw.BOX_COLOR
             (draw.box_thickness scale) cv2.LINE_AA)
          x1 y1
          (class_name d +:+ " " +:+ pystr.format_2f (confidence d))
          (draw.text_scale scale) (draw.text_thickness scale)
          (draw.padding scale)).

(** The content of the frame [draw_detections] returns for a frame holding
    [img]. *)
Fixpoint annotate (P : platform) (img : ndarray) (ds : list Detection)
    : result ndarray :=
  match ds with
  | [] => Ok img
  | d :: rest => x ← painted_detection P img d; annotate P x rest
  end.

(** One turn of the streaming loop on a frame holding [img]: the detections
    found in it and the frame handed to the writer. *)
Definition turn (P : platform) (det : Detector) (img : ndarray)
    : result (list Detection * ndarray) :=
  ds ← detect det img;
  out ← annotate P img ds;
  mret (ds, out).

(** The streaming loop over the reads a capture still holds, started with
    counters [fi] and [td]: the frames handed to the writer, the reads left
    in the capture, and what the loop ends in. *)
Fixpoint stream_outcome (P : platform) (det : Detector) (evs : list read_event)
    (fi td : Z) : list ndarray * list read_event * result (Z * Z) :=
  match evs with
  | [] => ([], [], Ok (fi, td))
  | ReadError msg :: rest => ([], rest, Raise (Exn External msg))
  | Frame img :: rest =>
      match turn P det img with
      | Raise e => ([], rest, Raise e)
      | Ok (ds, out) =>
          let '(written, pending, r) :=
            stream_outcome P det rest (fi + 1) (td + Z.of_nat (length ds)) in
          (out :: written, pending, r)
      end
  end.

(** An open capture with [pending] left to read, and an open writer that
    has been handed [frames] more. *)
Definition reading (c : VideoCapture) (pending : list read_event) : VideoCapture :=
  {| cap_opened := true; cap_stream := cap_stream c; cap_pending := pending |}.
Definition written_to (wr : VideoWriter) (frames : list ndarray) : VideoWriter :=
  {| wr_opened := true; wr_path := wr_path wr; wr_fourcc := wr_fourcc wr;
     wr_fps := wr_fps wr; wr_size := wr_size wr;
     wr_frames := wr_frames wr ++ frames |}.

(** The writer [create_video_writer] opens for the output [o] of a source
    with metadata [md], and the same writer released after it was handed
    [frames]. *)
Definition sink (o : Path) (md : video_io.VideoMetadata) : VideoWriter :=
  {| wr_opened := true; wr_path := str o;
     wr_fourcc := cv2.VideoWriter_fourcc "m" "p" "4" "v";
     wr_fps := if fgt (video_io.fps md) f0 then video_io.fps md else f30;
     wr_size := (video_io.width md, video_io.height md);
     wr_frames := [] |}.
Definition output (o : Path) (md : video_io.VideoMetadata)
    (frames : list ndarray) : VideoWriter :=
  closed_writer (written_to (sink o md) frames).

(** Two worlds with the same files. *)
Definition files_kept (w w' : world) : Prop := files w' = files w.

(** The metrics files of a batch of records under [output_dir], added to
    the files [fs]. *)
Definition with_metrics (output_dir : Path) (records : list VideoMetrics)
    (fs : gmap string document) : gmap string document :=
  let fs1 := <[str (joinpath output_dir "metrics.json")
               := JsonDoc (exported records)]> fs in
  match records with
  | [] => fs1
  | first :: _ =>
      <[str (joinpath output_dir "metrics.csv")
        := CsvDoc (map fst (main.fields first))
             (map (map snd) (exported records))]> fs1
  end.

(* ===================================================================== *)
(** * Properties *)
(* ===================================================================== *)

Section float_order.

Lemma compare_cont_opp (p q : positive) :
  Pos.compare_cont Eq q p = CompOpp (Pos.compare_cont Eq p q).
Proof. apply (Pos.compare_antisym p q). Qed.

(** Swapping the operands of a float comparison flips its answer. *)
Lemma SFcompare_swap (x y : float) :
  SFcompare y x = option_map CompOpp (SFcompare x y).
Proof.
  destruct x as [sx|sx| |sx mx ex], y as [sy|sy| |sy my ey]; simpl;
    try reflexivity; try (destruct sx; reflexivity);
    try (destruct sy; reflexivity);
    try (destruct sx, sy; reflexivity).
  destruct sx, sy; simpl; try reflexivity;
    rewrite (Z.compare_antisym ex ey);
    destruct (ex ?= ey); simpl; try reflexivity;
    rewrite compare_cont_opp; try reflexivity;
    now rewrite CompOpp_involutive.
Qed.

Lemma fle_not_flt (x y : float) : fle x y = true -> flt y x = false.
Proof.
  unfold fle, flt, SFleb, SFltb. rewrite (SFcompare_swap x y).
  destruct (SFcompare x y) as [[]|]; simpl; congruence.
Qed.

Lemma SFcompare_total (x y : float) :
  is_nan x = false -> is_nan y = false -> exists c, SFcompare x y = Some c.
Proof. destruct x, y; simpl; try discriminate; eauto. Qed.

Lemma flt_false_fle (x y : float) :
  is_nan x = false -> is_nan y = false -> flt x y = false -> fle y x = true.
Proof.
  intros Hx Hy. unfold fle, flt, SFleb, SFltb. rewrite (SFcompare_swap x y).
  destruct (SFcompare_total x y Hx Hy) as [c ->].
  destruct c; simpl; congruence.
Qed.

Lemma flt_not_nan (x y : float) :
  flt x y = true -> is_nan x = false /\ is_nan y = false.
Proof. destruct x, y; simpl; auto; discriminate. Qed.

Lemma max2_not_nan (a b : float) : is_nan a = false -> is_nan (max2 a b) = false.
Proof.
  intros Ha. unfold max2, fgt. destruct (SFltb a b) eqn:E; [|exact Ha].
  now destruct (flt_not_nan a b E).
Qed.

Lemma min2_not_nan (a b : float) : is_nan a = false -> is_nan (min2 a b) = false.
Proof.
  intros Ha. unfold min2. destruct (flt b a) eqn:E; [|exact Ha].
  now destruct (flt_not_nan b a E).
Qed.

(** 150 <= x rules out x < 60. *)
Lemma fle_150_not_lt_60 (x : float) : fle f150 x = true -> flt x f60 = false.
Proof.
  destruct x as [s|s| |s m e];
    [ destruct s; vm_compute; congruence
    | destruct s; vm_compute; congruence
    | vm_compute; congruence
    | ].
  unfold fle, flt, SFleb, SFltb, f150, f60, SFcompare.
  destruct s; [discriminate|].
  destruct (Z.compare_spec (-45) e), (Z.compare_spec e (-47)); try lia; congruence.
Qed.

End float_order.

Section draw_properties.
Import draw.

Lemma box_ref_not_nan (b : bbox_t) : is_nan (box_ref b) = false.
Proof.
  destruct b as [[[x1 y1] x2] y2]. unfold box_ref, box_width, box_height.
  apply min2_not_nan, max2_not_nan. reflexivity.
Qed.

(** C2. The scale of a box is chosen by thresholding
    ref = min(max(1, x2-x1), max(1, y2-y1)): below 60 the small tuple
    (0.40, 1, 1, 2), from 60 and below 150 the medium one, from 150 on
    the large one; exactly one of the three ranges holds for every box,
    the three tuples differ, and two detections with the same box get the
    same scale whatever their confidence and class label. *)
Theorem scales_for_bbox_buckets (x1 y1 x2 y2 : float) :
  let w := max2 f1 (fsub x2 x1) in
  let h := max2 f1 (fsub y2 y1) in
  let ref := min2 w h in
  let chosen := _scales_for_bbox (x1, y1, x2, y2) in
  (flt ref f60 = true ->
     chosen = {| text_scale := f0_40; text_thickness := 1;
                 box_thickness := 1; padding := 2 |}) /\
  (fle f60 ref = true /\ flt ref f150 = true -> chosen = scale_medium) /\
  (fle f150 ref = true -> chosen = scale_large) /\
  ((flt ref f60, fle f60 ref && flt ref f150, fle f150 ref) = (true, false, false) \/
   (flt ref f60, fle f60 ref && flt ref f150, fle f150 ref) = (false, true, false) \/
   (flt ref f60, fle f60 ref && flt ref f150, fle f150 ref) = (false, false, true)) /\
  (scale_small <> scale_medium /\ scale_medium <> scale_large /\
   scale_small <> scale_large) /\
  (forall d d' : Detection,
     bbox d = bbox d' -> _scales_for_bbox (bbox d) = _scales_for_bbox (bbox d')).
Proof.
  intros w h ref chosen.
  assert (Hnan : is_nan ref = false) by apply (box_ref_not_nan (x1, y1, x2, y2)).
  assert (Hc : chosen = if flt ref f60 then scale_small
                        else if flt ref f150 then scale_medium else scale_large)
    by reflexivity.
  assert (N60 : is_nan f60 = false) by reflexivity.
  assert (N150 : is_nan f150 = false) by reflexivity.
  pose proof (fle_not_flt f60 ref) as A60.
  pose proof (fle_not_flt f150 ref) as A150.
  pose proof (fle_150_not_lt_60 ref) as T.
  pose proof (flt_false_fle ref f60 Hnan N60) as B60.
  pose proof (flt_false_fle ref f150 Hnan N150) as B150.
  rewrite Hc. clear Hc.
  destruct (flt ref f60) eqn:L60, (flt ref f150) eqn:L150,
           (fle f60 ref) eqn:G60, (fle f150 ref) eqn:G150;
    repeat match goal with
           | H : true = true -> _ |- _ => specialize (H eq_refl)
           | H : false = false -> _ |- _ => specialize (H eq_refl)
           end; try discriminate;
    (split; [|split; [|split; [|split; [|split]]]]);
    try (intros; reflexivity); try (intros; discriminate);
    try (intros [? ?]; discriminate); try (simpl; tauto);
    try (repeat split; discriminate);
    try (intros d d' E; now rewrite E).
Qed.

(** The two boxes the specification samples. *)
Example scales_small_box :
  _scales_for_bbox (literal 10 1, literal 10 1, literal 40 1, literal 40 1)
  = scale_small.
Proof. vm_compute. reflexivity. Qed.

Example scales_large_box :
  _scales_for_bbox (exact_int 0, exact_int 0, literal 200 1, literal 200 1)
  = scale_large.
Proof. vm_compute. reflexivity. Qed.

End draw_properties.


(** ** Exact quotients by the stride *)

Section float_division.
Import main.

Lemma digits2_size (p : positive) : digits2_pos p = Pos.size p.
Proof. induction p; simpl; congruence. Qed.

Lemma size_bounds (p : positive) :
  2 ^ (Zpos (Pos.size p) - 1) <= Zpos p < 2 ^ Zpos (Pos.size p).
Proof.
  split.
  - pose proof (Pos.size_le p) as H.
    assert (Zpos (2 ^ Pos.size p) <= Zpos p~0)%Z by (apply Pos2Z.pos_le_pos; exact H).
    rewrite Pos2Z.inj_pow in H0.
    replace (Zpos (Pos.size p)) with (Zpos (Pos.size p) - 1 + 1) in H0 by lia.
    rewrite Z.pow_add_r in H0 by lia. lia.
  - pose proof (Pos.size_gt p) as H.
    apply Pos2Z.pos_lt_pos in H. now rewrite Pos2Z.inj_pow in H.
Qed.

Lemma size_unique (p : positive) (d : Z) :
  2 ^ (d - 1) <= Zpos p < 2 ^ d -> Zpos (Pos.size p) = d.
Proof.
  intros [Hl Hu]. pose proof (size_bounds p) as [Bl Bu].
  assert (0 < d). { destruct (Z_lt_le_dec 0 d); auto. assert (2 ^ d <= 2^0) by (apply Z.pow_le_mono_r; lia). simpl in *. lia. }
  destruct (Z.lt_trichotomy (Zpos (Pos.size p)) d) as [C|[C|C]]; auto.
  - assert (2 ^ Zpos (Pos.size p) <= 2 ^ (d - 1)) by (apply Z.pow_le_mono_r; lia). lia.
  - assert (2 ^ d <= 2 ^ (Zpos (Pos.size p) - 1)) by (apply Z.pow_le_mono_r; lia). lia.
Qed.

Lemma fexp_eq (x : Z) : fexp prec emax x = Z.max (x - 53) (-1074).
Proof. reflexivity. Qed.

Lemma shr_fexp_eq (m e : Z) (l : location) :
  shr_fexp prec emax m e l
  = shr (shr_record_of_loc m l) e (fexp prec emax (Zdigits2 m + e) - e).
Proof. reflexivity. Qed.

Lemma binary_round_aux_even (s : bool) (p : positive) (e : Z) :
  Zpos (digits2_pos p) = 53 -> -1075 <= e <= 970 ->
  binary_round_aux prec emax s (Zpos p~0) e loc_Exact = S754_finite s p (e + 1).
Proof.
  intros Hd He.
  unfold binary_round_aux. rewrite shr_fexp_eq.
  replace (fexp prec emax (Zdigits2 (Zpos p~0) + e) - e) with 1.
  2:{ rewrite fexp_eq. unfold Zdigits2.
      change (digits2_pos p~0) with (Pos.succ (digits2_pos p)).
      rewrite Pos2Z.inj_succ, Hd. lia. }
  change (shr (shr_record_of_loc (Zpos p~0) loc_Exact) e 1)
    with ({| shr_m := Zpos p; shr_r := false; shr_s := false |}, e + 1).
  cbv beta iota.
  change (round_nearest_even (shr_m {| shr_m := Zpos p; shr_r := false; shr_s := false |})
            (loc_of_shr_record {| shr_m := Zpos p; shr_r := false; shr_s := false |}))
    with (Zpos p).
  rewrite shr_fexp_eq.
  replace (fexp prec emax (Zdigits2 (Zpos p) + (e + 1)) - (e + 1)) with 0.
  2:{ rewrite fexp_eq. unfold Zdigits2. rewrite Hd. lia. }
  change (shr (shr_record_of_loc (Zpos p) loc_Exact) (e + 1) 0)
    with ({| shr_m := Zpos p; shr_r := false; shr_s := false |}, e + 1).
  cbv beta iota.
  change (shr_m {| shr_m := Zpos p; shr_r := false; shr_s := false |}) with (Zpos p).
  cbv beta iota.
  replace (e + 1 <=? emax - prec) with true; [reflexivity|].
  symmetry. apply Z.leb_le. unfold emax, prec. lia.
Qed.

Lemma pos_xO_of_double (q q' : Z) : q = 2 * q' -> 0 < q' -> exists p, q' = Zpos p /\ q = Zpos p~0.
Proof. intros -> H. destruct q' as [|p|p]; try lia. exists p. split; reflexivity. Qed.

Lemma fdiv_by_32 (s : bool) (m : positive) :
  Zpos m <= 2 ^ 53 ->
  exists p e,
    SFdiv prec emax (S754_finite s m 0) (S754_finite false 32 0) = S754_finite s p e
    /\ e < 0 /\ Zpos p * 32 = Zpos m * 2 ^ (- e).
Proof.
  intros Hm.
  pose proof (size_bounds m) as [Bl Bu]. rewrite <- digits2_size in Bl, Bu.
  set (d1 := Zpos (digits2_pos m)) in *.
  assert (Hd1 : 1 <= d1 <= 54).
  { split; [unfold d1; lia|].
    destruct (Z_le_gt_dec d1 54) as [|C]; [assumption|exfalso].
    assert (2 ^ 54 <= 2 ^ (d1 - 1)) by (apply Z.pow_le_mono_r; lia).
    assert (2 ^ 53 < 2 ^ 54) by (apply Z.pow_lt_mono_r; lia). lia. }
  unfold SFdiv, SFdiv_core_binary. rewrite xorb_false_r.
  change (Zdigits2 (Zpos m)) with d1. change (Zdigits2 (Zpos 32)) with 6.
  replace (Z.min (fexp prec emax (d1 + 0 - (6 + 0))) (0 - 0)) with (d1 - 59)
    by (rewrite fexp_eq; lia).
  replace (0 - 0 - (d1 - 59)) with (59 - d1) by lia.
  set (t := 54 - d1).
  assert (Ht : 0 <= t) by (unfold t; lia).
  assert (Hp1 : 2 ^ (d1 - 1) * 2 ^ t = 2 ^ 53)
    by (rewrite <- Z.pow_add_r by lia; f_equal; unfold t; lia).
  assert (Hp2 : 2 ^ d1 * 2 ^ t = 2 ^ 54)
    by (rewrite <- Z.pow_add_r by lia; f_equal; unfold t; lia).
  assert (Hpt : 0 < 2 ^ t) by (apply Z.pow_pos_nonneg; lia).
  assert (Hsh : Z.shiftl (Zpos m) (59 - d1) = (Zpos m * 2 ^ t) * 32).
  { rewrite Z.shiftl_mul_pow2 by lia. replace (59 - d1) with (t + 5) by (unfold t; lia).
    rewrite Z.pow_add_r by lia. change (2 ^ 5) with 32. ring. }
  destruct (59 - d1) as [|k|k] eqn:Hk; try lia.
  rewrite Hsh.
  assert (Hdiv : Z.div_eucl (Zpos m * 2 ^ t * 32) 32 = (Zpos m * 2 ^ t, 0)).
  { pose proof (Z.div_mul (Zpos m * 2 ^ t) 32 ltac:(lia)) as Hq.
    pose proof (Z.mod_mul (Zpos m * 2 ^ t) 32 ltac:(lia)) as Hr.
    unfold Z.div, Z.modulo in Hq, Hr.
    destruct (Z.div_eucl (Zpos m * 2 ^ t * 32) 32) as [q r]. congruence. }
  rewrite Hdiv.
  change (new_location 32 0) with loc_Exact.
  assert (Hq : exists q', Zpos m * 2 ^ t = 2 * q').
  { destruct (Z.eq_dec t 0) as [E|E].
    - rewrite E in Hp1 |- *. change (2 ^ 0) with 1 in Hp1 |- *.
      exists (2 ^ 52). change (2 * 2 ^ 52) with (2 ^ 53). lia.
    - exists (Zpos m * 2 ^ (t - 1)).
      replace t with (1 + (t - 1)) at 1 by lia. rewrite Z.pow_add_r by lia.
      change (2 ^ 1) with 2. ring. }
  destruct Hq as [q' Hq'].
  assert (Hlo : 2 ^ 53 <= Zpos m * 2 ^ t).
  { rewrite <- Hp1. apply Z.mul_le_mono_nonneg_r; lia. }
  assert (Hhi : Zpos m * 2 ^ t < 2 ^ 54).
  { rewrite <- Hp2. apply Z.mul_lt_mono_pos_r; lia. }
  change (2 ^ 53) with 9007199254740992 in Hlo.
  change (2 ^ 54) with 18014398509481984 in Hhi.
  destruct (pos_xO_of_double _ q' Hq' ltac:(lia)) as [p [Hp Hq]].
  rewrite Hq.
  assert (Hdp : Zpos (digits2_pos p) = 53).
  { rewrite digits2_size. apply size_unique.
    change (2 ^ (53 - 1)) with 4503599627370496.
    change (2 ^ 53) with 9007199254740992. lia. }
  rewrite (binary_round_aux_even s p (d1 - 59) Hdp ltac:(lia)).
  exists p, (d1 - 59 + 1). split; [reflexivity|]. split; [lia|].
  replace (- (d1 - 59 + 1)) with (t + 4) by (unfold t; lia).
  rewrite Z.pow_add_r by lia. change (2 ^ 4) with 16. lia.
Qed.

Lemma div_scaled (a b k : Z) :
  0 <= k -> a * 32 = b * 2 ^ k -> a / 2 ^ k = b / 32.
Proof.
  intros Hk H. assert (0 < 2 ^ k) by (apply Z.pow_pos_nonneg; lia).
  rewrite <- (Z.div_mul_cancel_r a (2 ^ k) 32) by lia.
  rewrite H, (Z.mul_comm (2 ^ k) 32).
  apply Z.div_mul_cancel_r; lia.
Qed.

(** On sizes a float holds exactly, [snap] is the integer ceiling. *)
Lemma snap_exact (x : Z) :
  - 2 ^ 53 <= x <= 2 ^ 53 -> snap x 32 = Ok (- ((- x) / 32) * 32).
Proof.
  intros Hx. unfold snap, int_truediv. change (32 =? 0) with false. cbv iota.
  destruct x as [|m|m].
  - reflexivity.
  - destruct (fdiv_by_32 false m ltac:(lia)) as (p & e & Heq & He & Hrel).
    unfold fdiv, exact_int, pyfloat.prec, pyfloat.emax. fold prec emax.
    rewrite Heq. simpl. unfold rbind, math_ceil, to_integer, ceil_finite, signed.
    rewrite Z.shiftl_div_pow2 by lia. do 3 f_equal.
    apply div_scaled; [lia|]. lia.
  - destruct (fdiv_by_32 true m ltac:(lia)) as (p & e & Heq & He & Hrel).
    unfold fdiv, exact_int, pyfloat.prec, pyfloat.emax. fold prec emax.
    rewrite Heq. simpl. unfold rbind, math_ceil, to_integer, ceil_finite, signed.
    rewrite Z.shiftl_div_pow2 by lia. do 3 f_equal.
    apply div_scaled; [lia|]. lia.
Qed.

Lemma ceil_multiple (x : Z) :
  let r := - ((- x) / 32) * 32 in
  (32 | r) /\ x <= r /\ forall k, (32 | k) -> x <= k -> r <= k.
Proof.
  intros r. pose proof (Z.div_mod (- x) 32 ltac:(lia)) as D.
  pose proof (Z.mod_pos_bound (- x) 32 ltac:(lia)) as B.
  split; [exists (- ((- x) / 32)); reflexivity|].
  split; [unfold r; lia|].
  intros k [c ->] Hk. unfold r. lia.
Qed.

End float_division.


(* ===================================================================== *)
(** ** Running monadic code *)
(* ===================================================================== *)

Section run_lemmas.
Context {A B : Type}.

Lemma bind_unfold (m : M A) (k : A -> M B) (w : world) :
  (m ≫= k) w = match m w with
               | (Ok a, w1) => k a w1
               | (Raise e, w1) => (Raise e, w1)
               end.
Proof. reflexivity. Qed.

Lemma bind_ok (m : M A) (k : A -> M B) (w w' : world) (b : B) :
  (m ≫= k) w = (Ok b, w') ->
  exists a w1, m w = (Ok a, w1) /\ k a w1 = (Ok b, w').
Proof.
  rewrite bind_unfold. destruct (m w) as [[a|e] w1]; [eauto|discriminate].
Qed.

Lemma ret_unfold (a : A) (w : world) : (mret a : M A) w = (Ok a, w).
Proof. reflexivity. Qed.

Lemma lift_unfold (r : result A) (w : world) : lift r w = (r, w).
Proof. reflexivity. Qed.

Lemma raise_unfold k msg (w : world) :
  @raise A k msg w = (Raise (Exn k msg), w).
Proof. reflexivity. Qed.

Lemma lift_ok (r : result A) (w w' : world) (a : A) :
  lift r w = (Ok a, w') -> r = Ok a /\ w' = w.
Proof. unfold lift. intros H; inversion H; auto. Qed.
End run_lemmas.

Lemma lookup_snoc {X} (l : list X) (x : X) : (l ++ [x]) !! length l = Some x.
Proof. now apply list_lookup_middle. Qed.

Lemma world_eq (w w' : world) :
  arrays w' = arrays w -> captures w' = captures w -> writers w' = writers w ->
  objects w' = objects w -> dirs w' = dirs w -> files w' = files w ->
  clock w' = clock w -> w' = w.
Proof. destruct w, w'; cbn; intros; subst; reflexivity. Qed.

(** The OpenCV calls in closed form. *)
Lemma isOpened_unfold c w :
  cv2.isOpened c w = match captures w !! c with
                     | Some x => (Ok (cap_opened x), w)
                     | None => fault w
                     end.
Proof.
  unfold cv2.isOpened, get_capture. rewrite bind_unfold.
  now destruct (captures w !! c).
Qed.

Lemma get_unfold c prop w :
  cv2.get c prop w =
  match captures w !! c with
  | Some x =>
      (Ok match cap_opened x, cap_stream x with
          | true, Some vs =>
              match prop with
              | cv2.CAP_PROP_FRAME_WIDTH => vs_width vs
              | cv2.CAP_PROP_FRAME_HEIGHT => vs_height vs
              | cv2.CAP_PROP_FPS => vs_fps vs
              | cv2.CAP_PROP_FRAME_COUNT => vs_frame_count vs
              end
          | _, _ => f0
          end, w)
  | None => fault w
  end.
Proof.
  unfold cv2.get, get_capture. rewrite bind_unfold.
  now destruct (captures w !! c).
Qed.

Lemma release_unfold c w :
  cv2.release c w =
  match captures w !! c with
  | Some x =>
      (Ok tt,
       with_captures
         (fun l => <[c := {| cap_opened := false; cap_stream := cap_stream x;
                             cap_pending := [] |}]> l) w)
  | None => fault w
  end.
Proof.
  unfold cv2.release, get_capture, set_capture. rewrite bind_unfold.
  destruct (captures w !! c) eqn:E; [|reflexivity]. now rewrite E.
Qed.

Lemma VideoCapture_new_unfold P path w :
  cv2.VideoCapture_new P path w =
  (Ok (length (captures w)),
   with_captures
     (fun l => l ++ [match decode P path with
                     | Some vs => opened_capture vs
                     | None => failed_capture
                     end]) w).
Proof. reflexivity. Qed.

Lemma rectangle_unfold P a p1 p2 c t l w :
  cv2.rectangle P a p1 p2 c t l w =
  match arrays w !! a with
  | Some content =>
      (Ok tt,
       with_arrays (fun s => <[a := cv2_rectangle P content p1 p2 c t l]> s) w)
  | None => fault w
  end.
Proof.
  unfold cv2.rectangle, get_array, set_array. rewrite bind_unfold.
  destruct (arrays w !! a) eqn:E; [|reflexivity]. now rewrite E.
Qed.

Lemma putText_unfold P a text org font scale c t l w :
  cv2.putText P a text org font scale c t l w =
  match arrays w !! a with
  | Some content =>
      (Ok tt,
       with_arrays
         (fun s => <[a := cv2_putText P content text org font scale c t l]> s) w)
  | None => fault w
  end.
Proof.
  unfold cv2.putText, get_array, set_array. rewrite bind_unfold.
  destruct (arrays w !! a) eqn:E; [|reflexivity]. now rewrite E.
Qed.

Lemma mkdir_unfold p w :
  mkdir p w = (Ok tt, with_dirs (fun l => l ++ [p]) w).
Proof. reflexivity. Qed.

Lemma VideoWriter_new_unfold P path fourcc fps size w :
  cv2.VideoWriter_new P path fourcc fps size w
  = (Ok (length (writers w)),
     with_writers
       (fun l => l ++ [{| wr_opened := writer_accepts P path fourcc fps size;
                          wr_path := path; wr_fourcc := fourcc; wr_fps := fps;
                          wr_size := size; wr_frames := [] |}]) w).
Proof. reflexivity. Qed.

Lemma writer_isOpened_unfold writer w :
  cv2.writer_isOpened writer w
  = match writers w !! writer with
    | Some wr => (Ok (wr_opened wr), w)
    | None => fault w
    end.
Proof.
  unfold cv2.writer_isOpened, get_writer. rewrite bind_unfold.
  now destruct (writers w !! writer).
Qed.

Create Rewrite HintDb run.
#[local] Hint Rewrite @bind_unfold @ret_unfold @lift_unfold @raise_unfold
  isOpened_unfold get_unfold release_unfold VideoCapture_new_unfold
  mkdir_unfold VideoWriter_new_unfold writer_isOpened_unfold
  @lookup_snoc : run.

(** Runs the code at the head of the goal as far as the store is known. *)
Ltac mrun :=
  repeat (autorewrite with run;
          cbn [negb fst snd arrays captures writers objects dirs files clock
                 with_arrays with_captures with_writers with_objects with_dirs
                 with_files with_clock cap_opened cap_stream cap_pending
                 opened_capture failed_capture
                 wr_opened wr_path wr_fourcc wr_fps wr_size wr_frames]).

(* ===================================================================== *)
(** ** Footprints *)
(* ===================================================================== *)

Section respects.
Context (R : relation world) `{!PreOrder R}.

Lemma respects_ret {A} (a : A) : respects R (mret a).
Proof. intros w. reflexivity. Qed.

Lemma respects_lift {A} (r : result A) : respects R (lift r).
Proof. intros w. reflexivity. Qed.

Lemma respects_raise {A} k msg : respects R (@raise A k msg).
Proof. intros w. reflexivity. Qed.

Lemma respects_fault {A} : respects R (@fault A).
Proof. intros w. reflexivity. Qed.

Lemma respects_bind {A B} (m : M A) (k : A -> M B) :
  respects R m -> (forall a, respects R (k a)) -> respects R (m ≫= k).
Proof.
  intros Hm Hk w. rewrite bind_unfold. specialize (Hm w).
  destruct (m w) as [[a|e] w1]; cbn in *; [|assumption].
  etransitivity; [exact Hm|apply Hk].
Qed.

Lemma respects_try_finally {A} (body : M A) (cleanup : M unit) :
  respects R body -> respects R cleanup ->
  respects R (try_finally body cleanup).
Proof.
  intros Hb Hc w. unfold try_finally. specialize (Hb w).
  destruct (body w) as [r w1]. specialize (Hc w1).
  destruct (cleanup w1) as [[[]|e] w2]; cbn in *; etransitivity; eauto.
Qed.

Lemma respects_for_each {A} (xs : list A) (body : A -> M unit) :
  (forall x, respects R (body x)) -> respects R (for_each xs body).
Proof.
  intros Hb. induction xs as [|x xs IH]; cbn [for_each].
  - apply respects_ret.
  - apply respects_bind; auto.
Qed.

Lemma respects_map_m {A B} (f : A -> M B) (xs : list A) :
  (forall x, respects R (f x)) -> respects R (map_m f xs).
Proof.
  intros Hf. induction xs as [|x xs IH]; cbn [map_m].
  - apply respects_ret.
  - apply respects_bind; [auto|intros y].
    apply respects_bind; [auto|intros ys]. apply respects_ret.
Qed.

Lemma respects_get_array a : respects R (get_array a).
Proof. intros w. unfold get_array. destruct (arrays w !! a); reflexivity. Qed.

Lemma respects_get_capture a : respects R (get_capture a).
Proof. intros w. unfold get_capture. destruct (captures w !! a); reflexivity. Qed.

Lemma respects_get_writer a : respects R (get_writer a).
Proof. intros w. unfold get_writer. destruct (writers w !! a); reflexivity. Qed.

Lemma respects_get_object a : respects R (get_object a).
Proof. intros w. unfold get_object. destruct (objects w !! a); reflexivity. Qed.

Lemma respects_new_array img :
  (forall w, R w (with_arrays (fun l => l ++ [img]) w)) ->
  respects R (new_array img).
Proof. intros H w. apply H. Qed.

Lemma respects_set_array a img :
  (forall w, is_Some (arrays w !! a) ->
             R w (with_arrays (fun l => <[a := img]> l) w)) ->
  respects R (set_array a img).
Proof.
  intros H w. unfold set_array. destruct (arrays w !! a) eqn:E; [|reflexivity].
  apply H. rewrite E. eauto.
Qed.

Lemma respects_new_capture c :
  (forall w, R w (with_captures (fun l => l ++ [c]) w)) ->
  respects R (new_capture c).
Proof. intros H w. apply H. Qed.

Lemma respects_set_capture a c :
  (forall w, is_Some (captures w !! a) ->
             R w (with_captures (fun l => <[a := c]> l) w)) ->
  respects R (set_capture a c).
Proof.
  intros H w. unfold set_capture.
  destruct (captures w !! a) eqn:E; [|reflexivity].
  apply H. rewrite E. eauto.
Qed.

Lemma respects_new_writer c :
  (forall w, R w (with_writers (fun l => l ++ [c]) w)) ->
  respects R (new_writer c).
Proof. intros H w. apply H. Qed.

Lemma respects_set_writer a c :
  (forall w, is_Some (writers w !! a) ->
             R w (with_writers (fun l => <[a := c]> l) w)) ->
  respects R (set_writer a c).
Proof.
  intros H w. unfold set_writer.
  destruct (writers w !! a) eqn:E; [|reflexivity].
  apply H. rewrite E. eauto.
Qed.

Lemma respects_new_object o :
  (forall w, R w (with_objects (fun l => l ++ [o]) w)) ->
  respects R (new_object o).
Proof. intros H w. apply H. Qed.

Lemma respects_set_object a o :
  (forall w, is_Some (objects w !! a) ->
             R w (with_objects (fun l => <[a := o]> l) w)) ->
  respects R (set_object a o).
Proof.
  intros H w. unfold set_object.
  destruct (objects w !! a) eqn:E; [|reflexivity].
  apply H. rewrite E. eauto.
Qed.

Lemma respects_mkdir p :
  (forall w, R w (with_dirs (fun l => l ++ [p]) w)) -> respects R (mkdir p).
Proof. intros H w. apply H. Qed.

Lemma respects_perf_counter P :
  (forall w, R w (with_clock S w)) -> respects R (perf_counter P).
Proof. intros H w. apply H. Qed.

Lemma respects_write_file p doc :
  (forall w, R w (with_files (fun fs => <[str p := doc]> fs) w)) ->
  respects R (write_file p doc).
Proof. intros H w. apply H. Qed.
End respects.

Create HintDb respects.
#[local] Hint Resolve respects_ret respects_lift respects_raise respects_fault
  respects_get_array respects_get_capture respects_get_writer
  respects_get_object : respects.

(** Splits a monadic term along its binds and case distinctions; a
    primitive that changes the store leaves the closure of the relation
    under that change to [closure]. *)
Ltac respects_with closure :=
  repeat first
    [ solve [auto with respects typeclass_instances]
    | progress intros
    | progress cbv zeta
    | apply respects_bind; [typeclasses eauto| |]
    | apply respects_for_each; [typeclasses eauto|]
    | apply respects_map_m; [typeclasses eauto|]
    | apply respects_try_finally; [typeclasses eauto| |]
    | apply respects_new_array; solve [intros; closure]
    | apply respects_set_array; [typeclasses eauto|solve [intros; closure]]
    | apply respects_new_capture; solve [intros; closure]
    | apply respects_set_capture; [typeclasses eauto|solve [intros; closure]]
    | apply respects_new_writer; solve [intros; closure]
    | apply respects_set_writer; [typeclasses eauto|solve [intros; closure]]
    | apply respects_new_object; solve [intros; closure]
    | apply respects_set_object; [typeclasses eauto|solve [intros; closure]]
    | apply respects_mkdir; solve [intros; closure]
    | apply respects_perf_counter; solve [intros; closure]
    | apply respects_write_file; solve [intros; closure]
    | match goal with
      | |- respects _ (match ?x with _ => _ end) => destruct x
      end ].

#[local] Instance differ_at_preorder a : PreOrder (differ_at a).
Proof.
  split.
  - intros w. unfold differ_at. tauto.
  - intros w1 w2 w3 (L1 & A1 & ?) (L2 & A2 & ?). unfold differ_at.
    split; [congruence|]. split; [|intuition congruence].
    intros i Hi. rewrite A2, A1; auto.
Qed.

#[local] Instance streaming_preorder : PreOrder streaming.
Proof.
  split.
  - intros w. unfold streaming. intuition lia.
  - intros w1 w2 w3. unfold streaming. intuition (try congruence; try lia).
Qed.

Ltac streaming_closure :=
  unfold streaming; cbn; rewrite ?length_app, ?length_insert; cbn;
  intuition lia.

Lemma draw_detections_streaming P frame ds :
  respects streaming (draw.draw_detections P frame ds).
Proof.
  unfold draw.draw_detections, cv2.copy, draw.draw_one, draw._draw_label,
    cv2.rectangle, cv2.putText.
  respects_with streaming_closure.
Qed.

Lemma read_streaming capture : respects streaming (cv2.read capture).
Proof. unfold cv2.read. respects_with streaming_closure. Qed.

Lemma write_streaming writer frame : respects streaming (cv2.write writer frame).
Proof. unfold cv2.write. respects_with streaming_closure. Qed.

Lemma release_streaming capture : respects streaming (cv2.release capture).
Proof. unfold cv2.release. respects_with streaming_closure. Qed.

Lemma writer_release_streaming writer :
  respects streaming (cv2.writer_release writer).
Proof. unfold cv2.writer_release. respects_with streaming_closure. Qed.

#[local] Hint Resolve draw_detections_streaming read_streaming write_streaming
  release_streaming writer_release_streaming : respects.

Lemma stream_frames_streaming fuel P capture det writer fi td :
  respects streaming (main.stream_frames fuel P capture det writer fi td).
Proof.
  revert fi td.
  induction fuel as [|fuel IH]; intros fi td; cbn [main.stream_frames];
    respects_with streaming_closure.
Qed.


(* ===================================================================== *)
(** ** video_io.py: opening the frame source *)
(* ===================================================================== *)

Section video_io_properties.
Import video_io.

Lemma open_video_capture_eq (P : platform) (path : Path) (w : world) :
open_video_capture P path w =
if negb (path_exists P (str path)) then
  (Raise (Exn FileNotFoundError ("Input video not found: " +:+ str path)), w)
else
  match decode P (str path) with
  | None =>
      (Raise (Exn ValueError ("Failed to open video: " +:+ str path)),
       with_captures (fun l => l ++ [failed_capture]) w)
  | Some vs =>
      let w1 := with_captures (fun l => l ++ [opened_capture vs]) w in
      match int_of_float (vs_width vs) with
      | Raise e => (Raise e, w1)
      | Ok wd =>
      match int_of_float (vs_height vs) with
      | Raise e => (Raise e, w1)
      | Ok ht =>
      match int_of_float (vs_frame_count vs) with
      | Raise e => (Raise e, w1)
      | Ok fc =>
          if (wd <=? 0) || (ht <=? 0) then
            (Raise (Exn ValueError ("Invalid video dimensions for: " +:+ str path)),
             with_captures (fun l => <[length (captures w) :=
                 {| cap_opened := false; cap_stream := Some vs; cap_pending := [] |}]> l) w1)
          else
            (Ok (length (captures w),
                 {| width := wd; height := ht;
                    fps := if is_zero (vs_fps vs) then f0 else vs_fps vs;
                    frame_count := fc |}), w1)
      end end end
  end.
Proof.
unfold open_video_capture.
destruct (path_exists P (str path)); [|reflexivity]. mrun.
destruct (decode P (str path)) as [vs|]; mrun; [|reflexivity].
unfold opened_capture.
destruct (int_of_float (vs_width vs)) as [wd|e]; mrun; [|reflexivity].
destruct (int_of_float (vs_height vs)) as [ht|e]; mrun; [|reflexivity].
destruct (int_of_float (vs_frame_count vs)) as [fc|e]; mrun; [|reflexivity].
destruct ((wd <=? 0) || (ht <=? 0)); mrun; reflexivity.
Qed.


(** A capture that [open_video_capture] returns is open and its metadata
  has positive dimensions. *)
Lemma open_video_capture_ok (P : platform) (path : Path) (w w' : world)
  (capture : nat) (md : VideoMetadata) :
open_video_capture P path w = (Ok (capture, md), w') ->
0 < width md /\ 0 < height md /\ capture = length (captures w) /\
exists c, captures w' !! capture = Some c /\ cap_opened c = true.
Proof.
rewrite open_video_capture_eq.
destruct (negb (path_exists P (str path))); [discriminate|].
destruct (decode P (str path)) as [vs|]; [|discriminate]. cbv zeta.
destruct (int_of_float (vs_width vs)) as [wd|e]; [|discriminate].
destruct (int_of_float (vs_height vs)) as [ht|e]; [|discriminate].
destruct (int_of_float (vs_frame_count vs)) as [fc|e]; [|discriminate].
destruct ((wd <=? 0) || (ht <=? 0)) eqn:D; [discriminate|].
apply orb_false_elim in D as [D1 D2]. apply Z.leb_gt in D1, D2.
intros H; inversion H; subst; clear H. cbn.
repeat split; try assumption.
exists (opened_capture vs). rewrite lookup_snoc. split; reflexivity.
Qed.

Lemma int_of_float_finite (x : float) :
is_finite x = true -> exists n, int_of_float x = Ok n.
Proof. destruct x; try discriminate; intros _; eexists; reflexivity. Qed.




Lemma create_video_writer_eq P o md w :
create_video_writer P o md w
= let fps := if fgt (fps md) f0 then fps md else f30 in
  let fourcc := cv2.VideoWriter_fourcc "m" "p" "4" "v" in
  let accepted := writer_accepts P (str o) fourcc fps (size md) in
  let w' :=
    with_writers
      (fun l => l ++ [{| wr_opened := accepted; wr_path := str o;
                         wr_fourcc := fourcc; wr_fps := fps;
                         wr_size := size md; wr_frames := [] |}])
      (with_dirs (fun l => l ++ [parent o]) w) in
  if accepted then (Ok (length (writers w)), w')
  else (Raise (Exn ValueError ("Failed to create VideoWriter for: " +:+ str o)),
        w').
Proof.
unfold create_video_writer. cbv zeta. mrun.
destruct (writer_accepts _ _ _ _ _); mrun; reflexivity.
Qed.

Lemma create_video_writer_ok P o md w writer w' :
create_video_writer P o md w = (Ok writer, w') ->
captures w' = captures w /\ writer = length (writers w) /\
exists wr, writers w' !! writer = Some wr /\ wr_opened wr = true.
Proof.
rewrite create_video_writer_eq. cbv zeta.
destruct (writer_accepts _ _ _ _ _) eqn:E; [|discriminate].
intros H; inversion H; subst. cbn. rewrite lookup_snoc. eauto.
Qed.

End video_io_properties.


(* ===================================================================== *)
(** ** Results that are Python's own *)
(* ===================================================================== *)

Section genuine_results.
Import draw.

Lemma genuine_ok {A} (a : A) : genuine (Ok a).
Proof. intros e H. discriminate. Qed.

Lemma genuine_raise {A} k msg : k <> ModelFault -> genuine (@Raise A (Exn k msg)).
Proof. intros Hk e H. inversion H; subst. exact Hk. Qed.

Lemma genuine_retype {A B} (e : exn) : genuine (@Raise A e) -> genuine (@Raise B e).
Proof. intros G e' H. inversion H; subst. now apply G. Qed.

Lemma genuine_call {A} (x : external A) : genuine (call x).
Proof. destruct x; [apply genuine_ok|now apply genuine_raise]. Qed.

Lemma genuine_rbind {A B} (r : result A) (k : A -> result B) :
genuine r -> (forall a, genuine (k a)) -> genuine (rbind r k).
Proof.
intros Hr Hk. destruct r as [a|e]; cbn; [apply Hk|].
intros e' H. inversion H; subst. now apply Hr.
Qed.

Lemma genuine_to_integer f x : genuine (to_integer f x).
Proof. destruct x; cbn; try apply genuine_ok; now apply genuine_raise. Qed.

Lemma genuine_int_truediv a b : genuine (int_truediv a b).
Proof.
unfold int_truediv. destruct (b =? 0); [now apply genuine_raise|].
destruct (is_inf _); [now apply genuine_raise|apply genuine_ok].
Qed.

Lemma genuine_int_div_float n y : genuine (int_div_float n y).
Proof.
unfold int_div_float. apply genuine_rbind.
- unfold float_of_int. destruct (is_inf _); [now apply genuine_raise|apply genuine_ok].
- intros x. destruct (is_zero y); [now apply genuine_raise|apply genuine_ok].
Qed.

Lemma genuine_as_int_tuple b : genuine (_as_int_tuple b).
Proof.
destruct b as [[[c1 c2] c3] c4]. unfold _as_int_tuple.
repeat (apply genuine_rbind; [apply genuine_to_integer|intros ?]).
apply genuine_ok.
Qed.

End genuine_results.


(* ===================================================================== *)
(** ** draw.py: annotation copies the frame *)
(* ===================================================================== *)

Section draw_copy.
Import draw.

Lemma differ_at_set a img :
forall w, is_Some (arrays w !! a) ->
          differ_at a w (with_arrays (fun l => <[a := img]> l) w).
Proof.
intros w _. unfold differ_at. cbn. rewrite length_insert.
repeat split; try reflexivity.
intros i Hi. now apply list_lookup_insert_ne.
Qed.

Lemma draw_one_differ P a d : respects (differ_at a) (draw_one P a d).
Proof.
unfold draw_one, _draw_label, cv2.rectangle, cv2.putText.
respects_with ltac:(now apply differ_at_set).
Qed.

Lemma as_int_tuple_finite (b : bbox_t) :
bbox_finite b = true -> exists t, _as_int_tuple b = Ok t.
Proof.
destruct b as [[[x1 y1] x2] y2]. cbn [bbox_finite].
rewrite !andb_true_iff. intros [[[H1 H2] H3] H4].
destruct (int_of_float_finite _ H1) as [n1 E1], (int_of_float_finite _ H2) as [n2 E2],
  (int_of_float_finite _ H3) as [n3 E3], (int_of_float_finite _ H4) as [n4 E4].
unfold _as_int_tuple. rewrite E1, E2, E3, E4. cbn. eauto.
Qed.

Lemma draw_one_ok P a d w :
is_Some (arrays w !! a) -> bbox_finite (bbox d) = true ->
(draw_one P a d w).1 = Ok tt.
Proof.
intros [c0 Hc0] Hfin. destruct (as_int_tuple_finite _ Hfin) as [[[[x1 y1] x2] y2] E].
unfold draw_one. rewrite bind_unfold. unfold lift at 1. rewrite E.
rewrite bind_unfold, rectangle_unfold, Hc0.
unfold _draw_label. destruct (cv2_getTextSize _ _ _ _ _) as [[tw th] bl].
rewrite bind_unfold, rectangle_unfold. cbn [arrays with_arrays].
rewrite list_lookup_insert_eq by (eapply lookup_lt_Some; eauto).
rewrite putText_unfold. cbn [arrays with_arrays].
rewrite list_lookup_insert_eq
  by (rewrite length_insert; eapply lookup_lt_Some; eauto).
reflexivity.
Qed.

Lemma for_each_draw_ok P a ds w :
is_Some (arrays w !! a) -> Forall (fun d => bbox_finite (bbox d) = true) ds ->
(for_each ds (draw_one P a) w).1 = Ok tt.
Proof.
intros Ha Hds. revert w Ha. induction Hds as [|d ds Hd Hds IH]; intros w Ha.
- reflexivity.
- cbn [for_each]. rewrite bind_unfold.
  pose proof (draw_one_ok P a d w Ha Hd) as Hok.
  pose proof (draw_one_differ P a d w) as (Hlen & _).
  destruct (draw_one P a d w) as [r w1]. cbn in Hok, Hlen. subst r.
  apply IH. apply lookup_lt_is_Some. rewrite Hlen.
  now apply lookup_lt_is_Some.
Qed.

Lemma draw_one_result P a d w :
is_Some (arrays w !! a) ->
(draw_one P a d w).1
= match _as_int_tuple (bbox d) with
  | Ok _ => Ok tt
  | Raise e => Raise e
  end.
Proof.
intros [c0 Hc0]. unfold draw_one. rewrite bind_unfold, lift_unfold.
destruct (_as_int_tuple (bbox d)) as [[[[x1 y1] x2] y2]|e]; [|reflexivity].
rewrite bind_unfold, rectangle_unfold, Hc0.
unfold _draw_label. destruct (cv2_getTextSize _ _ _ _ _) as [[tw th] bl].
rewrite bind_unfold, rectangle_unfold. cbn [arrays with_arrays].
rewrite list_lookup_insert_eq by (eapply lookup_lt_Some; eauto).
rewrite putText_unfold. cbn [arrays with_arrays].
rewrite list_lookup_insert_eq
  by (rewrite length_insert; eapply lookup_lt_Some; eauto).
reflexivity.
Qed.

Lemma for_each_draw_genuine P a ds w :
is_Some (arrays w !! a) -> genuine (for_each ds (draw_one P a) w).1.
Proof.
revert w. induction ds as [|d ds IH]; intros w Ha; cbn [for_each].
- apply genuine_ok.
- rewrite bind_unfold.
  pose proof (draw_one_result P a d w Ha) as Hr.
  pose proof (draw_one_differ P a d w) as (Hlen & _).
  destruct (draw_one P a d w) as [r w1]. cbn in Hr, Hlen. subst r.
  destruct (_as_int_tuple (bbox d)) as [t|e] eqn:E.
  + apply IH. apply lookup_lt_is_Some. rewrite Hlen. now apply lookup_lt_is_Some.
  + pose proof (genuine_as_int_tuple (bbox d)) as G. rewrite E in G.
    exact (genuine_retype e G).
Qed.

(** [draw_detections] on a live frame: one new array, and nothing else. *)
Lemma draw_detections_effect P frame ds w :
is_Some (arrays w !! frame) ->
let out := draw_detections P frame ds w in
(exists img, out.2 = with_arrays (fun l => l ++ [img]) w) /\
(forall a, out.1 = Ok a -> a = length (arrays w)) /\
(Forall (fun d => bbox_finite (bbox d) = true) ds ->
   out.1 = Ok (length (arrays w))) /\
genuine out.1.
Proof.
intros [img0 Hframe] out.
set (a := length (arrays w)).
set (w1 := with_arrays (fun l => l ++ [img0]) w).
assert (Hrun : out = (let (r, w2) := for_each ds (draw_one P a) w1 in
                      match r with Ok _ => (Ok a, w2) | Raise e => (Raise e, w2) end)).
{ subst out. unfold draw_detections, cv2.copy, get_array, new_array.
  rewrite !bind_unfold, Hframe. cbn -[for_each]. fold a w1.
  rewrite bind_unfold. destruct (for_each ds (draw_one P a) w1) as [[[]|e] w2];
    reflexivity. }
pose proof (respects_for_each (differ_at a) ds (draw_one P a)
              (draw_one_differ P a) w1) as D.
assert (Ha1 : is_Some (arrays w1 !! a)) by (subst w1 a; cbn; rewrite lookup_snoc; eauto).
pose proof (for_each_draw_ok P a ds w1 Ha1) as Hok.
pose proof (for_each_draw_genuine P a ds w1 Ha1) as Hgen.
destruct (for_each ds (draw_one P a) w1) as [r w2]. cbn in D, Hok, Hgen.
destruct D as (Hlen & Hother & Hc & Hw & Ho & Hd & Hf & Hk).
assert (Hw2 : out.2 = w2) by (rewrite Hrun; destruct r; reflexivity).
assert (Hlen2 : length (arrays w2) = S a)
  by (rewrite Hlen; subst w1 a; cbn; rewrite length_app; cbn; lia).
assert (Hold : forall i, (i < a)%nat -> arrays w2 !! i = arrays w !! i).
{ intros i Hi. rewrite Hother by lia. subst w1. cbn. now apply lookup_app_l. }
destruct (lookup_lt_is_Some_2 (arrays w2) a ltac:(lia)) as [img Himg].
rewrite Hw2.
split; [|split; [|split]].
- exists img. apply world_eq; cbn; try assumption.
  apply list_eq. intros i. destruct (Nat.lt_trichotomy i a) as [Hi|[->|Hi]].
  + rewrite Hold by assumption. symmetry. now apply lookup_app_l.
  + rewrite Himg. unfold a. now rewrite lookup_snoc.
  + rewrite !lookup_ge_None_2; [reflexivity| |]; [rewrite length_app; cbn; fold a|]; lia.
- intros b Hr. rewrite Hrun in Hr. destruct r; cbn in Hr; [|discriminate].
  now inversion Hr.
- intros Hfin. rewrite Hrun, (Hok Hfin). reflexivity.
- rewrite Hrun. destruct r; [apply genuine_ok|exact (genuine_retype e Hgen)].
Qed.

(** C8. On a live frame, [draw_detections] changes the world by exactly one
  new array: every array that existed, the input frame among them, keeps
  its content, and captures, writers, objects, directories, files and the
  clock are untouched; what it returns is the address of that new array,
  different from the input frame; and it does return when the boxes have
  finite coordinates. *)
Theorem draw_detections_copies (P : platform) (frame : nat)
  (detections : list Detection) (w : world) :
is_Some (arrays w !! frame) ->
let out := draw_detections P frame detections w in
(exists img, out.2 = with_arrays (fun l => l ++ [img]) w) /\
(forall i, (i < length (arrays w))%nat -> arrays out.2 !! i = arrays w !! i) /\
arrays out.2 !! frame = arrays w !! frame /\
(forall annotated, out.1 = Ok annotated ->
   annotated = length (arrays w) /\ annotated <> frame /\
   is_Some (arrays out.2 !! annotated)) /\
(Forall (fun d => bbox_finite (bbox d) = true) detections ->
   out.1 = Ok (length (arrays w))).
Proof.
intros Hframe out.
destruct (draw_detections_effect P frame detections w Hframe)
  as ([img Hw] & Ha & Hfin & _).
fold out in Hw, Ha, Hfin.
assert (Hlt : (frame < length (arrays w))%nat) by now apply lookup_lt_is_Some.
assert (Hold : forall i, (i < length (arrays w))%nat ->
                         arrays out.2 !! i = arrays w !! i).
{ intros i Hi. rewrite Hw. cbn. now apply lookup_app_l. }
split; [eauto|]. split; [exact Hold|]. split; [now apply Hold|].
split; [|exact Hfin].
intros annotated Hr. rewrite (Ha _ Hr). split; [reflexivity|].
split; [lia|]. rewrite Hw. cbn. rewrite lookup_snoc. eauto.
Qed.

End draw_copy.


(* ===================================================================== *)
(** ** main.py: the streaming loop *)
(* ===================================================================== *)

Section streaming_loop.
Import draw video_io main.

Lemma genuine_adjust i s : genuine (_adjust_imgsz_to_stride i s).
Proof.
assert (Hs : forall x, genuine (snap x s)).
{ intros x. unfold snap.
  apply genuine_rbind; [apply genuine_int_truediv|intros q].
  apply genuine_rbind; [apply genuine_to_integer|intros c]. apply genuine_ok. }
destruct i; cbn;
  repeat (apply genuine_rbind; [apply Hs|intros ?]); apply genuine_ok.
Qed.

Lemma genuine_resolve names : genuine (_resolve_person_class_id names).
Proof.
induction names as [|[id name] names IH]; cbn; [now apply genuine_raise|].
destruct (String.eqb _ _); [apply genuine_ok|exact IH].
Qed.

Lemma genuine_init P mp cf sz dev : genuine (detector.__init__ P mp cf sz dev).
Proof.
unfold detector.__init__.
apply genuine_rbind; [apply genuine_call|intros model].
apply genuine_rbind; [apply genuine_resolve|intros pid]. apply genuine_ok.
Qed.

Lemma genuine_detect det img : genuine (detect det img).
Proof.
unfold detect. apply genuine_rbind; [apply genuine_call|intros results].
destruct results as [|first rest]; [apply genuine_ok|].
destruct (boxes first); apply genuine_ok.
Qed.

Lemma read_unfold capture w :
cv2.read capture w
= match captures w !! capture with
  | None => fault w
  | Some c =>
      match cap_opened c, cap_pending c with
      | true, ev :: rest =>
          let w1 :=
            with_captures
              (fun l => <[capture := {| cap_opened := true;
                                        cap_stream := cap_stream c;
                                        cap_pending := rest |}]> l) w in
          match ev with
          | Frame img =>
              (Ok (true, Some (length (arrays w))),
               with_arrays (fun l => l ++ [img]) w1)
          | ReadError msg => (Raise (Exn External msg), w1)
          end
      | _, _ => (Ok (false, None), w)
      end
  end.
Proof.
unfold cv2.read, get_capture, set_capture. rewrite bind_unfold.
destruct (captures w !! capture) as [c|] eqn:E; [|reflexivity].
destruct (cap_opened c); [|reflexivity].
destruct (cap_pending c) as [|ev rest]; [reflexivity|].
rewrite bind_unfold, E. destruct ev; reflexivity.
Qed.

Lemma write_unfold writer frame w :
cv2.write writer frame w
= match arrays w !! frame with
  | None => fault w
  | Some img =>
      match writers w !! writer with
      | None => fault w
      | Some wr =>
          if wr_opened wr then
            (Ok tt,
             with_writers
               (fun l => <[writer := {| wr_opened := true; wr_path := wr_path wr;
                                        wr_fourcc := wr_fourcc wr;
                                        wr_fps := wr_fps wr;
                                        wr_size := wr_size wr;
                                        wr_frames := wr_frames wr ++ [img] |}]> l)
               w)
          else (Ok tt, w)
      end
  end.
Proof.
unfold cv2.write, get_array, get_writer, set_writer. rewrite bind_unfold.
destruct (arrays w !! frame) as [img|]; [|reflexivity].
rewrite bind_unfold.
destruct (writers w !! writer) as [wr|] eqn:E; [|reflexivity].
destruct (wr_opened wr); [|reflexivity]. now rewrite E.
Qed.

Lemma closing_eq capture writer c wr w :
captures w !! capture = Some c -> writers w !! writer = Some wr ->
(_ ← cv2.release capture; cv2.writer_release writer) w
= (Ok tt,
   with_writers (fun l => <[writer := closed_writer wr]> l)
     (with_captures (fun l => <[capture := closed_capture c]> l) w)).
Proof.
intros Hc Hw. rewrite bind_unfold, release_unfold, Hc.
unfold cv2.writer_release, get_writer, set_writer.
rewrite bind_unfold. cbn [writers with_captures]. rewrite Hw.
cbn [writers with_captures]. now rewrite Hw.
Qed.

Lemma open_video_capture_genuine P path w :
genuine (open_video_capture P path w).1.
Proof.
rewrite open_video_capture_eq.
destruct (negb _); [now apply genuine_raise|].
destruct (decode _ _) as [vs|]; [|now apply genuine_raise]. cbv zeta.
pose proof (genuine_to_integer trunc_finite (vs_width vs)) as G1.
pose proof (genuine_to_integer trunc_finite (vs_height vs)) as G2.
pose proof (genuine_to_integer trunc_finite (vs_frame_count vs)) as G3.
fold int_of_float in G1, G2, G3.
destruct (int_of_float (vs_width vs)); [|exact (genuine_retype e G1)].
destruct (int_of_float (vs_height vs)); [|exact (genuine_retype e G2)].
destruct (int_of_float (vs_frame_count vs)); [|exact (genuine_retype e G3)].
destruct (_ || _); [now apply genuine_raise|apply genuine_ok].
Qed.



Lemma streamed_raise writer wr fi td (e : exn) w :
exn_kind e <> ModelFault -> streamed writer wr fi td (Raise e, w).
Proof.
intros He. split; [|intros ? ? Hno; inversion Hno].
intros e' H. inversion H; subst. exact He.
Qed.

Lemma stream_frames_spec P capture det writer fuel :
forall w fi td c wr,
  captures w !! capture = Some c ->
  (length (cap_pending c) < fuel)%nat ->
  writers w !! writer = Some wr -> wr_opened wr = true ->
  streamed writer wr fi td (stream_frames fuel P capture det writer fi td w).
Proof.
induction fuel as [|fuel IH]; intros w fi td c wr Hc Hfuel Hw Hopen; [lia|].
cbn [stream_frames]. rewrite bind_unfold, read_unfold, Hc.
assert (Hstop : streamed writer wr fi td (Ok (fi, td), w)).
{ split; [apply genuine_ok|]. intros fi' td' H. inversion H; subst.
  exists wr, []. cbn. rewrite app_nil_r. repeat split; auto; lia. }
destruct (cap_opened c); [|exact Hstop].
destruct (cap_pending c) as [|ev rest] eqn:Hpending; [exact Hstop|].
clear Hstop. cbv zeta.
set (c' := {| cap_opened := true; cap_stream := cap_stream c; cap_pending := rest |}).
destruct ev as [img|msg]; [|now apply streamed_raise].
set (w1 := with_arrays (fun l => l ++ [img])
             (with_captures (fun l => <[capture := c']> l) w)).
cbv beta iota.
assert (Hframe : arrays w1 !! length (arrays w) = Some img)
  by (subst w1; cbn; apply lookup_snoc).
rewrite bind_unfold. unfold get_array at 1. rewrite Hframe.
rewrite bind_unfold, lift_unfold.
pose proof (genuine_detect det img) as Gdet.
destruct (detect det img) as [dets|e];
  [|apply streamed_raise; now apply Gdet].
rewrite bind_unfold.
destruct (draw_detections_effect P (length (arrays w)) dets w1
            (mk_is_Some _ _ Hframe)) as ([img' Hw2] & Ha & _ & Gdraw).
destruct (draw_detections P (length (arrays w)) dets w1) as [[a|e] w2];
  [|apply streamed_raise; now apply Gdraw].
cbn in Hw2, Ha. specialize (Ha a eq_refl). subst a w2.
rewrite bind_unfold, write_unfold. cbn [arrays writers with_arrays with_captures].
rewrite lookup_snoc. subst w1. cbn [arrays writers with_arrays with_captures].
rewrite Hw, Hopen.
set (wr2 := {| wr_opened := true; wr_path := wr_path wr; wr_fourcc := wr_fourcc wr;
               wr_fps := wr_fps wr; wr_size := wr_size wr;
               wr_frames := wr_frames wr ++ [img'] |}).
match goal with |- context [stream_frames fuel P capture det writer ?a ?b ?x] =>
  specialize (IH x a b c' wr2)
end.
destruct IH as [G IH].
- cbn. apply list_lookup_insert_eq. eapply lookup_lt_Some; eauto.
- cbn in *. lia.
- cbn. apply list_lookup_insert_eq. eapply lookup_lt_Some; eauto.
- reflexivity.
- split; [exact G|].
  intros fi' td' H. destruct (IH fi' td' H) as (wr' & written & H1 & H2 & H3 & H4 & H5).
  exists wr', (img' :: written). split; [exact H1|]. split; [exact H2|].
  split; [rewrite H3; cbn; now rewrite <- app_assoc|].
  split; [cbn [length]; lia|lia].
Qed.

(** The [try ... finally] of [process_video], entered with a capture and an
  open writer: the loop does not fault, and both handles are closed on
  the way out, whatever the loop ended in. *)
Lemma streaming_phase_spec P capture det writer w c wr :
captures w !! capture = Some c ->
writers w !! writer = Some wr -> wr_opened wr = true ->
exists rb wb c' wr',
  streamed writer wr 0 0 (rb, wb) /\
  captures wb !! capture = Some c' /\ writers wb !! writer = Some wr' /\
  try_finally
    (c ← get_capture capture;
     stream_frames (S (length (cap_pending c))) P capture det writer 0 0)
    (_ ← cv2.release capture; cv2.writer_release writer) w
  = (rb,
     with_writers (fun l => <[writer := closed_writer wr']> l)
       (with_captures (fun l => <[capture := closed_capture c']> l) wb)).
Proof.
intros Hc Hw Hopen.
set (body := c ← get_capture capture;
             stream_frames (S (length (cap_pending c))) P capture det writer 0 0).
assert (Hbody : body w
                = stream_frames (S (length (cap_pending c))) P capture det writer
                    0 0 w).
{ unfold body, get_capture. now rewrite bind_unfold, Hc. }
pose proof (stream_frames_spec P capture det writer (S (length (cap_pending c)))
              w 0 0 c wr Hc ltac:(lia) Hw Hopen) as Hs.
rewrite <- Hbody in Hs.
assert (Hr : respects streaming body).
{ unfold body. respects_with streaming_closure. apply stream_frames_streaming. }
specialize (Hr w). destruct (body w) as [rb wb] eqn:Eb.
destruct Hr as (_ & _ & _ & _ & Lc & Lw & _). cbn in Lc, Lw.
destruct (lookup_lt_is_Some_2 (captures wb) capture) as [c' Hc'].
{ rewrite Lc. eapply lookup_lt_Some; eauto. }
destruct (lookup_lt_is_Some_2 (writers wb) writer) as [wr' Hw'].
{ rewrite Lw. eapply lookup_lt_Some; eauto. }
exists rb, wb, c', wr'. repeat split; try assumption; try apply Hs.
unfold try_finally. rewrite Eb, (closing_eq _ _ _ _ _ Hc' Hw'). reflexivity.
Qed.

End streaming_loop.


(* ===================================================================== *)
(** ** main.py: a completed run of process_video *)
(* ===================================================================== *)

Section process_video_properties.
Import video_io main.

#[local] Instance acquiring_preorder : PreOrder acquiring.
Proof.
split.
- intros w. unfold acquiring. tauto.
- intros w1 w2 w3. unfold acquiring. intuition congruence.
Qed.

Ltac acquiring_closure := unfold acquiring; cbn; tauto.

Lemma open_video_capture_acquiring P path :
respects acquiring (open_video_capture P path).
Proof.
unfold open_video_capture, cv2.VideoCapture_new, cv2.isOpened, cv2.get,
  cv2.release.
respects_with acquiring_closure.
Qed.

Lemma create_video_writer_acquiring P path md :
respects acquiring (create_video_writer P path md).
Proof.
unfold create_video_writer, cv2.VideoWriter_new, cv2.writer_isOpened.
respects_with acquiring_closure.
Qed.

(** What a run that returns went through. *)
Lemma process_video_ok P i o mp cf sz dev w a w' :
process_video P i o mp cf sz dev w = (Ok a, w') ->
exists capture md w1 eff det writer w2 fi td w3 pfps avg,
  open_video_capture P i w = (Ok (capture, md), w1) /\
  _adjust_imgsz_to_stride
    (match sz with
     | None => ImgPair (height md) (width md)
     | Some s => s
     end) 32 = Ok eff /\
  detector.__init__ P mp cf (Some eff) (_normalize_device P dev) = Ok det /\
  create_video_writer P o md w1 = (Ok writer, w2) /\
  try_finally
    (c ← get_capture capture;
     stream_frames (S (length (cap_pending c))) P capture det writer 0 0)
    (_ ← cv2.release capture; cv2.writer_release writer)
    (with_clock S w2) = (Ok (fi, td), w3) /\
  let start := perf_counter_at P (clock w2) in
  let finish := perf_counter_at P (clock w3) in
  (if fgt (fsub finish start) f0 then int_div_float fi (fsub finish start)
   else Ok f0) = Ok pfps /\
  (if negb (fi =? 0) then int_truediv td fi else Ok f0) = Ok avg /\
  a = length (objects w3) /\
  w' = with_objects
         (fun l => l ++ [Instance (metrics_of P i o mp cf dev eff fi td
                                     start finish pfps avg)])
         (with_clock S w3).
Proof.
unfold process_video. intros H.
apply bind_ok in H as ([capture md] & w1 & Hopen & H).
apply bind_ok in H as (eff & w1' & Heff & H).
apply lift_ok in Heff as [Heff ->].
apply bind_ok in H as (det & w1' & Hdet & H).
apply lift_ok in Hdet as [Hdet ->].
apply bind_ok in H as (writer & w2 & Hwr & H).
apply bind_ok in H as (start & w2' & Hstart & H).
unfold perf_counter in Hstart. inversion Hstart; subst start w2'; clear Hstart.
apply bind_ok in H as ([fi td] & w3 & Hloop & H).
apply bind_ok in H as (finish & w3' & Hfin & H).
unfold perf_counter in Hfin. inversion Hfin; subst finish w3'; clear Hfin.
apply bind_ok in H as (pfps & w4 & Hfps & H).
apply lift_ok in Hfps as [Hfps ->].
apply bind_ok in H as (avg & w4 & Havg & H).
apply lift_ok in Havg as [Havg ->].
unfold new_object in H. inversion H; subst a w'; clear H.
exists capture, md, w1, eff, det, writer, w2, fi, td, w3, pfps, avg.
cbn [clock with_clock objects] in *.
repeat split; assumption || reflexivity.
Qed.



Lemma streaming_phase P capture det writer :
respects streaming
  (try_finally
     (c ← get_capture capture;
      stream_frames (S (length (cap_pending c))) P capture det writer 0 0)
     (_ ← cv2.release capture; cv2.writer_release writer)).
Proof.
apply respects_try_finally; [typeclasses eauto| |];
  respects_with streaming_closure.
apply stream_frames_streaming.
Qed.

(** No run of [process_video] ends in a fault of the model: the loop bound
  is never exhausted and every address it uses is allocated. *)
Theorem process_video_no_fault P i o mp cf sz dev w :
genuine (process_video P i o mp cf sz dev w).1.
Proof.
unfold process_video. rewrite bind_unfold.
pose proof (open_video_capture_genuine P i w) as Gopen.
destruct (open_video_capture P i w) as [[[capture md]|e] w1] eqn:Hopen;
  [|exact (genuine_retype e Gopen)].
rewrite bind_unfold, lift_unfold.
match goal with |- context [_adjust_imgsz_to_stride ?x 32] =>
  pose proof (genuine_adjust x 32) as Gadj;
  destruct (_adjust_imgsz_to_stride x 32) as [eff|e]
end; [|exact (genuine_retype e Gadj)].
rewrite bind_unfold, lift_unfold.
match goal with |- context [detector.__init__ ?a ?b ?c ?d ?e] =>
  pose proof (genuine_init a b c d e) as Gdet;
  destruct (detector.__init__ a b c d e) as [det|e']
end; [|exact (genuine_retype e' Gdet)].
rewrite bind_unfold.
destruct (create_video_writer P o md w1) as [[writer|e] w2] eqn:Hwr.
2:{ rewrite create_video_writer_eq in Hwr. cbv zeta in Hwr.
    destruct (writer_accepts _ _ _ _ _); inversion Hwr; subst.
    apply genuine_raise. discriminate. }
destruct (open_video_capture_ok _ _ _ _ _ _ Hopen) as (_ & _ & _ & c0 & Hc0 & _).
destruct (create_video_writer_ok _ _ _ _ _ _ Hwr) as (Hcaps & _ & wr0 & Hwr0 & Hop0).
rewrite bind_unfold. unfold perf_counter at 1. cbv beta iota.
destruct (streaming_phase_spec P capture det writer (with_clock S w2) c0 wr0)
  as (rb & wb & c' & wr' & [Gs _] & _ & _ & Htf);
  [cbn; now rewrite Hcaps|exact Hwr0|exact Hop0|].
rewrite bind_unfold, Htf.
destruct rb as [[fi td]|e]; [|exact (genuine_retype e Gs)].
rewrite bind_unfold. unfold perf_counter at 1. cbv beta iota.
rewrite bind_unfold, lift_unfold.
match goal with |- context [if ?b then int_div_float ?n ?d else Ok f0] =>
  pose proof (genuine_int_div_float n d) as Gfps;
  destruct (if b then int_div_float n d else Ok f0) as [pfps|e] eqn:Efps
end.
2:{ destruct (fgt _ _); [|discriminate]. rewrite Efps in Gfps.
    exact (genuine_retype e Gfps). }
rewrite bind_unfold, lift_unfold.
pose proof (genuine_int_truediv td fi) as Gavg.
destruct (if negb (fi =? 0) then int_truediv td fi else Ok f0) as [avg|e] eqn:Eavg.
2:{ destruct (negb _); [|discriminate]. rewrite Eavg in Gavg.
    exact (genuine_retype e Gavg). }
apply genuine_ok.
Qed.



(** C3 as the code has it.  With no size requested the run uses the
  (height, width) of the source, otherwise the requested size, and records
  what [_adjust_imgsz_to_stride] makes of it; for every dimension of
  magnitude at most 2^53 (the integers a float holds exactly) that is the
  smallest multiple of 32 not below the dimension, height and width each
  on its own; and 500 becomes 512. *)
Theorem adjust_imgsz_to_stride_snaps :
(forall n, - 2 ^ 53 <= n <= 2 ^ 53 ->
   exists r, _adjust_imgsz_to_stride (ImgInt n) 32 = Ok (ImgInt r) /\
     (32 | r) /\ n <= r /\ forall k, (32 | k) -> n <= k -> r <= k) /\
(forall h w, - 2 ^ 53 <= h <= 2 ^ 53 -> - 2 ^ 53 <= w <= 2 ^ 53 ->
   exists rh rw,
     _adjust_imgsz_to_stride (ImgPair h w) 32 = Ok (ImgPair rh rw) /\
     ((32 | rh) /\ h <= rh /\ forall k, (32 | k) -> h <= k -> rh <= k) /\
     ((32 | rw) /\ w <= rw /\ forall k, (32 | k) -> w <= k -> rw <= k)) /\
_adjust_imgsz_to_stride (ImgInt 500) 32 = Ok (ImgInt 512) /\
(forall P i o mp cf sz dev w a w',
   process_video P i o mp cf sz dev w = (Ok a, w') ->
   exists capture md w1 m eff,
     open_video_capture P i w = (Ok (capture, md), w1) /\
     objects w' !! a = Some (Instance m) /\ imgsz m = Some eff /\
     _adjust_imgsz_to_stride
       (match sz with
        | None => ImgPair (height md) (width md)
        | Some requested => requested
        end) 32 = Ok eff).
Proof.
split; [|split; [|split]].
- intros n Hn. exists (- ((- n) / 32) * 32).
  unfold _adjust_imgsz_to_stride. rewrite (snap_exact n Hn).
  split; [reflexivity|]. apply ceil_multiple.
- intros h w Hh Hw. exists (- ((- h) / 32) * 32), (- ((- w) / 32) * 32).
  unfold _adjust_imgsz_to_stride, mbind, result_bind, rbind.
  rewrite (snap_exact h Hh), (snap_exact w Hw).
  split; [reflexivity|]. split; apply ceil_multiple.
- vm_compute. reflexivity.
- intros P i o mp cf sz dev w a w' H.
  destruct (process_video_ok _ _ _ _ _ _ _ _ _ _ H)
    as (capture & md & w1 & eff & det & writer & w2 & fi & td & w3 & pfps & avg
        & Hopen & Heff & _ & _ & _ & _ & _ & -> & ->).
  exists capture, md, w1. eexists. exists eff.
  split; [exact Hopen|]. split; [cbn; apply lookup_snoc|].
  split; [reflexivity|exact Heff].
Qed.

(** Beyond 2^53 the quotient by 32 is rounded before the ceiling is taken:
  2^53 + 1 is snapped down to 2^53. *)
Lemma adjust_imgsz_rounds_down_beyond_2_53 :
_adjust_imgsz_to_stride (ImgInt 9007199254740993) 32
= Ok (ImgInt 9007199254740992) /\
~ (9007199254740993 <= 9007199254740992).
Proof. split; [vm_compute; reflexivity|lia]. Qed.

End process_video_properties.


(* ===================================================================== *)
(** ** main.py: exporting the metrics *)
(* ===================================================================== *)

Section export_properties.
Import main.

Lemma with_objects_compose f g w :
with_objects f (with_objects g w) = with_objects (fun l => f (g l)) w.
Proof. reflexivity. Qed.

Lemma with_objects_ext f g w :
f (objects w) = g (objects w) -> with_objects f w = with_objects g w.
Proof. intros H. unfold with_objects. now rewrite H. Qed.

Lemma with_objects_id f w : f (objects w) = objects w -> with_objects f w = w.
Proof. intros H. destruct w. unfold with_objects. cbn in *. now rewrite H. Qed.

(** Addresses handed out in a row point at what was stored in a row. *)
Lemma lookup_seq_appended {X Y} (f : X -> Y) (l : list Y) (xs : list X) (tl : list Y) :
Forall2 (fun a x => (l ++ map f xs ++ tl) !! a = Some (f x))
  (seq (length l) (length xs)) xs.
Proof.
revert l. induction xs as [|x xs IH]; intros l; cbn; [constructor|].
constructor.
- now rewrite list_lookup_middle.
- specialize (IH (l ++ [f x])). rewrite length_app in IH. cbn in IH.
  rewrite Nat.add_1_r in IH. rewrite <- app_assoc in IH. exact IH.
Qed.

Section export.
Context (ndigits : Z).

Lemma asdict_eq a m w :
objects w !! a = Some (Instance m) ->
asdict a w
= (Ok (length (objects w)), with_objects (fun l => l ++ [Dict (fields m)]) w).
Proof.
intros H. unfold asdict, get_object. rewrite bind_unfold, H. reflexivity.
Qed.

Lemma get_dict_eq d items w :
objects w !! d = Some (Dict items) -> get_dict d w = (Ok items, w).
Proof.
intros H. unfold get_dict, get_object. rewrite bind_unfold, H. reflexivity.
Qed.

Lemma dict_setitem_eq d key v items w :
objects w !! d = Some (Dict items) ->
dict_setitem d key v w
= (Ok tt, with_objects (fun l => <[d := Dict (setitem key v items)]> l) w).
Proof.
intros H. unfold dict_setitem. rewrite bind_unfold, (get_dict_eq _ _ _ H).
unfold set_object. now rewrite H.
Qed.

Lemma asdict_all metrics ms w :
Forall2 (fun a m => objects w !! a = Some (Instance m)) metrics ms ->
map_m asdict metrics w
= (Ok (seq (length (objects w)) (length ms)),
   with_objects (fun l => l ++ map (fun m => Dict (fields m)) ms) w).
Proof.
intros H. revert w H. revert metrics.
induction ms as [|m ms IH]; intros metrics w H;
  inversion H as [|a ? metrics' ? Ha Hrest]; subst; cbn [map_m].
- cbn. rewrite with_objects_id; [reflexivity|apply app_nil_r].
- rewrite bind_unfold, (asdict_eq _ _ _ Ha).
  rewrite bind_unfold, IH.
  + cbn [objects with_objects]. rewrite ret_unfold, length_app. cbn [length].
    rewrite Nat.add_1_r, with_objects_compose. cbn [map seq].
    f_equal. apply with_objects_ext. now rewrite <- app_assoc.
  + eapply Forall2_impl; [exact Hrest|]. intros a' m' Ha'. cbn.
    now apply lookup_app_l_Some.
Qed.

Lemma setitem_fresh key v (acc : pydict) :
key ∉ map fst acc -> setitem key v acc = acc ++ [(key, v)].
Proof.
induction acc as [|[k old] acc IH]; cbn; [reflexivity|].
intros Hk. apply not_elem_of_cons in Hk as [Hne Hk].
destruct (String.eqb_spec k key) as [->|_]; [congruence|].
now rewrite IH.
Qed.

Lemma fill_fresh (items acc : pydict) :
NoDup (map fst items) ->
(forall k, k ∈ map fst items -> k ∉ map fst acc) ->
fold_left (fun acc kv => setitem kv.1 (round_value kv.2 ndigits) acc) items acc
= acc ++ map (export_item ndigits) items.
Proof.
revert acc. induction items as [|[k v] items IH]; intros acc Hnd Hdisj; cbn.
- now rewrite app_nil_r.
- apply NoDup_cons in Hnd as [Hk Hnd].
  rewrite setitem_fresh by (apply Hdisj; cbn; left).
  rewrite IH; [now rewrite <- app_assoc|assumption|].
  intros k' Hk'. rewrite map_app. cbn. rewrite elem_of_app, list_elem_of_singleton.
  intros [Hin| ->]; [|contradiction].
  revert Hin. apply Hdisj. cbn. now right.
Qed.

Lemma fill_eq d (items acc : pydict) w :
objects w !! d = Some (Dict acc) ->
for_each items (fun '(key, v) => dict_setitem d key (round_value v ndigits)) w
= (Ok tt,
   with_objects
     (fun l => <[d := Dict (fold_left
                      (fun acc kv => setitem kv.1 (round_value kv.2 ndigits) acc)
                      items acc)]> l) w).
Proof.
revert acc w. induction items as [|[k v] items IH]; intros acc w H; cbn [for_each].
- cbn. rewrite with_objects_id; [reflexivity|]. now apply list_insert_id.
- rewrite bind_unfold, (dict_setitem_eq _ _ _ _ _ H).
  rewrite (IH (setitem k (round_value v ndigits) acc)).
  + rewrite with_objects_compose. cbn [fold_left fst snd]. f_equal.
    apply with_objects_ext. now rewrite list_insert_insert_eq.
  + cbn. apply list_lookup_insert_eq. now apply lookup_lt_Some in H.
Qed.

Lemma round_one item items w :
objects w !! item = Some (Dict items) -> NoDup (map fst items) ->
(items ← get_dict item;
 new_item ← new_object (Dict []);
 _ ← for_each items (fun '(key, v) =>
       dict_setitem new_item key (round_value v ndigits));
 mret new_item) w
= (Ok (length (objects w)),
   with_objects (fun l => l ++ [Dict (map (export_item ndigits) items)]) w).
Proof.
intros H Hnd. rewrite bind_unfold, (get_dict_eq _ _ _ H).
rewrite bind_unfold. unfold new_object at 1. cbv beta iota.
rewrite bind_unfold, (fill_eq _ _ []) by (cbn; apply lookup_snoc).
rewrite ret_unfold, with_objects_compose. f_equal.
apply with_objects_ext.
rewrite fill_fresh; [|assumption|intros k _; apply not_elem_of_nil]. cbn.
rewrite insert_app_r_alt by lia. now rewrite Nat.sub_diag.
Qed.

Lemma round_all data itemss w :
Forall2 (fun a items => objects w !! a = Some (Dict items)
                        /\ NoDup (map fst items)) data itemss ->
_round_float_fields data ndigits w
= (Ok (seq (length (objects w)) (length itemss)),
   with_objects (fun l => l ++ map (fun items => Dict (map (export_item ndigits) items))
                            itemss) w).
Proof.
unfold _round_float_fields. intros H. revert w H. revert data.
induction itemss as [|items itemss IH]; intros data w H;
  inversion H as [|a ? data' ? Ha Hrest]; subst; cbn [map_m].
- cbn. rewrite with_objects_id; [reflexivity|apply app_nil_r].
- destruct Ha as [Hl Hnd].
  rewrite bind_unfold, (round_one _ _ _ Hl Hnd).
  rewrite bind_unfold, IH.
  + cbn [objects with_objects]. rewrite ret_unfold, length_app. cbn [length].
    rewrite Nat.add_1_r, with_objects_compose. cbn [map seq].
    f_equal. apply with_objects_ext. now rewrite <- app_assoc.
  + eapply Forall2_impl; [exact Hrest|]. intros a' m' [Ha' ?]. cbn.
    split; [now apply lookup_app_l_Some|assumption].
Qed.

Lemma get_all data itemss w :
Forall2 (fun a items => objects w !! a = Some (Dict items)) data itemss ->
map_m get_dict data w = (Ok itemss, w).
Proof.
induction 1 as [|a items data itemss Ha _ IH]; cbn [map_m]; [reflexivity|].
now rewrite bind_unfold, (get_dict_eq _ _ _ Ha), bind_unfold, IH.
Qed.
End export.

Lemma append_inj_l (x s1 s2 : string) : x +:+ s1 = x +:+ s2 -> s1 = s2.
Proof. induction x as [|c x IH]; cbn; [auto|]. intros H. inversion H. auto. Qed.

Lemma concat_snoc_inj (p : Path) (a b : string) :
str (joinpath p a) = str (joinpath p b) -> a = b.
Proof.
unfold str, joinpath. induction p as [|x p IH]; cbn; [auto|].
destruct p as [|y p]; cbn in *; intros H; do 2 apply append_inj_l in H.
- exact H.
- apply IH. exact H.
Qed.

Lemma with_files_compose f g w :
with_files f (with_files g w) = with_files (fun l => f (g l)) w.
Proof. reflexivity. Qed.

Lemma with_files_ext f g w :
f (files w) = g (files w) -> with_files f w = with_files g w.
Proof. intros H. unfold with_files. now rewrite H. Qed.

Lemma with_files_id f w : f (files w) = files w -> with_files f w = w.
Proof. intros H. destruct w. unfold with_files. cbn in *. now rewrite H. Qed.

Lemma lookup_key_in (ds : pydict) (k : string) (v : value) :
NoDup (map fst ds) -> (k, v) ∈ ds -> lookup_key k ds = Some v.
Proof.
unfold lookup_key. induction ds as [|[k' v'] ds IH]; cbn; intros Hnd Hin.
- now apply elem_of_nil in Hin.
- apply NoDup_cons in Hnd as [Hk Hnd].
  destruct (String.eqb_spec k' k) as [->|Hne]; cbn.
  + apply elem_of_cons in Hin as [Heq|Hin]; [congruence|].
    exfalso. apply Hk. apply list_elem_of_fmap. now exists (k, v).
  + apply elem_of_cons in Hin as [Heq|Hin]; [congruence|]. auto.
Qed.

Lemma dict_to_list_own_keys (ds : pydict) :
NoDup (map fst ds) -> _dict_to_list (map fst ds) ds = Ok (map snd ds).
Proof.
intros Hnd. unfold _dict_to_list.
assert (forallb (fun kv => existsb (String.eqb kv.1) (map fst ds)) ds = true) as ->.
{ apply forallb_forall. intros [k v] Hin. apply existsb_exists.
  exists k. split; [|apply String.eqb_refl].
  apply in_map_iff. now exists (k, v). }
f_equal. rewrite map_map. apply map_ext_in. intros [k v] Hin. cbn.
rewrite (lookup_key_in ds k v Hnd); [reflexivity|]. now apply list_elem_of_In.
Qed.

Lemma write_rows csv headers data dss rows0 w :
files w !! str csv = Some (CsvDoc headers rows0) ->
NoDup headers ->
Forall2 (fun a ds => objects w !! a = Some (Dict ds) /\ map fst ds = headers)
  data dss ->
for_each data (fun row =>
  rowdict ← get_dict row;
  cells ← lift (_dict_to_list headers rowdict);
  append_row csv cells) w
= (Ok tt,
   with_files
     (fun fs => <[str csv := CsvDoc headers (rows0 ++ map (map snd) dss)]> fs) w).
Proof.
intros Hf Hnd H. revert rows0 w Hf H. revert data.
induction dss as [|ds dss IH]; intros data rows0 w Hf H;
  inversion H as [|a ? data' ? [Ha Hk] Hrest]; subst; cbn [for_each].
- cbn. rewrite app_nil_r, with_files_id; [reflexivity|]. now apply insert_id.
- rewrite bind_unfold, bind_unfold, (get_dict_eq _ _ _ Ha).
  rewrite bind_unfold, lift_unfold, dict_to_list_own_keys by assumption.
  unfold append_row at 1. rewrite Hf.
  rewrite (IH data' (rows0 ++ [map snd ds])).
  + rewrite with_files_compose. f_equal. apply with_files_ext.
    rewrite insert_insert_eq. cbn [map]. now rewrite <- app_assoc.
  + cbn. apply lookup_insert_eq.
  + exact Hrest.
Qed.

Lemma Forall2_map_r {X Y Z'} (R : X -> Z' -> Prop) (f : Y -> Z') xs ys :
Forall2 (fun x y => R x (f y)) xs ys -> Forall2 R xs (map f ys).
Proof. induction 1; cbn; constructor; auto. Qed.

Lemma fields_nodup (m : VideoMetrics) : NoDup (map fst (fields m)).
Proof. cbn. apply (bool_decide_unpack _). vm_compute. exact I. Qed.

Lemma export_keys (nd : Z) (items : pydict) :
map fst (map (export_item nd) items) = map fst items.
Proof. rewrite map_map. reflexivity. Qed.

Lemma write_metrics_files_eq (metrics : list nat) (ms : list VideoMetrics)
  (output_dir : Path) (w : world) :
Forall2 (fun a m => objects w !! a = Some (Instance m)) metrics ms ->
write_metrics_files metrics output_dir w
= (Ok tt,
   with_files
     (fun fs =>
        let fs1 := <[str (joinpath output_dir "metrics.json")
                     := JsonDoc (exported ms)]> fs in
        match ms with
        | [] => fs1
        | first :: _ =>
            <[str (joinpath output_dir "metrics.csv")
              := CsvDoc (map fst (fields first)) (map (map snd) (exported ms))]> fs1
        end)
     (with_objects
        (fun l => (l ++ map (fun m => Dict (fields m)) ms)
                    ++ map (fun d => Dict d) (exported ms))
        (with_dirs (fun l => l ++ [output_dir]) w))).
Proof.
intros H. unfold write_metrics_files.
rewrite bind_unfold. unfold mkdir at 1. cbv beta iota.
set (w0 := with_dirs (fun l => l ++ [output_dir]) w).
rewrite bind_unfold, (asdict_all metrics ms w0) by exact H.
set (w1 := with_objects (fun l => l ++ map (fun m => Dict (fields m)) ms) w0).
assert (Hlen1 : length (objects w1) = (length (objects w) + length ms)%nat).
{ subst w1 w0. cbn. now rewrite length_app, length_map. }
rewrite bind_unfold, (round_all 2 _ (map fields ms) w1).
2:{ apply Forall2_map_r. subst w1 w0. cbn.
    pose proof (lookup_seq_appended (fun m => Dict (fields m)) (objects w) ms [])
      as L.
    rewrite app_nil_r in L. eapply Forall2_impl; [exact L|].
    intros a m Ha. cbn in Ha. split; [exact Ha|exact (fields_nodup m)]. }
rewrite length_map, Hlen1.
set (w2 := with_objects _ w1).
assert (Hobj2 : objects w2 = (objects w ++ map (fun m => Dict (fields m)) ms)
                               ++ map (fun d => Dict d) (exported ms)).
{ subst w2 w1 w0. cbn. unfold exported. now rewrite !map_map. }
assert (Hdata : Forall2 (fun a ds => objects w2 !! a = Some (Dict ds))
                  (seq (length (objects w) + length ms) (length ms))
                  (exported ms)).
{ rewrite Hobj2.
  pose proof (lookup_seq_appended (fun d => Dict d)
                (objects w ++ map (fun m => Dict (fields m)) ms) (exported ms) [])
    as L.
  assert (Hle : length (exported ms) = length ms)
    by (unfold exported; apply length_map).
  rewrite app_nil_r, length_app, length_map, Hle in L. exact L. }
rewrite bind_unfold, (get_all _ _ _ Hdata).
rewrite bind_unfold. unfold write_file at 1. cbv beta iota.
set (json := str (joinpath output_dir "metrics.json")).
set (csv := joinpath output_dir "metrics.csv").
set (w3 := with_files (fun fs => <[json := JsonDoc (exported ms)]> fs) w2).
destruct ms as [|first rest].
- cbn [length seq]. rewrite ret_unfold. reflexivity.
- cbn [length seq].
  change (exported (first :: rest))
    with (map (export_item 2) (fields first) :: exported rest) in Hdata.
  cbn [length seq] in Hdata. apply Forall2_cons_1 in Hdata as [Hfirst _].
  rewrite bind_unfold. rewrite (get_dict_eq _ _ w3 Hfirst).
  rewrite bind_unfold. unfold write_file at 1. cbv beta iota.
  change (map fst (map (export_item 2) (fields first)))
    with (map fst (fields first)).
  set (headers := map fst (fields first)).
  set (w4 := with_files (fun fs => <[str csv := CsvDoc headers []]> fs) w3).
  change (?a :: seq (S ?a) ?n) with (seq a (S n)).
  rewrite (write_rows csv headers _ (exported (first :: rest)) [] w4).
  + rewrite app_nil_l. f_equal.
    subst w4 w3 w2 w1 w0. unfold with_files, with_objects, with_dirs. cbn.
    rewrite insert_insert_eq, !map_map. reflexivity.
  + subst w4. cbn. apply lookup_insert_eq.
  + exact (fields_nodup first).
  + eapply Forall2_impl.
    * apply Forall2_map_r. 
      pose proof (lookup_seq_appended (fun m => Dict (map (export_item 2) (fields m)))
                (objects w ++ map (fun m => Dict (fields m)) (first :: rest))
                (first :: rest) []) as L.
      rewrite app_nil_r, length_app, !length_map in L.
      eapply Forall2_impl; [exact L|]. intros a m Ha.
      instantiate (1 := fun a ds => objects w4 !! a = Some (Dict ds)
                                    /\ map fst ds = headers).
      cbn beta. split.
      -- subst w4 w3. cbn [objects with_files]. rewrite Hobj2.
         unfold exported. rewrite map_map. exact Ha.
      -- rewrite export_keys. reflexivity.
    * auto.
Qed.

(** C4. Given the addresses of metrics records, the export succeeds; every
  object that existed, the records among them, is left as it was; the JSON
  document holds, per record and in order, the fields in their declared
  order, each float rounded to 2 places and every other value as it is;
  and the CSV document, written when the batch is not empty, has the field
  names of the first record as header and, per record, the same values in
  the same order. *)
Theorem write_metrics_files_export (metrics : list nat) (ms : list VideoMetrics)
  (output_dir : Path) (w : world) :
Forall2 (fun a m => objects w !! a = Some (Instance m)) metrics ms ->
let out := write_metrics_files metrics output_dir w in
let export_value (v : value) : value :=
  match v with
  | VFloat x => VFloat (round x 2)
  | _ => v
  end in
let export (m : VideoMetrics) : pydict :=
  map (fun kv => (kv.1, export_value kv.2)) (fields m) in
let json := str (joinpath output_dir "metrics.json") in
let csv := str (joinpath output_dir "metrics.csv") in
out.1 = Ok tt /\
(forall a, (a < length (objects w))%nat -> objects out.2 !! a = objects w !! a) /\
Forall2 (fun a m => objects out.2 !! a = Some (Instance m)) metrics ms /\
files out.2 !! json = Some (JsonDoc (map export ms)) /\
match ms with
| [] => files out.2 !! csv = files w !! csv
| first :: _ =>
    files out.2 !! csv
    = Some (CsvDoc (map fst (export first)) (map (map snd) (map export ms)))
end /\
(forall m, map fst (export m)
           = ["input_path"; "output_path"; "frames"; "total_detections";
              "avg_detections_per_frame"; "processing_fps";
              "duration_seconds"; "model"; "conf"; "imgsz"; "device"]).
Proof.
intros H out export_value export json csv.
assert (Hne : csv <> json).
{ unfold csv, json. intros E. apply concat_snoc_inj in E. discriminate. }
assert (Hex : map export ms = exported ms) by reflexivity.
assert (Hold : forall a, (a < length (objects w))%nat ->
          ((objects w ++ map (fun m => Dict (fields m)) ms)
             ++ map (fun d => Dict d) (exported ms)) !! a = objects w !! a).
{ intros a Ha. rewrite lookup_app_l by (rewrite length_app; lia).
  now apply lookup_app_l. }
subst out. rewrite (write_metrics_files_eq metrics ms output_dir w H).
cbn [fst snd objects files with_files with_objects with_dirs].
split; [reflexivity|]. split; [exact Hold|]. split; [|split; [|split]].
- eapply Forall2_impl; [exact H|]. intros a m Ha. cbn beta in *.
  rewrite Hold; [exact Ha|]. now apply lookup_lt_Some in Ha.
- rewrite Hex. destruct ms as [|first rest].
  + apply lookup_insert_eq.
  + rewrite lookup_insert_ne by exact Hne. apply lookup_insert_eq.
- rewrite Hex. destruct ms as [|first rest].
  + apply lookup_insert_ne. intros E. apply Hne. now symmetry.
  + apply lookup_insert_eq.
- intros m. reflexivity.
Qed.

End export_properties.


(* ===================================================================== *)
(** ** main.py: the batch of a directory *)
(* ===================================================================== *)

Section directory_properties.
Import video_io main.

Lemma string_leb_trans (a b c : string) :
String.leb a b = true -> String.leb b c = true -> String.leb a c = true.
Proof.
unfold String.leb. revert b c.
induction a as [|x a IH]; intros [|y b] [|z c]; cbn; try congruence.
unfold Ascii.compare.
destruct (N.compare_spec (N_of_ascii x) (N_of_ascii y)) as [E1|L1|G1];
  destruct (N.compare_spec (N_of_ascii y) (N_of_ascii z)) as [E2|L2|G2];
  try congruence.
- rewrite E1, E2, N.compare_refl. apply IH.
- intros _ _. rewrite E1. now apply N.compare_lt_iff in L2 as ->.
- intros _ _. rewrite <- E2. now apply N.compare_lt_iff in L1 as ->.
- intros _ _. assert (N_of_ascii x < N_of_ascii z)%N as L by lia.
  now apply N.compare_lt_iff in L as ->.
Qed.

Section sorted.
Context {A : Type} (key : A -> string).
Let le (x y : A) : Prop := String.leb (key x) (key y) = true.

Lemma insert_by_perm (x : A) (l : list A) :
Permutation (pystr.insert_by key x l) (x :: l).
Proof.
induction l as [|y l IH]; cbn; [reflexivity|].
destruct (String.leb (key x) (key y)); [reflexivity|].
rewrite IH. apply perm_swap.
Qed.

Lemma sorted_perm (l : list A) : Permutation (pystr.sorted key l) l.
Proof.
induction l as [|x l IH]; cbn; [reflexivity|].
unfold pystr.sorted in *. cbn. rewrite insert_by_perm. now constructor.
Qed.

Lemma insert_by_sorted (x : A) (l : list A) :
StronglySorted le l -> StronglySorted le (pystr.insert_by key x l).
Proof.
induction 1 as [|y l Hs IH Hy]; cbn.
- repeat constructor.
- destruct (String.leb (key x) (key y)) eqn:E.
  + constructor; [now constructor|]. constructor; [exact E|].
    eapply Forall_impl; [exact Hy|]. intros z Hz. unfold le in *.
    eapply string_leb_trans; eauto.
  + constructor; [exact IH|].
    assert (Hyx : le y x).
    { unfold le. destruct (String.leb_total (key x) (key y)); congruence. }
    rewrite (insert_by_perm x l). now constructor.
Qed.

Lemma sorted_sorted (l : list A) : StronglySorted le (pystr.sorted key l).
Proof.
induction l as [|x l IH]; cbn; [constructor|].
now apply insert_by_sorted.
Qed.
End sorted.

Lemma map_m_ok {A B} (f : A -> M B) (xs : list A) (w w' : world) (ys : list B) :
map_m f xs w = (Ok ys, w') -> runs_in_order f xs w ys w'.
Proof.
revert w ys. induction xs as [|x xs IH]; intros w ys H; cbn [map_m] in H.
- inversion H; subst. constructor.
- apply bind_ok in H as (y & w1 & Hy & H).
  apply bind_ok in H as (ys' & w2 & Hys & H).
  inversion H; subst. econstructor; eauto.
Qed.

Lemma map_m_stops {A B} (f : A -> M B) (done : list A) (x : A) (rest : list A)
  (w : world) (ys : list B) (w1 : world) (e : exn) (w2 : world) :
runs_in_order f done w ys w1 -> f x w1 = (Raise e, w2) ->
map_m f (done ++ x :: rest) w = (Raise e, w2).
Proof.
intros Hdone Hx. induction Hdone as [w|x0 xs y ys w w1 w' Hrun Hrest IH];
  cbn [app map_m]; rewrite bind_unfold.
- now rewrite Hx.
- rewrite Hrun, bind_unfold. now rewrite (IH Hx).
Qed.

(** A loop over [xs] either returns, its calls having run in order, or
  stops at the first call that raises, the ones before it having run in
  order. *)
Lemma map_m_outcome {A B} (f : A -> M B) (xs : list A) (w : world) :
(exists ys w', runs_in_order f xs w ys w' /\ map_m f xs w = (Ok ys, w')) \/
(exists done x rest ys w1 e w2,
   xs = done ++ x :: rest /\ runs_in_order f done w ys w1 /\
   f x w1 = (Raise e, w2) /\ map_m f xs w = (Raise e, w2)).
Proof.
revert w. induction xs as [|x xs IH]; intros w.
- left. exists [], w. split; [constructor|reflexivity].
- destruct (f x w) as [[y|e] w1] eqn:Hx.
  + destruct (IH w1) as [(ys & w' & Hruns & Hmap)
                        |(done & x' & rest & ys & w2 & e & w3 & -> & Hruns & Hx' & Hmap)].
    * left. exists (y :: ys), w'. split; [econstructor; eauto|].
      cbn [map_m]. rewrite bind_unfold, Hx, bind_unfold, Hmap. reflexivity.
    * right. exists (x :: done), x', rest, (y :: ys), w2, e, w3.
      split; [reflexivity|]. split; [econstructor; eauto|]. split; [exact Hx'|].
      cbn [map_m]. rewrite bind_unfold, Hx, bind_unfold, Hmap. reflexivity.
  + right. exists [], x, xs, [], w, e, w1.
    split; [reflexivity|]. split; [constructor|]. split; [exact Hx|].
    cbn [map_m]. rewrite bind_unfold, Hx. reflexivity.
Qed.

Lemma extensions_repr :
pystr.repr_list (pystr.sorted id (elements VIDEO_EXTENSIONS))
= "['.avi', '.mkv', '.mov', '.mp4']".
Proof. vm_compute. reflexivity. Qed.

Lemma extension_recognized (s : string) :
s ∈ VIDEO_EXTENSIONS <->
s = ".mp4" \/ s = ".mov" \/ s = ".avi" \/ s = ".mkv".
Proof.
unfold VIDEO_EXTENSIONS. rewrite !elem_of_union, !elem_of_singleton. tauto.
Qed.

Lemma list_videos_eq P directory w children :
iterdir P (str directory) = Returns children ->
_list_videos P directory w
= (Ok (pystr.sorted name
         (List.filter (is_video P) (map (joinpath directory) children))), w).
Proof. intros H. unfold _list_videos. rewrite H. reflexivity. Qed.

(** C10. When the directory can be listed, [_list_videos] returns, without
  touching the world, exactly the children that are files and whose
  suffix, lowercased, is one of .mp4, .mov, .avi, .mkv, each once, in
  ascending order of name.  [process_directory] then runs [process_video]
  on them one after the other in that order, each run starting in the
  world the previous one left: either every run returns, and
  [process_directory] returns their results in that order, or the runs
  before the first one that raises have returned in that order and
  [process_directory] raises what that one raises.  In particular a
  [process_directory] that returns has run all of them in that order. *)
Theorem list_videos_selection P directory w children :
iterdir P (str directory) = Returns children ->
exists videos,
  _list_videos P directory w = (Ok videos, w) /\
  (forall p, In p videos <->
     (exists child, In child children /\ p = joinpath directory child) /\
     is_file P (str p) = true /\
     (pystr.lower (suffix p) = ".mp4" \/ pystr.lower (suffix p) = ".mov" \/
      pystr.lower (suffix p) = ".avi" \/ pystr.lower (suffix p) = ".mkv")) /\
  StronglySorted (fun p q => String.leb (name p) (name q) = true) videos /\
  Permutation videos
    (List.filter (is_video P) (map (joinpath directory) children)) /\
  (forall output_dir mp cf sz dev ms w',
     process_directory P directory output_dir mp cf sz dev w = (Ok ms, w') ->
     runs_in_order
       (fun video_path =>
          process_video P video_path (joinpath output_dir (name video_path))
            mp cf sz dev)
       videos (with_dirs (fun l => l ++ [output_dir]) w) ms w') /\
  (forall output_dir mp cf sz dev,
     videos <> [] ->
     (exists ms w',
        runs_in_order
          (fun video_path =>
             process_video P video_path (joinpath output_dir (name video_path))
               mp cf sz dev)
          videos (with_dirs (fun l => l ++ [output_dir]) w) ms w' /\
        process_directory P directory output_dir mp cf sz dev w = (Ok ms, w')) \/
     (exists done video rest ms w1 e w2,
        videos = done ++ video :: rest /\
        runs_in_order
          (fun video_path =>
             process_video P video_path (joinpath output_dir (name video_path))
               mp cf sz dev)
          done (with_dirs (fun l => l ++ [output_dir]) w) ms w1 /\
        process_video P video (joinpath output_dir (name video)) mp cf sz dev w1
        = (Raise e, w2) /\
        process_directory P directory output_dir mp cf sz dev w = (Raise e, w2))).
Proof.
intros Hdir. eexists. split; [apply (list_videos_eq _ _ _ _ Hdir)|].
set (candidates := map (joinpath directory) children).
split; [|split; [|split; [|split]]].
- intros p. rewrite <- list_elem_of_In, (sorted_perm name _), list_elem_of_In.
  rewrite filter_In. unfold candidates. rewrite in_map_iff.
  unfold is_video. rewrite andb_true_iff, bool_decide_eq_true, extension_recognized.
  split.
  + intros [(child & <- & Hc) [Hf He]]. eauto 6.
  + intros [(child & Hc & ->) [Hf He]]. eauto 6.
- apply sorted_sorted.
- apply sorted_perm.
- intros output_dir mp cf sz dev ms w' H.
  unfold process_directory in H. rewrite bind_unfold, (list_videos_eq _ _ _ _ Hdir) in H.
  fold candidates in H.
  destruct (pystr.sorted name (List.filter (is_video P) candidates)) as [|v vs] eqn:E.
  + discriminate.
  + apply bind_ok in H as ([] & w1 & Hmk & H).
    unfold mkdir in Hmk. inversion Hmk; subst w1. now apply map_m_ok.
- intros output_dir mp cf sz dev Hsome.
  unfold process_directory. rewrite bind_unfold, (list_videos_eq _ _ _ _ Hdir).
  fold candidates in Hsome |- *.
  destruct (pystr.sorted name (List.filter (is_video P) candidates)) as [|v vs] eqn:E;
    [congruence|].
  rewrite bind_unfold. unfold mkdir at 1.
  apply map_m_outcome.
Qed.

(** C7. When the directory lists no file with a recognized extension,
  [process_directory] raises [FileNotFoundError] with a message naming the
  extensions and the directory, and leaves the world as it was: no
  directory is made, no writer opened, no file written, no record built. *)
Theorem process_directory_empty P input_dir output_dir mp cf sz dev w children :
iterdir P (str input_dir) = Returns children ->
(forall child, In child children ->
   is_video P (joinpath input_dir child) = false) ->
process_directory P input_dir output_dir mp cf sz dev w
= (Raise (Exn FileNotFoundError
            ("No videos with extensions ['.avi', '.mkv', '.mov', '.mp4'] found in "
             +:+ str input_dir)), w).
Proof.
intros Hdir Hnone. unfold process_directory.
rewrite bind_unfold, (list_videos_eq _ _ _ _ Hdir).
assert (List.filter (is_video P) (map (joinpath input_dir) children) = []) as ->.
{ clear Hdir. induction children as [|c cs IH]; [reflexivity|]. cbn.
  rewrite (Hnone c) by now left. apply IH. intros; apply Hnone. now right. }
cbn [pystr.sorted fold_right]. rewrite raise_unfold, extensions_repr. reflexivity.
Qed.

End directory_properties.


(* ===================================================================== *)
(** ** main.py: release of the source and the sink *)
(* ===================================================================== *)

Section release_properties.
Import video_io main.

(** C1, where the code departs from it.  When the source has been opened
  and constructing the detector then raises, [process_video] lets the
  exception through with the world as acquisition left it: the capture is
  still open.  The release in the [finally] clause guards the streaming
  loop only. *)
Theorem process_video_leaks_capture P i o mp cf sz dev w capture md w1 eff e :
open_video_capture P i w = (Ok (capture, md), w1) ->
_adjust_imgsz_to_stride
  (match sz with
   | None => ImgPair (height md) (width md)
   | Some requested => requested
   end) 32 = Ok eff ->
detector.__init__ P mp cf (Some eff) (_normalize_device P dev) = Raise e ->
process_video P i o mp cf sz dev w = (Raise e, w1) /\
exists c, captures w1 !! capture = Some c /\ cap_opened c = true.
Proof.
intros Hopen Heff Hdet. split.
- unfold process_video. rewrite bind_unfold, Hopen.
  rewrite bind_unfold, lift_unfold, Heff.
  rewrite bind_unfold, lift_unfold, Hdet. reflexivity.
- destruct (open_video_capture_ok _ _ _ _ _ _ Hopen) as (_ & _ & _ & Hc).
  exact Hc.
Qed.

(** The same when the sink cannot be created: the run raises what
  [create_video_writer] raises, and the capture is still open. *)
Lemma process_video_leaks_capture_without_writer P i o mp cf sz dev w
  capture md w1 eff det e w2 :
open_video_capture P i w = (Ok (capture, md), w1) ->
_adjust_imgsz_to_stride
  (match sz with
   | None => ImgPair (height md) (width md)
   | Some requested => requested
   end) 32 = Ok eff ->
detector.__init__ P mp cf (Some eff) (_normalize_device P dev) = Ok det ->
create_video_writer P o md w1 = (Raise e, w2) ->
process_video P i o mp cf sz dev w = (Raise e, w2) /\
exists c, captures w2 !! capture = Some c /\ cap_opened c = true.
Proof.
intros Hopen Heff Hdet Hwr. split.
- unfold process_video. rewrite bind_unfold, Hopen.
  rewrite bind_unfold, lift_unfold, Heff.
  rewrite bind_unfold, lift_unfold, Hdet.
  rewrite bind_unfold, Hwr. reflexivity.
- destruct (open_video_capture_ok _ _ _ _ _ _ Hopen) as (_ & _ & _ & Hc).
  rewrite create_video_writer_eq in Hwr. cbv zeta in Hwr.
  destruct (writer_accepts _ _ _ _ _); [discriminate|].
  inversion Hwr; subst. exact Hc.
Qed.

#[local] Instance handles_kept_preorder : PreOrder handles_kept.
Proof.
split.
- intros w. unfold handles_kept. tauto.
- intros w1 w2 w3. unfold handles_kept. intuition congruence.
Qed.

(** X16. Once source, detector and sink are acquired, every exit of
  [process_video], by return or by exception, leaves the capture and the
  writer released. *)
Theorem process_video_releases_once_acquired P i o mp cf sz dev w
  capture md w1 eff det writer w2 :
open_video_capture P i w = (Ok (capture, md), w1) ->
_adjust_imgsz_to_stride
  (match sz with
   | None => ImgPair (height md) (width md)
   | Some requested => requested
   end) 32 = Ok eff ->
detector.__init__ P mp cf (Some eff) (_normalize_device P dev) = Ok det ->
create_video_writer P o md w1 = (Ok writer, w2) ->
let out := process_video P i o mp cf sz dev w in
(exists c, captures out.2 !! capture = Some c /\ cap_opened c = false) /\
(exists wr, writers out.2 !! writer = Some wr /\ wr_opened wr = false).
Proof.
intros Hopen Heff Hdet Hwr out.
destruct (open_video_capture_ok _ _ _ _ _ _ Hopen) as (_ & _ & _ & c0 & Hc0 & _).
destruct (create_video_writer_ok _ _ _ _ _ _ Hwr) as (Hcaps & _ & wr0 & Hwr0 & Hop0).
destruct (streaming_phase_spec P capture det writer (with_clock S w2) c0 wr0)
  as (rb & wb & c' & wr' & _ & Hc' & Hw' & Htf);
  [cbn; now rewrite Hcaps|exact Hwr0|exact Hop0|].
set (w3 := with_writers _ (with_captures _ wb)) in Htf.
assert (Hout : handles_kept w3 out.2).
{ subst out. unfold process_video.
  rewrite bind_unfold, Hopen. rewrite bind_unfold, lift_unfold, Heff.
  rewrite bind_unfold, lift_unfold, Hdet. rewrite bind_unfold, Hwr.
  rewrite bind_unfold. unfold perf_counter at 1. cbv beta iota.
  rewrite bind_unfold, Htf.
  destruct rb as [[fi td]|e]; [|reflexivity].
  match goal with
  | |- handles_kept _ (?m _).2 => assert (respects handles_kept m) as Hr
  end; [|apply Hr].
  respects_with ltac:(unfold handles_kept; cbn; tauto). }
unfold handles_kept in Hout. subst w3. cbn in Hout.
destruct Hout as [Oc Ow]. rewrite Oc, Ow. split.
- eexists. split; [apply list_lookup_insert_eq|reflexivity].
  eapply lookup_lt_Some; eauto.
- eexists. split; [apply list_lookup_insert_eq|reflexivity].
  eapply lookup_lt_Some; eauto.
Qed.

(** X17. A run of [process_video] that raises leaves no record behind:
  the objects are those it started with. *)
Lemma process_video_raise_keeps_objects P i o mp cf sz dev w e w' :
process_video P i o mp cf sz dev w = (Raise e, w') -> objects w' = objects w.
Proof.
unfold process_video. rewrite bind_unfold.
pose proof (open_video_capture_acquiring P i w) as (_ & O1 & _).
destruct (open_video_capture P i w) as [[[capture md]|e1] w1]; cbn in O1;
  [|intros H; inversion H; subst; exact O1].
rewrite bind_unfold, lift_unfold.
destruct (_adjust_imgsz_to_stride _ 32) as [eff|e2];
  [|intros H; inversion H; subst; exact O1].
rewrite bind_unfold, lift_unfold.
destruct (detector.__init__ _ _ _ _ _) as [det|e3];
  [|intros H; inversion H; subst; exact O1].
rewrite bind_unfold.
pose proof (create_video_writer_acquiring P o md w1) as (_ & O2 & _).
destruct (create_video_writer P o md w1) as [[writer|e4] w2]; cbn in O2;
  [|intros H; inversion H; subst; congruence].
rewrite bind_unfold. unfold perf_counter at 1. cbv beta iota.
rewrite bind_unfold.
pose proof (streaming_phase P capture det writer (with_clock S w2)) as (O3 & _).
destruct (try_finally _ _ (with_clock S w2)) as [[[fi td]|e5] w3]; cbn in O3;
  [|intros H; inversion H; subst; congruence].
rewrite bind_unfold. unfold perf_counter at 1. cbv beta iota.
rewrite bind_unfold, lift_unfold.
destruct (if fgt _ _ then _ else _) as [pfps|e6];
  [|intros H; inversion H; subst; cbn; congruence].
rewrite bind_unfold, lift_unfold.
destruct (if negb _ then _ else _) as [avg|e7];
  [|intros H; inversion H; subst; cbn; congruence].
intros H. inversion H.
Qed.

End release_properties.


(* ===================================================================== *)
(** * The properties at the sample collaborators *)
(* ===================================================================== *)

Section samples.
Import video_io main.



(** The record of that run: three frames, three detections, an average of
  one, and 480x640 as inference size. *)
Example sample_run_record :
exists m, objects sample.run.2 !! 0%nat = Some (Instance m) /\
  frames m = 3 /\ total_detections m = 3 /\
  avg_detections_per_frame m = f1 /\
  imgsz m = Some (ImgPair 480 640).
Proof. eexists. split; [vm_compute; reflexivity|]. repeat split. Qed.

(** Ten frames without a detection: ten frames written, a count of ten, no
  detections and an average of zero. *)
Example ten_quiet_frames :
let out :=
  process_video sample.pc_quiet ["assets"; "a.mp4"] ["outputs"; "a.mp4"]
    "yolov8n.pt" sample.threshold None "auto" sample.boot in
out.1 = Ok 0%nat /\
(exists m, objects out.2 !! 0%nat = Some (Instance m) /\
   frames m = 10 /\ total_detections m = 0 /\
   avg_detections_per_frame m = f0) /\
(exists wr, writers out.2 !! 0%nat = Some wr /\ length (wr_frames wr) = 10%nat).
Proof.
cbv zeta. split; [vm_compute; reflexivity|]. split.
- eexists. split; [vm_compute; reflexivity|]. repeat split.
- eexists. split; [vm_compute; reflexivity|]. reflexivity.
Qed.

(** The literals of the scale table are the doubles Python reads them as. *)
Example literals_as_doubles :
draw.f0_40 = S754_finite false 7205759403792794 (-54) /\
draw.f0_55 = S754_finite false 4953959590107546 (-53) /\
draw.f0_75 = S754_finite false 6755399441055744 (-53) /\
f60 = S754_finite false 8444249301319680 (-47) /\
f150 = S754_finite false 5277655813324800 (-45).
Proof. repeat split. Qed.

(** Suffixes as pathlib and [str.lower] give them: upper case is folded,
the Kelvin sign lowers to k, a leading or trailing dot starts no suffix,
and only the last suffix counts. *)
Example suffixes_lowered :
pystr.lower (suffix ["assets"; "Clip.MP4"]) = ".mp4" /\
pystr.lower
  (suffix ["assets";
           "clip.M" +:+ String "226" (String "132" (String "170" "V"))])
= ".mkv" /\
suffix ["assets"; ".mp4"] = "" /\
suffix ["assets"; "clip."] = "" /\
suffix ["assets"; "clip.mp4.txt"] = ".txt".
Proof. repeat split. Qed.

(** A model without a person class: the capture stays open. *)
Lemma process_video_leaks_capture_witness :
let failed :=
  process_video sample.pc_without_person ["assets"; "a.mp4"]
    ["outputs"; "a.mp4"] "plates.pt" sample.threshold None "auto" sample.boot in
failed.1 = Raise (Exn ValueError
                    "The loaded model does not contain a 'person' class.") /\
exists c, captures failed.2 !! 0%nat = Some c /\ cap_opened c = true.
Proof.
cbv zeta.
destruct (process_video_leaks_capture sample.pc_without_person
            ["assets"; "a.mp4"] ["outputs"; "a.mp4"] "plates.pt"
            sample.threshold None "auto" sample.boot 0%nat
            {| width := 640; height := 480; fps := literal 25 1;
               frame_count := 3 |}
            (open_video_capture sample.pc_without_person ["assets"; "a.mp4"]
               sample.boot).2
            (ImgPair 480 640)
            (Exn ValueError "The loaded model does not contain a 'person' class."))
  as [Hrun Hopen]; [vm_compute; reflexivity ..|].
rewrite Hrun. split; [reflexivity|exact Hopen].
Defined.

(** A writer that does not open: the run raises, the capture stays open. *)
Example writer_refused_capture_open :
let failed :=
  process_video sample.pc_without_codec ["assets"; "a.mp4"]
    ["outputs"; "a.mp4"] "yolov8n.pt" sample.threshold None "auto"
    sample.boot in
failed.1 = Raise (Exn ValueError
                    "Failed to create VideoWriter for: outputs/a.mp4") /\
cap_opened <$> captures failed.2 !! 0%nat = Some true /\
wr_opened <$> writers failed.2 !! 0%nat = Some false /\
objects failed.2 = [].
Proof. vm_compute. repeat split. Qed.

(** A directory without videos. *)
Lemma process_directory_empty_witness :
process_directory sample.pc_without_videos ["assets"] ["outputs"]
  "yolov8n.pt" sample.threshold None "auto" sample.boot
= (Raise (Exn FileNotFoundError
            "No videos with extensions ['.avi', '.mkv', '.mov', '.mp4'] found in assets"),
   sample.boot).
Proof.
apply (process_directory_empty sample.pc_without_videos ["assets"] ["outputs"]
         "yolov8n.pt" sample.threshold None "auto" sample.boot
         ["notes.txt"; ".mp4"]).
- reflexivity.
- intros child [<-|[<-|[]]]; vm_compute; reflexivity.
Defined.

(** The listing of assets on the sample machine: a.mp4 before b.MP4, and
  [process_directory] runs them in that order and returns their records. *)
Lemma list_videos_selection_witness :
exists videos,
  _list_videos sample.pc ["assets"] sample.boot = (Ok videos, sample.boot) /\
  videos = [["assets"; "a.mp4"]; ["assets"; "b.MP4"]] /\
  (forall p, In p videos <->
     (exists child, In child ["b.MP4"; "notes.txt"; "a.mp4"; ".mp4"; "old"]
                    /\ p = joinpath ["assets"] child) /\
     is_file sample.pc (str p) = true /\
     (pystr.lower (suffix p) = ".mp4" \/ pystr.lower (suffix p) = ".mov" \/
      pystr.lower (suffix p) = ".avi" \/ pystr.lower (suffix p) = ".mkv")) /\
  StronglySorted (fun p q => String.leb (name p) (name q) = true) videos /\
  exists ms w',
    runs_in_order
      (fun video_path =>
         process_video sample.pc video_path
           (joinpath ["outputs"] (name video_path))
           "yolov8n.pt" sample.threshold None "auto")
      videos (with_dirs (fun l => l ++ [["outputs"]]) sample.boot) ms w' /\
    process_directory sample.pc ["assets"] ["outputs"] "yolov8n.pt"
      sample.threshold None "auto" sample.boot = (Ok ms, w') /\
    ms = [0%nat; 1%nat].
Proof.
destruct (list_videos_selection sample.pc ["assets"] sample.boot
            ["b.MP4"; "notes.txt"; "a.mp4"; ".mp4"; "old"] eq_refl)
  as (videos & Hrun & Hin & Hsorted & _ & _ & Horder).
assert (Hvideos : videos = [["assets"; "a.mp4"]; ["assets"; "b.MP4"]])
  by (vm_compute in Hrun; now inversion Hrun).
exists videos. split; [exact Hrun|]. split; [exact Hvideos|].
split; [exact Hin|]. split; [exact Hsorted|].
assert (Hsome : videos <> []) by (rewrite Hvideos; discriminate).
destruct (Horder ["outputs"] "yolov8n.pt" sample.threshold None "auto" Hsome)
  as [(ms & w' & Hruns & Hdir)
     |(done & video & rest & ms & w1 & e & w2 & _ & _ & _ & Hdir)].
- exists ms, w'. split; [exact Hruns|]. split; [exact Hdir|].
  vm_compute in Hdir. now inversion Hdir.
- vm_compute in Hdir. discriminate Hdir.
Defined.

(** Annotating one frame with one detection. *)
Lemma draw_detections_copies_witness :
let out := draw.draw_detections sample.pc 0 [sample.detection] sample.with_frame in
out.1 = Ok 1%nat /\
arrays out.2 !! 0%nat = Some sample.frame /\
arrays out.2 !! 1%nat = Some [[[-1; 0; 0]; [255; 255; 255]]].
Proof.
cbv zeta.
destruct (draw_detections_copies sample.pc 0 [sample.detection]
            sample.with_frame (mk_is_Some _ _ eq_refl))
  as (_ & _ & Hframe & _ & Hret).
split; [apply Hret; repeat constructor|].
split; [exact Hframe|]. vm_compute. reflexivity.
Defined.

(** Exporting one record: 4/3 becomes 1.33, 2.675 becomes 2.67 and 0.125
  becomes 0.12, the record in memory keeps its values. *)
Lemma write_metrics_files_export_witness :
let out := write_metrics_files [0%nat] ["outputs"] sample.with_record in
out.1 = Ok tt /\
objects out.2 !! 0%nat = Some (Instance sample.record) /\
files out.2 !! "outputs/metrics.json"
= Some (JsonDoc
    [[("input_path", VStr "assets/a.mp4");
      ("output_path", VStr "outputs/a.mp4");
      ("frames", VInt 3);
      ("total_detections", VInt 4);
      ("avg_detections_per_frame", VFloat (literal 133 100));
      ("processing_fps", VFloat (literal 267 100));
      ("duration_seconds", VFloat (literal 12 100));
      ("model", VStr "yolov8n.pt");
      ("conf", VFloat (literal 25 100));
      ("imgsz", VTuple 480 640);
      ("device", VStr "cpu")]]) /\
files out.2 !! "outputs/metrics.csv"
= Some (CsvDoc
    ["input_path"; "output_path"; "frames"; "total_detections";
     "avg_detections_per_frame"; "processing_fps"; "duration_seconds";
     "model"; "conf"; "imgsz"; "device"]
    [[VStr "assets/a.mp4"; VStr "outputs/a.mp4"; VInt 3; VInt 4;
      VFloat (literal 133 100); VFloat (literal 267 100);
      VFloat (literal 12 100); VStr "yolov8n.pt"; VFloat (literal 25 100);
      VTuple 480 640; VStr "cpu"]]).
Proof.
cbv zeta.
destruct (write_metrics_files_export [0%nat] [sample.record] ["outputs"]
            sample.with_record)
  as (Hok & Hold & _ & Hjson & Hcsv & _).
{ repeat constructor. }
split; [exact Hok|]. split; [apply (Hold 0%nat); cbn; lia|].
split.
- etransitivity; [exact Hjson|]. vm_compute. reflexivity.
- etransitivity; [exact Hcsv|]. vm_compute. reflexivity.
Defined.

End samples.

(* ===================================================================== *)
(** ** main.py, detector.py: the device and the detector *)
(* ===================================================================== *)

Section device_and_detector.
Import main.

(** X1. [_normalize_device] hands back any device other than "auto" (in
  whatever case it is written) as it is; "auto" becomes "cuda:0" when
  CUDA is available, otherwise "mps" when the MPS backend exists and is
  available, otherwise "cpu".  What it returns is never "auto", and
  normalizing it again changes nothing. *)
Theorem normalize_device_resolves (P : platform) (device : string) :
let chosen := _normalize_device P device in
(pystr.lower device <> "auto" -> chosen = device) /\
(pystr.lower device = "auto" ->
   chosen = if cuda_is_available P then "cuda:0"
            else match mps_is_available P with
                 | Some true => "mps"
                 | _ => "cpu"
                 end) /\
pystr.lower chosen <> "auto" /\
_normalize_device P chosen = chosen.
Proof.
cbv zeta.
assert (Hfix : forall d, pystr.lower d <> "auto" -> _normalize_device P d = d).
{ intros d Hd. unfold _normalize_device.
  destruct (String.eqb_spec (pystr.lower d) "auto"); [contradiction|reflexivity]. }
assert (Hnot : pystr.lower (_normalize_device P device) <> "auto").
{ unfold _normalize_device.
  destruct (String.eqb_spec (pystr.lower device) "auto") as [E|E]; cbn [negb];
    [|exact E].
  destruct (cuda_is_available P); [discriminate|].
  destruct (mps_is_available P) as [[]|]; discriminate. }
split; [exact (Hfix device)|]. split; [|split; [exact Hnot|exact (Hfix _ Hnot)]].
intros E. unfold _normalize_device. rewrite E. reflexivity.
Qed.

Lemma resolve_first (names : list (Z * string)) :
match _resolve_person_class_id names with
| Ok class_id =>
    exists before name after,
      names = before ++ (class_id, name) :: after /\
      pystr.lower name = "person" /\
      Forall (fun entry => pystr.lower entry.2 <> "person") before
| Raise e =>
    e = Exn ValueError "The loaded model does not contain a 'person' class." /\
    Forall (fun entry => pystr.lower entry.2 <> "person") names
end.
Proof.
induction names as [|[id name] rest IH]; cbn [_resolve_person_class_id].
- split; [reflexivity|constructor].
- destruct (String.eqb_spec (pystr.lower name) "person") as [E|E].
  + exists [], name, rest. repeat split; [exact E|constructor].
  + destruct (_resolve_person_class_id rest) as [class_id|e].
    * destruct IH as (before & name' & after & -> & Hname & Hbefore).
      exists ((id, name) :: before), name', after.
      repeat split; [exact Hname|]. constructor; [exact E|exact Hbefore].
    * destruct IH as [-> Hall]. split; [reflexivity|].
      constructor; [exact E|exact Hall].
Qed.

(** X2. [_resolve_person_class_id] returns the id of the first class whose
  name, lowercased, is "person"; it raises [ValueError] exactly when the
  model has no such class. *)
Theorem resolve_person_class_id_first (names : list (Z * string)) :
match _resolve_person_class_id names with
| Ok class_id =>
    exists before name after,
      names = before ++ (class_id, name) :: after /\
      pystr.lower name = "person" /\
      Forall (fun entry => pystr.lower entry.2 <> "person") before
| Raise e =>
    e = Exn ValueError "The loaded model does not contain a 'person' class." /\
    Forall (fun entry => pystr.lower entry.2 <> "person") names
end.
Proof. exact (resolve_first names). Qed.

(** X3. [detect] asks the model for the person class only, with the
  threshold, size and device the detector holds.  When the model raises,
  so does [detect]; when it returns no result, or a first result without
  boxes, there are no detections; otherwise the detections are those of
  the first result alone: one per box that carries a class, a confidence
  and coordinates, in the order of the boxes, each labelled "person" with
  the confidence and the coordinates of its box. *)
Theorem detect_first_result (det : Detector) (frame : ndarray) :
match predict (det_model det) frame (asked det) with
| Throws msg => detect det frame = Raise (Exn External msg)
| Returns [] => detect det frame = Ok []
| Returns (first :: _) =>
    match boxes first with
    | None => detect det frame = Ok []
    | Some bs =>
        exists ds,
          detect det frame = Ok ds /\
          Forall (fun d => class_name d = "person") ds /\
          map (fun d => (Some (bbox d), Some (confidence d))) ds
          = map (fun b => (box_xyxy b, box_conf b))
                (List.filter complete_box bs)
    end
end.
Proof.
unfold detect. fold (asked det).
destruct (predict (det_model det) frame (asked det)) as [[|first rest]|msg];
  cbn; try reflexivity.
destruct (boxes first) as [bs|]; [|reflexivity].
exists (collect bs). split; [reflexivity|].
induction bs as [|[cls cf xyxy] bs [IH1 IH2]]; cbn [collect];
  [split; [constructor|reflexivity]|].
cbn [List.filter]. unfold complete_box at 1. cbn [box_cls box_conf box_xyxy].
destruct cls, cf, xyxy; try (split; [exact IH1|exact IH2]).
split; [constructor; [reflexivity|exact IH1]|].
cbn [map bbox confidence box_conf box_xyxy]. now rewrite IH2.
Qed.

(** X4. [Detector.__init__] fails with what loading the model raises, or
  with [ValueError] when the model loaded has no class named person.
  When it returns, the detector holds the model loaded from the path and,
  as person class, the id of a class of that model whose name is
  "person" in some case; the arguments it will hand to [predict] are the
  threshold and the device it was given, that class alone, and the size
  it was given when there was one. *)
Theorem detector_init_outcomes (P : platform) (model_path : string)
  (conf_threshold : float) (imgsz : option imgsz_t) (device : string) :
match detector.__init__ P model_path conf_threshold imgsz device with
| Ok det =>
    exists name,
      YOLO P model_path = Returns (det_model det) /\
      In (person_class_id det, name) (names (det_model det)) /\
      pystr.lower name = "person" /\
      asked det = {| kw_conf := conf_threshold;
                     kw_classes := [person_class_id det];
                     kw_verbose := false;
                     kw_imgsz := option_map imgsz_kwarg imgsz;
                     kw_device := device |}
| Raise e =>
    YOLO P model_path = Throws (exn_msg e) /\ exn_kind e = External \/
    exists model,
      YOLO P model_path = Returns model /\
      e = Exn ValueError "The loaded model does not contain a 'person' class." /\
      Forall (fun entry => pystr.lower entry.2 <> "person") (names model)
end.
Proof.
unfold detector.__init__.
destruct (YOLO P model_path) as [model|msg]; cbn; [|left; split; reflexivity].
pose proof (resolve_first (names model)) as Hres.
destruct (_resolve_person_class_id (names model)) as [class_id|e]; cbn.
- destruct Hres as (before & name & after & Hnames & Hname & _).
  exists name. repeat split; [|exact Hname].
  rewrite Hnames. apply in_or_app. right. now left.
- right. exists model. destruct Hres as [-> Hall]. auto.
Qed.

End device_and_detector.

(* ===================================================================== *)
(** ** draw.py: what is painted *)
(* ===================================================================== *)

Section draw_content.
Import draw.

Lemma with_arrays_insert_id a img w :
arrays w !! a = Some img -> with_arrays (fun l => <[a := img]> l) w = w.
Proof.
intros H. apply world_eq; try reflexivity. cbn. now apply list_insert_id.
Qed.

Lemma with_arrays_insert_insert a x y w :
with_arrays (fun l => <[a := x]> l) (with_arrays (fun l => <[a := y]> l) w)
= with_arrays (fun l => <[a := x]> l) w.
Proof. apply world_eq; try reflexivity. cbn. apply list_insert_insert_eq. Qed.

Lemma draw_label_eq P canvas x1 y1 text ts tk pad w img :
arrays w !! canvas = Some img ->
_draw_label P canvas x1 y1 text ts tk pad w
= (Ok tt,
   with_arrays
     (fun l => <[canvas := painted_label P img x1 y1 text ts tk pad]> l) w).
Proof.
intros Himg. unfold _draw_label, painted_label.
destruct (cv2_getTextSize _ _ _ _ _) as [[tw th] bl].
rewrite bind_unfold, rectangle_unfold, Himg, putText_unfold.
cbn [arrays with_arrays].
rewrite list_lookup_insert_eq by (eapply lookup_lt_Some; eauto).
now rewrite with_arrays_insert_insert.
Qed.

Lemma draw_one_eq P a d w img :
arrays w !! a = Some img ->
draw_one P a d w
= match painted_detection P img d with
  | Ok x => (Ok tt, with_arrays (fun l => <[a := x]> l) w)
  | Raise e => (Raise e, w)
  end.
Proof.
intros Himg. unfold draw_one, painted_detection.
rewrite bind_unfold, lift_unfold.
destruct (_as_int_tuple (bbox d)) as [[[[x1 y1] x2] y2]|e]; [|reflexivity].
cbn [mbind result_bind rbind mret result_ret].
rewrite bind_unfold, rectangle_unfold, Himg.
erewrite draw_label_eq
  by (cbn [arrays with_arrays]; apply list_lookup_insert_eq;
      eapply lookup_lt_Some; eauto).
now rewrite with_arrays_insert_insert.
Qed.

Lemma for_each_draw_eq P a ds : forall w img,
arrays w !! a = Some img ->
match annotate P img ds with
| Ok x =>
    for_each ds (draw_one P a) w
    = (Ok tt, with_arrays (fun l => <[a := x]> l) w)
| Raise e =>
    exists x, for_each ds (draw_one P a) w
              = (Raise e, with_arrays (fun l => <[a := x]> l) w)
end.
Proof.
induction ds as [|d ds IH]; intros w img Himg; cbn [annotate for_each].
- now rewrite ret_unfold, with_arrays_insert_id.
- rewrite bind_unfold, (draw_one_eq P a d w img Himg).
  destruct (painted_detection P img d) as [x|e];
    unfold mbind, result_bind; cbn [rbind].
  + specialize (IH (with_arrays (fun l => <[a := x]> l) w) x).
    cbn [arrays with_arrays] in IH.
    rewrite list_lookup_insert_eq in IH by (eapply lookup_lt_Some; eauto).
    specialize (IH eq_refl).
    destruct (annotate P x ds) as [y|e].
    * now rewrite IH, with_arrays_insert_insert.
    * destruct IH as [y IH]. exists y.
      now rewrite IH, with_arrays_insert_insert.
  + exists img. now rewrite with_arrays_insert_id.
Qed.

(** [draw_detections] on a frame holding [img]: the copy holds what
  [annotate] computes. *)
Lemma draw_detections_annotate P frame ds w img :
arrays w !! frame = Some img ->
match annotate P img ds with
| Ok x =>
    draw_detections P frame ds w
    = (Ok (length (arrays w)), with_arrays (fun l => l ++ [x]) w)
| Raise e =>
    exists x, draw_detections P frame ds w
              = (Raise e, with_arrays (fun l => l ++ [x]) w)
end.
Proof.
intros Himg.
assert (Hsnoc : forall x,
          with_arrays (fun l => <[length (arrays w) := x]> l)
            (with_arrays (fun l => l ++ [img]) w)
          = with_arrays (fun l => l ++ [x]) w).
{ intros x. apply world_eq; try reflexivity. cbn.
  replace (length (arrays w)) with (length (arrays w) + 0)%nat at 1 by lia.
  now rewrite insert_app_r. }
pose proof (for_each_draw_eq P (length (arrays w)) ds
              (with_arrays (fun l => l ++ [img]) w) img) as Hloop.
cbn [arrays with_arrays] in Hloop. specialize (Hloop (lookup_snoc _ _)).
unfold draw_detections, cv2.copy, get_array, new_array.
rewrite !bind_unfold, Himg. cbv beta iota. rewrite bind_unfold.
destruct (annotate P img ds) as [x|e].
- now rewrite Hloop, Hsnoc.
- destruct Hloop as [x Hloop]. exists x. now rewrite Hloop, Hsnoc.
Qed.

(** X28. What [draw_detections] paints depends on the content of the frame
  and on the detections alone.  Taking the detections in order, each one
  paints on the copy its box, with the thickness of its scale, then the
  filled background of its label, then the label, which is the class
  name, a space and the confidence with two decimals.  The copy comes
  back at a new address; if a box cannot be cast to integers, the call
  raises what the cast raises. *)
Theorem draw_detections_paints (P : platform) (frame : nat)
  (detections : list Detection) (w : world) (img : ndarray) :
arrays w !! frame = Some img ->
match annotate P img detections with
| Ok picture =>
    draw_detections P frame detections w
    = (Ok (length (arrays w)), with_arrays (fun l => l ++ [picture]) w)
| Raise e => (draw_detections P frame detections w).1 = Raise e
end.
Proof.
intros Himg.
pose proof (draw_detections_annotate P frame detections w img Himg) as H.
destruct (annotate P img detections) as [x|e]; [exact H|].
destruct H as [x H]. now rewrite H.
Qed.

Lemma as_int_tuple_raise (b : bbox_t) (e : exn) :
_as_int_tuple b = Raise e ->
bbox_finite b = false /\
(exn_kind e = ValueError \/ exn_kind e = OverflowError).
Proof.
destruct b as [[[x1 y1] x2] y2]. unfold _as_int_tuple.
destruct x1, y1, x2, y2; cbn; intros H; inversion H; subst; cbn; auto.
Qed.

Lemma annotate_outcome P ds : forall img,
match annotate P img ds with
| Ok _ => Forall (fun d => bbox_finite (bbox d) = true) ds
| Raise e =>
    exists before d after,
      ds = before ++ d :: after /\
      Forall (fun d => bbox_finite (bbox d) = true) before /\
      _as_int_tuple (bbox d) = Raise e
end.
Proof.
induction ds as [|d ds IH]; intros img; cbn [annotate]; [constructor|].
unfold painted_detection at 1.
destruct (_as_int_tuple (bbox d)) as [[[[x1 y1] x2] y2]|e] eqn:E; cbn.
- set (x := painted_label _ _ _ _ _ _ _ _). specialize (IH x).
  assert (Hd : bbox_finite (bbox d) = true).
  { destruct (bbox_finite (bbox d)) eqn:F; [reflexivity|].
    destruct (bbox d) as [[[c1 c2] c3] c4]. unfold _as_int_tuple in E.
    destruct c1, c2, c3, c4; cbn in E, F; discriminate. }
  destruct (annotate P x ds) as [y|e].
  + now constructor.
  + destruct IH as (before & d' & after & -> & Hb & Hd').
    exists (d :: before), d', after. repeat split; [now constructor|exact Hd'].
- exists [], d, ds. repeat split; [constructor|exact E].
Qed.

(** X5. On a live frame, [draw_detections] can return only when every box
  has finite coordinates: a box with a NaN or an infinite coordinate makes
  the call raise, and the input frame is then as it was.  When that box is
  the first of the list, the exception is the one [int] raises in
  [_as_int_tuple], a [ValueError] or an [OverflowError]. *)
Theorem draw_detections_outcomes (P : platform) (frame : nat)
  (detections : list Detection) (w : world) :
is_Some (arrays w !! frame) ->
let out := draw_detections P frame detections w in
((exists annotated, out.1 = Ok annotated) ->
   Forall (fun d => bbox_finite (bbox d) = true) detections) /\
(Exists (fun d => bbox_finite (bbox d) = false) detections ->
   (exists e, out.1 = Raise e) /\
   arrays out.2 !! frame = arrays w !! frame) /\
(forall d rest,
   detections = d :: rest -> bbox_finite (bbox d) = false ->
   exists e,
     _as_int_tuple (bbox d) = Raise e /\ out.1 = Raise e /\
     (exn_kind e = ValueError \/ exn_kind e = OverflowError)).
Proof.
intros [img Himg] out.
pose proof (draw_detections_annotate P frame detections w img Himg) as Hrun.
pose proof (annotate_outcome P detections img) as Hout.
fold out in Hrun.
destruct (annotate P img detections) as [x|e0].
- rewrite Hrun. cbn. split; [auto|]. split.
  + intros Hex. exfalso. apply Exists_exists in Hex as (d & Hd & Hnot).
    rewrite Forall_forall in Hout. rewrite (Hout d Hd) in Hnot. discriminate.
  + intros d rest -> Hnot. exfalso. inversion Hout; congruence.
- destruct Hrun as [x Hrun]. rewrite Hrun. cbn.
  destruct Hout as (before & d & after & Hds & Hbefore & Hd).
  destruct (as_int_tuple_raise _ _ Hd) as [Hnot Hkind].
  split; [intros [? ?]; discriminate|]. split.
  + intros _. split; [eauto|].
    apply lookup_app_l. eapply lookup_lt_Some; eauto.
  + intros d0 rest Hds0 Hnot0. rewrite Hds0 in Hds.
    destruct before as [|b before]; cbn in Hds; inversion Hds; subst.
    * exists e0. auto.
    * inversion Hbefore; congruence.
Qed.

(** X6. On a live canvas, [_draw_label] paints a filled rectangle that
  starts at the x of the box and is as wide as the text plus twice the
  padding and as high as the text, its baseline and twice the padding,
  and then the text inside it.  The rectangle sits directly on top of the
  box when there is that much room above the box, and at the top edge of
  the frame otherwise: its top is never negative. *)
Theorem draw_label_placement (P : platform) (canvas : nat) (x1 y1 : Z)
  (text : string) (text_scale : float) (text_thickness padding : Z)
  (w : world) (img : ndarray) (tw th bl : Z) :
arrays w !! canvas = Some img ->
cv2_getTextSize P text FONT text_scale text_thickness = ((tw, th), bl) ->
exists y_top,
  _draw_label P canvas x1 y1 text text_scale text_thickness padding w
  = (Ok tt,
     with_arrays
       (fun l =>
          <[canvas :=
              cv2_putText P
                (cv2_rectangle P img (x1, y_top)
                   (x1 + tw + 2 * padding, y_top + th + bl + 2 * padding)
                   BOX_COLOR cv2.FILLED cv2.LINE_AA)
                text
                (x1 + padding,
                 y_top + th + bl + 2 * padding - padding - bl / 2)
                FONT text_scale TEXT_COLOR text_thickness cv2.LINE_AA]> l) w) /\
  0 <= y_top /\
  (th + bl + 2 * padding <= y1 -> y_top + th + bl + 2 * padding = y1) /\
  (y1 <= th + bl + 2 * padding -> y_top = 0).
Proof.
intros Himg Hsize.
exists (Z.max (y1 - th - bl - 2 * padding) 0).
split; [|lia].
rewrite (draw_label_eq _ _ _ _ _ _ _ _ _ _ Himg). unfold painted_label.
rewrite Hsize. reflexivity.
Qed.

Lemma annotate_app P ds1 ds2 : forall img,
annotate P img (ds1 ++ ds2) = (x ← annotate P img ds1; annotate P x ds2).
Proof.
induction ds1 as [|d ds1 IH]; intros img; cbn [app annotate]; [reflexivity|].
destruct (painted_detection P img d) as [x|e]; [|reflexivity].
unfold mbind at 1 3, result_bind at 1 3. cbn [rbind]. apply IH.
Qed.

(** X7. With no detection, [draw_detections] returns a copy that holds what
  the frame holds.  Drawing a list of detections on a frame gives the same
  picture as drawing a first part of the list and then the rest on the
  frame that was returned: detections are painted one after the other, in
  the order of the list. *)
Theorem draw_detections_in_batches (P : platform) (frame : nat) (w : world)
  (img : ndarray) :
arrays w !! frame = Some img ->
draw_detections P frame [] w
= (Ok (length (arrays w)), with_arrays (fun l => l ++ [img]) w) /\
forall ds1 ds2 a1 w1 a2 w2,
  draw_detections P frame ds1 w = (Ok a1, w1) ->
  draw_detections P a1 ds2 w1 = (Ok a2, w2) ->
  exists w12,
    draw_detections P frame (ds1 ++ ds2) w = (Ok a1, w12) /\
    arrays w12 !! a1 = arrays w2 !! a2.
Proof.
intros Himg. split; [exact (draw_detections_annotate P frame [] w img Himg)|].
intros ds1 ds2 a1 w1 a2 w2 H1 H2.
pose proof (draw_detections_annotate P frame ds1 w img Himg) as D1.
pose proof (draw_detections_annotate P frame (ds1 ++ ds2) w img Himg) as D12.
rewrite annotate_app in D12.
destruct (annotate P img ds1) as [x1|e];
  [|destruct D1 as [? D1]; rewrite D1 in H1; discriminate].
rewrite D1 in H1. inversion H1; subst a1 w1. clear H1.
assert (Hx1 : arrays (with_arrays (fun l => l ++ [x1]) w) !! length (arrays w)
              = Some x1) by (cbn; apply lookup_snoc).
pose proof (draw_detections_annotate P _ ds2 _ x1 Hx1) as D2.
unfold mbind, result_bind in D12. cbn [rbind] in D12.
destruct (annotate P x1 ds2) as [x2|e];
  [|destruct D2 as [? D2]; rewrite D2 in H2; discriminate].
rewrite D2 in H2. inversion H2; subst a2 w2. clear H2.
eexists. split; [exact D12|]. cbn. now rewrite !lookup_snoc.
Qed.

Lemma below_1_below_60 (x : float) : flt x f1 = true -> flt x f60 = true.
Proof.
destruct x as [s|s| |s m e];
  [ destruct s; vm_compute; congruence
  | destruct s; vm_compute; congruence
  | vm_compute; congruence
  | ].
unfold flt, SFltb, f1, f60, SFcompare.
destruct s; [reflexivity|].
destruct (Z.compare_spec e (-52)), (Z.compare_spec e (-47)); try lia; congruence.
Qed.

(** X8. A box whose width or whose height is not greater than 1, because
  it is empty, because its corners are swapped, or because the
  difference is a NaN, has that side clamped to 1 and gets the small
  scale. *)
Theorem scales_for_degenerate_bbox (x1 y1 x2 y2 : float) :
flt f1 (fsub x2 x1) = false \/ flt f1 (fsub y2 y1) = false ->
_scales_for_bbox (x1, y1, x2, y2) = scale_small.
Proof.
intros H. unfold _scales_for_bbox, box_width, box_height, max2, min2, fgt.
fold (flt f1 (fsub x2 x1)) (flt f1 (fsub y2 y1)).
assert (H1 : flt f1 f60 = true) by reflexivity.
assert (H2 : flt f1 f1 = false) by reflexivity.
destruct (flt f1 (fsub x2 x1)) eqn:Ex, (flt f1 (fsub y2 y1)) eqn:Ey;
  try (destruct H; discriminate).
- rewrite Ex. now rewrite H1.
- destruct (flt (fsub y2 y1) f1) eqn:E.
  + now rewrite (below_1_below_60 _ E).
  + now rewrite H1.
- rewrite H2. now rewrite H1.
Qed.

End draw_content.

(* ===================================================================== *)
(** ** video_io.py: the writer *)
(* ===================================================================== *)

Section writer_properties.
Import video_io.

Lemma open_video_capture_inv P i w capture md w1 :
open_video_capture P i w = (Ok (capture, md), w1) ->
exists vs,
  path_exists P (str i) = true /\ decode P (str i) = Some vs /\
  capture = length (captures w) /\
  w1 = with_captures (fun l => l ++ [opened_capture vs]) w /\
  int_of_float (vs_width vs) = Ok (width md) /\
  int_of_float (vs_height vs) = Ok (height md) /\
  int_of_float (vs_frame_count vs) = Ok (frame_count md) /\
  fps md = (if is_zero (vs_fps vs) then f0 else vs_fps vs) /\
  0 < width md /\ 0 < height md.
Proof.
rewrite open_video_capture_eq.
destruct (path_exists P (str i)); [|discriminate]. cbn [negb].
destruct (decode P (str i)) as [vs|]; [|discriminate]. cbv zeta.
destruct (int_of_float (vs_width vs)) as [wd|e] eqn:Ew; [|discriminate].
destruct (int_of_float (vs_height vs)) as [ht|e] eqn:Eh; [|discriminate].
destruct (int_of_float (vs_frame_count vs)) as [fc|e] eqn:Ec; [|discriminate].
destruct ((wd <=? 0) || (ht <=? 0)) eqn:E; [discriminate|].
apply orb_false_iff in E as [E1 E2].
intros H; inversion H; subst. exists vs. cbn.
repeat split; try assumption; lia.
Qed.

Lemma create_video_writer_inv P o md w writer w2 :
create_video_writer P o md w = (Ok writer, w2) ->
writer = length (writers w) /\
w2 = with_writers (fun l => l ++ [sink o md])
       (with_dirs (fun l => l ++ [parent o]) w).
Proof.
rewrite create_video_writer_eq. cbv zeta.
destruct (writer_accepts _ _ _ _ _); [|discriminate].
intros H; inversion H. split; reflexivity.
Qed.

(** X9. [create_video_writer] makes the parent directory of the output and
  then exactly one writer, for the output path, with the codec mp4v, the
  (width, height) of the metadata and no frame; the rate it asks for is
  the rate of the metadata when that is positive and 30 otherwise (zero,
  negative or NaN), so it is always positive.  It returns the writer when
  it opened, and raises [ValueError] when it did not, leaving directory
  and closed writer behind; nothing else changes. *)
Theorem create_video_writer_outcomes (P : platform) (output_path : Path)
  (metadata : VideoMetadata) (w : world) :
let out := create_video_writer P output_path metadata w in
exists wr,
  out.2 = with_writers (fun l => l ++ [wr])
            (with_dirs (fun l => l ++ [parent output_path]) w) /\
  wr_path wr = str output_path /\
  wr_fourcc wr = cv2.VideoWriter_fourcc "m" "p" "4" "v" /\
  wr_size wr = (width metadata, height metadata) /\
  wr_frames wr = [] /\
  wr_fps wr = (if fgt (fps metadata) f0 then fps metadata else f30) /\
  fgt (wr_fps wr) f0 = true /\
  wr_opened wr
  = writer_accepts P (str output_path) (wr_fourcc wr) (wr_fps wr) (wr_size wr) /\
  out.1 = if wr_opened wr then Ok (length (writers w))
          else Raise (Exn ValueError
                        ("Failed to create VideoWriter for: "
                         +:+ str output_path)).
Proof.
cbv zeta. rewrite create_video_writer_eq. cbv zeta.
set (rate := if fgt (fps metadata) f0 then fps metadata else f30).
set (fourcc := cv2.VideoWriter_fourcc "m" "p" "4" "v").
exists {| wr_opened := writer_accepts P (str output_path) fourcc rate (size metadata);
          wr_path := str output_path; wr_fourcc := fourcc; wr_fps := rate;
          wr_size := size metadata; wr_frames := [] |}.
cbn [wr_opened wr_path wr_fourcc wr_fps wr_size wr_frames].
assert (Hrate : fgt rate f0 = true).
{ subst rate. destruct (fgt (fps metadata) f0) eqn:E; [exact E|reflexivity]. }
destruct (writer_accepts P (str output_path) fourcc rate (size metadata));
  repeat split; assumption.
Qed.

(** X10. When [open_video_capture] returns, it has added one capture to the
  world and changed nothing else; the capture is the one it returns, open
  on the container at the path with all its reads pending.  The metadata
  carry the frame count the container reports, read with [int] and not
  checked, and the rate it reports, with a zero of either sign read as
  0.0. *)
Theorem open_video_capture_metadata (P : platform) (path : Path) (w : world)
  (capture : nat) (md : VideoMetadata) (w' : world) :
open_video_capture P path w = (Ok (capture, md), w') ->
exists vs,
  path_exists P (str path) = true /\ decode P (str path) = Some vs /\
  capture = length (captures w) /\
  w' = with_captures
         (fun l => l ++ [{| cap_opened := true; cap_stream := Some vs;
                            cap_pending := vs_reads vs |}]) w /\
  int_of_float (vs_frame_count vs) = Ok (frame_count md) /\
  fps md = (if is_zero (vs_fps vs) then f0 else vs_fps vs).
Proof.
intros H.
destruct (open_video_capture_inv _ _ _ _ _ _ H)
  as (vs & H1 & H2 & H3 & H4 & _ & _ & H5 & H6 & _).
exists vs. repeat split; assumption.
Qed.

End writer_properties.

(* ===================================================================== *)
(** ** main.py: what the streaming loop computes *)
(* ===================================================================== *)

Section stream_content.
Import draw video_io main.

Lemma reading_id c : cap_opened c = true -> reading c (cap_pending c) = c.
Proof. destruct c; cbn; now intros ->. Qed.

Lemma written_to_nil wr : wr_opened wr = true -> written_to wr [] = wr.
Proof. destruct wr; unfold written_to; cbn; intros ->; now rewrite app_nil_r. Qed.

(** The loop of [process_video] is [stream_outcome] over the reads the
  capture holds. *)
Lemma stream_frames_outcome P capture det writer fuel :
forall w fi td c wr written pending r,
  captures w !! capture = Some c -> cap_opened c = true ->
  (length (cap_pending c) < fuel)%nat ->
  writers w !! writer = Some wr -> wr_opened wr = true ->
  stream_outcome P det (cap_pending c) fi td = (written, pending, r) ->
  let out := stream_frames fuel P capture det writer fi td w in
  out.1 = r /\
  captures out.2 = <[capture := reading c pending]> (captures w) /\
  writers out.2 = <[writer := written_to wr written]> (writers w).
Proof.
induction fuel as [|fuel IH];
  intros w fi td c wr written pending r Hc Hop Hfuel Hw Hwo Hout out; [lia|].
subst out.
destruct (stream_frames (S fuel) P capture det writer fi td w) as [r0 w0] eqn:Hrun.
cbn [fst snd]. cbn [stream_frames] in Hrun.
rewrite bind_unfold, read_unfold, Hc, Hop in Hrun.
assert (Hstop : forall e : result (Z * Z),
          (e, with_captures (fun l => <[capture := reading c pending]> l) w)
          = (r0, w0) ->
          r0 = e /\
          captures w0 = <[capture := reading c pending]> (captures w) /\
          writers w0 = <[writer := written_to wr []]> (writers w)).
{ intros e H. inversion H; subst. cbn. rewrite written_to_nil by assumption.
  now rewrite (list_insert_id (writers w)) by assumption. }
destruct (cap_pending c) as [|ev rest] eqn:Hp.
- cbn in Hout. inversion Hout; subst. apply Hstop. rewrite <- Hrun. cbn.
  f_equal. symmetry. apply world_eq; try reflexivity. cbn.
  rewrite <- Hp, reading_id by assumption. symmetry. now apply list_insert_id.
- cbv zeta in Hrun. fold (reading c rest) in Hrun.
  destruct ev as [img|msg].
  2:{ cbn in Hout. inversion Hout; subst. apply Hstop. exact Hrun. }
  set (w1 := with_arrays (fun l => l ++ [img])
               (with_captures (fun l => <[capture := reading c rest]> l) w))
    in Hrun.
  cbv beta iota in Hrun.
  assert (Hframe : arrays w1 !! length (arrays w) = Some img)
    by (subst w1; cbn; apply lookup_snoc).
  assert (Hstop1 : forall (e : result (Z * Z)) x,
            pending = rest ->
            (e, with_arrays (fun l => l ++ x) w1) = (r0, w0) ->
            r0 = e /\
            captures w0 = <[capture := reading c pending]> (captures w) /\
            writers w0 = <[writer := written_to wr []]> (writers w)).
  { intros e x -> H. inversion H; subst. cbn. rewrite written_to_nil by assumption.
    now rewrite (list_insert_id (writers w)) by assumption. }
  clear Hstop.
  rewrite bind_unfold in Hrun. unfold get_array at 1 in Hrun.
  rewrite Hframe, bind_unfold, lift_unfold in Hrun.
  cbn [stream_outcome] in Hout. unfold turn in Hout.
  destruct (detect det img) as [dets|e].
  2:{ cbn in Hout. inversion Hout; subst. apply (Hstop1 _ []); [reflexivity|].
      rewrite <- Hrun. f_equal. apply world_eq; try reflexivity. cbn.
      now rewrite app_nil_r. }
  unfold mbind at 1, result_bind at 1 in Hout. cbn [rbind] in Hout.
  rewrite bind_unfold in Hrun.
  pose proof (draw_detections_annotate P (length (arrays w)) dets w1 img Hframe)
    as Hdraw.
  destruct (annotate P img dets) as [x|e].
  2:{ destruct Hdraw as [x Hdraw]. rewrite Hdraw in Hrun.
      cbn in Hout. inversion Hout; subst. now apply (Hstop1 _ [x]). }
  clear Hstop1.
  rewrite Hdraw in Hrun.
  unfold mbind, result_bind in Hout. cbn [rbind mret result_ret] in Hout.
  destruct (stream_outcome P det rest (fi + 1) (td + Z.of_nat (length dets)))
    as [[written' pending'] r'] eqn:Hrest.
  inversion Hout; subst written pending r. clear Hout.
  rewrite bind_unfold, write_unfold in Hrun.
  cbn [arrays writers with_arrays with_captures] in Hrun.
  rewrite lookup_snoc in Hrun. subst w1.
  cbn [arrays writers with_arrays with_captures] in Hrun.
  rewrite Hw, Hwo in Hrun. fold (written_to wr [x]) in Hrun.
  match type of Hrun with
  | stream_frames fuel P capture det writer ?a ?b ?x0 = _ =>
      specialize (IH x0 a b (reading c rest) (written_to wr [x])
                    written' pending' r')
  end.
  rewrite Hrun in IH. cbn [fst snd] in IH.
  destruct IH as (H1 & H2 & H3).
  + cbn. apply list_lookup_insert_eq. eapply lookup_lt_Some; eauto.
  + reflexivity.
  + cbn in *. lia.
  + cbn. apply list_lookup_insert_eq. eapply lookup_lt_Some; eauto.
  + reflexivity.
  + exact Hrest.
  + split; [exact H1|]. rewrite H2, H3. cbn.
    rewrite !list_insert_insert_eq. split; [reflexivity|].
    unfold written_to. cbn. now rewrite <- app_assoc.
Qed.

(** The [try ... finally] of [process_video] on an open capture and an open
  writer. *)
Lemma streaming_phase_outcome P capture det writer w c wr written pending r :
captures w !! capture = Some c -> cap_opened c = true ->
writers w !! writer = Some wr -> wr_opened wr = true ->
stream_outcome P det (cap_pending c) 0 0 = (written, pending, r) ->
exists w',
  try_finally
    (c ← get_capture capture;
     stream_frames (S (length (cap_pending c))) P capture det writer 0 0)
    (_ ← cv2.release capture; cv2.writer_release writer) w
  = (r, w') /\
  captures w' = <[capture := closed_capture c]> (captures w) /\
  writers w' = <[writer := closed_writer (written_to wr written)]> (writers w) /\
  streaming w w'.
Proof.
intros Hc Hop Hw Hwo Hout.
pose proof (streaming_phase P capture det writer w) as Hstr.
pose proof (stream_frames_outcome P capture det writer
              (S (length (cap_pending c))) w 0 0 c wr written pending r
              Hc Hop ltac:(lia) Hw Hwo Hout) as Hloop.
cbv zeta in Hloop.
unfold try_finally in *. rewrite bind_unfold in *. unfold get_capture in *.
rewrite Hc in *.
destruct (stream_frames (S (length (cap_pending c))) P capture det writer 0 0 w)
  as [r0 wb]. cbn [fst snd] in Hloop. destruct Hloop as (-> & Hcaps & Hwrs).
assert (Hc' : captures wb !! capture = Some (reading c pending))
  by (rewrite Hcaps; apply list_lookup_insert_eq; eapply lookup_lt_Some; eauto).
assert (Hw' : writers wb !! writer = Some (written_to wr written))
  by (rewrite Hwrs; apply list_lookup_insert_eq; eapply lookup_lt_Some; eauto).
rewrite (closing_eq _ _ _ _ _ Hc' Hw') in *.
eexists. split; [reflexivity|]. cbn [captures writers with_captures with_writers].
rewrite Hcaps, Hwrs, !list_insert_insert_eq. repeat split; try reflexivity.
all: apply Hstr.
Qed.

Lemma insert_last {X} (l : list X) (x y : X) :
<[length l := y]> (l ++ [x]) = l ++ [y].
Proof.
replace (length l) with (length l + 0)%nat at 1 by lia.
now rewrite insert_app_r.
Qed.

(** A loop that returns has been through every read of the capture, and
  each was a frame. *)
Lemma stream_outcome_ok P det evs :
forall fi td written pending fi' td',
  stream_outcome P det evs fi td = (written, pending, Ok (fi', td')) ->
  pending = [] /\
  exists steps : list (ndarray * (list Detection * ndarray)),
    evs = map (fun s => Frame s.1) steps /\
    Forall (fun s => turn P det s.1 = Ok s.2) steps /\
    written = map (fun s => s.2.2) steps /\
    fi' = fi + Z.of_nat (length steps) /\
    td' = td + Z.of_nat (length (concat (map (fun s => s.2.1) steps))).
Proof.
induction evs as [|ev evs IH]; intros fi td written pending fi' td' H.
- cbn in H. inversion H; subst. split; [reflexivity|].
  exists []. cbn. repeat split; try constructor; lia.
- destruct ev as [img|msg]; cbn [stream_outcome] in H; [|discriminate].
  destruct (turn P det img) as [[ds out]|e] eqn:Hturn; [|discriminate].
  destruct (stream_outcome P det evs (fi + 1) (td + Z.of_nat (length ds)))
    as [[written' pending'] r'] eqn:Hrest.
  inversion H; subst written pending r'. clear H.
  destruct (IH _ _ _ _ _ _ Hrest) as (-> & steps & -> & Hsteps & -> & -> & ->).
  split; [reflexivity|].
  exists ((img, (ds, out)) :: steps). cbn [map fst snd length concat].
  repeat split; [now constructor|lia|rewrite length_app; lia].
Qed.

(** What a run of [process_video] that returns has done. *)
Lemma process_video_returned P i o mp cf sz dev w a w' :
process_video P i o mp cf sz dev w = (Ok a, w') ->
exists vs md eff det written fi td pfps avg,
  open_video_capture P i w
  = (Ok (length (captures w), md),
     with_captures (fun l => l ++ [opened_capture vs]) w) /\
  _adjust_imgsz_to_stride
    (match sz with
     | None => ImgPair (height md) (width md)
     | Some requested => requested
     end) 32 = Ok eff /\
  detector.__init__ P mp cf (Some eff) (_normalize_device P dev) = Ok det /\
  stream_outcome P det (vs_reads vs) 0 0 = (written, [], Ok (fi, td)) /\
  a = length (objects w) /\
  captures w' = captures w ++ [closed_capture (opened_capture vs)] /\
  writers w' = writers w ++ [output o md written] /\
  objects w'
  = objects w
    ++ [Instance (metrics_of P i o mp cf dev eff fi td
                    (perf_counter_at P (clock w))
                    (perf_counter_at P (S (clock w))) pfps avg)] /\
  dirs w' = dirs w ++ [parent o] /\ files w' = files w /\
  clock w' = S (S (clock w)) /\
  (length (arrays w) <= length (arrays w'))%nat /\
  (let duration :=
     fsub (perf_counter_at P (S (clock w))) (perf_counter_at P (clock w)) in
   if fgt duration f0 then int_div_float fi duration else Ok f0) = Ok pfps /\
  (if negb (fi =? 0) then int_truediv td fi else Ok f0) = Ok avg.
Proof.
intros H.
destruct (process_video_ok _ _ _ _ _ _ _ _ _ _ H)
  as (capture & md & w1 & eff & det & writer & w2 & fi & td & w3 & pfps & avg
      & Hopen & Heff & Hdet & Hwr & Hloop & Hfps & Havg & -> & ->).
destruct (open_video_capture_inv _ _ _ _ _ _ Hopen)
  as (vs & _ & _ & -> & -> & _).
destruct (create_video_writer_inv _ _ _ _ _ _ Hwr) as [-> ->].
cbn [writers with_captures] in Hloop.
destruct (stream_outcome P det (vs_reads vs) 0 0) as [[written pending] r] eqn:Hout.
match type of Hloop with
| try_finally _ _ ?w0 = _ =>
    destruct (streaming_phase_outcome P (length (captures w)) det
                (length (writers w)) w0 (opened_capture vs) (sink o md)
                written pending r)
      as (w3' & Hphase & Hcaps & Hwrs & Hstr)
end; try reflexivity.
{ cbn. apply lookup_snoc. }
{ cbn. apply lookup_snoc. }
{ exact Hout. }
cbn [cap_pending opened_capture] in Hloop.
rewrite Hphase in Hloop. inversion Hloop; subst r w3'. clear Hloop.
destruct (stream_outcome_ok _ _ _ _ _ _ _ _ _ Hout) as (-> & _).
destruct Hstr as (Hobj & Hdirs & Hfiles & Hclock & _ & _ & Harr).
cbn in Hcaps, Hwrs, Hobj, Hdirs, Hfiles, Hclock, Harr.
rewrite insert_last in Hcaps. rewrite insert_last in Hwrs.
exists vs, md, eff, det, written, fi, td, pfps, avg.
cbn in Hfps. rewrite Hclock in Hfps.
cbn. rewrite Hclock, Hobj.
repeat split; assumption.
Qed.

End stream_content.

(* ===================================================================== *)
(** ** main.py: what a run of [process_video] leaves behind *)
(* ===================================================================== *)

(** Signs of quotients. *)
Section float_signs.

Lemma shr_1_nonneg (mrs : shr_record) : 0 <= shr_m mrs -> 0 <= shr_m (shr_1 mrs).
Proof.
destruct mrs as [m r s]. cbn. destruct m as [|[p|p|]|[p|p|]]; cbn; lia.
Qed.

Lemma iter_shr_1_nonneg (p : positive) :
forall mrs, 0 <= shr_m mrs -> 0 <= shr_m (SpecFloat.iter_pos shr_1 p mrs).
Proof.
induction p as [p IH|p IH|]; intros mrs H; cbn.
- apply IH, IH, shr_1_nonneg, H.
- apply IH, IH, H.
- now apply shr_1_nonneg.
Qed.

Lemma shr_fexp_nonneg (m e : Z) (l : location) :
0 <= m -> 0 <= shr_m (shr_fexp prec emax m e l).1.
Proof.
intros H. unfold shr_fexp, shr.
assert (H0 : 0 <= shr_m (shr_record_of_loc m l))
  by (destruct l as [|[]]; exact H).
destruct (fexp prec emax (Zdigits2 m + e) - e) as [|p|p]; cbn [fst];
  [exact H0| |exact H0].
now apply iter_shr_1_nonneg.
Qed.

Lemma binary_round_aux_nonneg (m e : Z) (l : location) :
0 <= m -> fle f0 (binary_round_aux prec emax false m e l) = true.
Proof.
intros H. unfold binary_round_aux.
pose proof (shr_fexp_nonneg m e l H) as H1.
destruct (shr_fexp prec emax m e l) as [mrs' e']. cbn [fst] in H1.
assert (H2 : 0 <= round_nearest_even (shr_m mrs') (loc_of_shr_record mrs')).
{ unfold round_nearest_even.
  destruct (loc_of_shr_record mrs') as [|[]]; try lia.
  destruct (Z.even (shr_m mrs')); lia. }
pose proof (shr_fexp_nonneg _ e' loc_Exact H2) as H3.
destruct (shr_fexp prec emax _ e' loc_Exact) as [mrs'' e'']. cbn [fst] in H3.
destruct (shr_m mrs'') as [|p|p]; [reflexivity| |lia].
destruct (e'' <=? emax - prec); reflexivity.
Qed.

(** The quotient of a float that is not negative by a positive one is not
  negative, and neither is a non-negative integer read as a float. *)
Lemma fdiv_nonneg (x y : float) :
is_finite x = true -> fle f0 x = true -> fgt y f0 = true ->
fle f0 (fdiv x y) = true.
Proof.
intros Hfin Hx Hy. unfold fdiv, SFdiv.
assert (Hy' : exists my ey, y = S754_finite false my ey \/ y = S754_infinity false).
{ destruct y as [sy|sy| |sy my ey]; try discriminate.
  - destruct sy; [discriminate|]. exists 1%positive, 0. now right.
  - destruct sy; [discriminate|]. exists my, ey. now left. }
destruct Hy' as (my & ey & [-> | ->]).
- destruct x as [sx|sx| |sx mx ex]; try discriminate.
  + destruct sx; reflexivity.
  + destruct sx; [discriminate|]. cbn [xorb].
    destruct (SFdiv_core_binary prec emax (Z.pos mx) ex (Z.pos my) ey)
      as [[mz ez] lz] eqn:E.
    apply binary_round_aux_nonneg.
    unfold SFdiv_core_binary in E. cbv zeta in E.
    match type of E with
    | (let '(q, r) := Z.div_eucl ?a ?b in _) = _ =>
        pose proof (Z.div_eucl_eq a b ltac:(lia)) as D;
        pose proof (Z.mod_pos_bound a b ltac:(lia)) as B;
        unfold Z.modulo in B;
        assert (Ha : 0 <= a);
        [|destruct (Z.div_eucl a b) as [q r]; inversion E; subst; nia]
    end.
    destruct (ex - ey - _) as [|p|p]; try lia. apply Z.shiftl_nonneg. lia.
- destruct x as [sx|sx| |sx mx ex]; try discriminate.
  + destruct sx; reflexivity.
  + destruct sx; [discriminate|]. reflexivity.
Qed.

Lemma float_of_int_nonneg (n : Z) (x : float) :
0 <= n -> float_of_int n = Ok x -> is_finite x = true /\ fle f0 x = true.
Proof.
intros Hn. unfold float_of_int, binary_normalize.
destruct n as [|p|p]; [| |lia].
- intros H; inversion H. split; reflexivity.
- set (r := binary_round prec emax false p 0).
  assert (Hr : fle f0 r = true).
  { subst r. unfold binary_round.
    destruct (shl_align p 0 _) as [mz ez]. now apply binary_round_aux_nonneg. }
  destruct r as [s|s| |s m e]; cbn [is_inf]; try discriminate;
    intros H; inversion H; subst; split; try reflexivity; exact Hr.
Qed.

Lemma exact_int_nonneg (n : Z) :
0 <= n -> is_finite (exact_int n) = true /\ fle f0 (exact_int n) = true.
Proof. destruct n; try lia; intros _; split; reflexivity. Qed.

Lemma exact_int_positive (n : Z) : 0 < n -> fgt (exact_int n) f0 = true.
Proof. destruct n; try lia; reflexivity. Qed.


End float_signs.

Section process_video_results.
Import draw video_io main.

Lemma zero_not_positive (x : float) : is_zero x = true -> fgt x f0 = false.
Proof. destruct x as [[]| | |]; try discriminate; reflexivity. Qed.

Lemma turn_ok P det img ds out :
turn P det img = Ok (ds, out) ->
detect det img = Ok ds /\ annotate P img ds = Ok out.
Proof.
unfold turn. destruct (detect det img) as [ds'|e]; [|discriminate].
unfold mbind, result_bind. cbn [rbind].
destruct (annotate P img ds') as [out'|e] eqn:E; [|discriminate].
cbn. intros H; inversion H; subst. split; [reflexivity|exact E].
Qed.

(** X11. A run of [process_video] that returns has read every frame the
  source delivers, and every read was a frame.  For each frame, in
  order, it has handed the writer the frame as [draw_detections] paints
  it with the detections [detect] finds in it; the record counts these
  frames as [frames] and all the detections found as
  [total_detections]. *)
Theorem process_video_output P i o mp cf sz dev w a w' :
process_video P i o mp cf sz dev w = (Ok a, w') ->
exists vs m wr eff det (steps : list (ndarray * (list Detection * ndarray))),
  decode P (str i) = Some vs /\
  objects w' !! a = Some (Instance m) /\
  writers w' !! length (writers w) = Some wr /\
  imgsz m = Some eff /\
  detector.__init__ P mp cf (Some eff) (device m) = Ok det /\
  vs_reads vs = map (fun s => Frame s.1) steps /\
  Forall (fun s => detect det s.1 = Ok s.2.1 /\
                   annotate P s.1 s.2.1 = Ok s.2.2) steps /\
  wr_frames wr = map (fun s => s.2.2) steps /\
  frames m = Z.of_nat (length steps) /\
  total_detections m
  = Z.of_nat (length (concat (map (fun s => s.2.1) steps))).
Proof.
intros H.
destruct (process_video_returned _ _ _ _ _ _ _ _ _ _ H)
  as (vs & md & eff & det & written & fi & td & pfps & avg
      & Hopen & Heff & Hdet & Hout & -> & Hcaps & Hwrs & Hobj & _).
destruct (open_video_capture_inv _ _ _ _ _ _ Hopen) as (vs' & _ & Hdec & _ & Hw1 & _).
assert (vs' = vs) as ->.
{ apply (f_equal captures) in Hw1. cbn in Hw1.
  apply app_inj_tail in Hw1 as [_ Hw1]. now inversion Hw1. }
destruct (stream_outcome_ok _ _ _ _ _ _ _ _ _ Hout)
  as (_ & steps & Hreads & Hsteps & Hwritten & Hfi & Htd).
eexists vs, _, _, eff, det, steps.
split; [exact Hdec|]. rewrite Hobj, Hwrs, !lookup_snoc.
split; [reflexivity|]. split; [reflexivity|]. cbn.
repeat split; try assumption; try lia.
eapply Forall_impl; [exact Hsteps|].
intros [img [ds out]] Hturn. now apply turn_ok.
Qed.

Lemma concat_nil_length {X} (ls : list (list X)) :
length (concat ls) = 0%nat -> Forall (fun l => l = []) ls.
Proof.
induction ls as [|l ls IH]; cbn; [constructor|]. rewrite length_app.
intros H. constructor; [destruct l; [reflexivity|cbn in H; lia]|apply IH; lia].
Qed.

(** X12. When the record of a completed run reports no detection at all,
  the frames handed to the writer are the frames of the source, in
  order and unchanged. *)
Theorem process_video_without_detections P i o mp cf sz dev w a w' :
process_video P i o mp cf sz dev w = (Ok a, w') ->
exists vs m wr,
  decode P (str i) = Some vs /\
  objects w' !! a = Some (Instance m) /\
  writers w' !! length (writers w) = Some wr /\
  (total_detections m = 0 -> map Frame (wr_frames wr) = vs_reads vs).
Proof.
intros H.
destruct (process_video_returned _ _ _ _ _ _ _ _ _ _ H)
  as (vs & md & eff & det & written & fi & td & pfps & avg
      & Hopen & Heff & Hdet & Hout & -> & Hcaps & Hwrs & Hobj & _).
destruct (open_video_capture_inv _ _ _ _ _ _ Hopen) as (vs' & _ & Hdec & _ & Hw1 & _).
assert (vs' = vs) as ->.
{ apply (f_equal captures) in Hw1. cbn in Hw1.
  apply app_inj_tail in Hw1 as [_ Hw1]. now inversion Hw1. }
destruct (stream_outcome_ok _ _ _ _ _ _ _ _ _ Hout)
  as (_ & steps & Hreads & Hsteps & Hwritten & Hfi & Htd).
eexists vs, _, _.
split; [exact Hdec|]. rewrite Hobj, Hwrs, !lookup_snoc.
split; [reflexivity|]. split; [reflexivity|]. cbn.
intros Hzero. rewrite Hreads, Hwritten. clear Hreads Hwritten Hout.
assert (Hnone : Forall (fun l : list Detection => l = [])
                  (map (fun s : ndarray * (list Detection * ndarray) => s.2.1)
                     steps))
  by (apply concat_nil_length; lia).
clear Htd Hzero Hfi.
induction Hsteps as [|[img [ds out]] steps Hturn Hsteps IH]; [reflexivity|].
cbn in Hnone. inversion Hnone as [|? ? Hds Hrest]; subst. cbn.
apply turn_ok in Hturn as [_ Hout]. cbn in Hout. inversion Hout; subst.
f_equal. now apply IH.
Qed.

(** X13. The writer a completed run leaves behind is released; it was opened
  for the output path with the (width, height) the source reports, read
  with [int], both positive, and with the frame rate the source reports
  when that is positive and 30 otherwise. *)
Theorem process_video_sink P i o mp cf sz dev w a w' :
process_video P i o mp cf sz dev w = (Ok a, w') ->
exists vs wr wd ht,
  decode P (str i) = Some vs /\
  writers w' = writers w ++ [wr] /\
  wr_opened wr = false /\
  wr_path wr = str o /\
  int_of_float (vs_width vs) = Ok wd /\
  int_of_float (vs_height vs) = Ok ht /\
  0 < wd /\ 0 < ht /\
  wr_size wr = (wd, ht) /\
  wr_fps wr = (if fgt (vs_fps vs) f0 then vs_fps vs else f30) /\
  fgt (wr_fps wr) f0 = true.
Proof.
intros H.
destruct (process_video_returned _ _ _ _ _ _ _ _ _ _ H)
  as (vs & md & eff & det & written & fi & td & pfps & avg
      & Hopen & _ & _ & _ & _ & _ & Hwrs & _).
destruct (open_video_capture_inv _ _ _ _ _ _ Hopen)
  as (vs' & _ & Hdec & _ & Hw1 & Hwd & Hht & _ & Hfps & Hpw & Hph).
exists vs', (output o md written), (width md), (height md).
assert (Hrate : (if fgt (fps md) f0 then fps md else f30)
                = (if fgt (vs_fps vs') f0 then vs_fps vs' else f30)).
{ rewrite Hfps. destruct (is_zero (vs_fps vs')) eqn:Z; [|reflexivity].
  now rewrite (zero_not_positive _ Z). }
cbn. rewrite Hrate.
repeat split; try assumption.
destruct (fgt (vs_fps vs') f0) eqn:E; [exact E|reflexivity].
Qed.

(** X14. A run of [process_video] that returns has added exactly one
  capture, now released and with nothing left to read, one writer, one
  directory (the parent of the output path) and one object, the record,
  at the address it returns; it has read the clock twice and written no
  file. *)
Theorem process_video_footprint P i o mp cf sz dev w a w' :
process_video P i o mp cf sz dev w = (Ok a, w') ->
exists c wr m,
  captures w' = captures w ++ [c] /\
  cap_opened c = false /\ cap_pending c = [] /\
  writers w' = writers w ++ [wr] /\
  objects w' = objects w ++ [Instance m] /\ a = length (objects w) /\
  dirs w' = dirs w ++ [parent o] /\
  files w' = files w /\
  clock w' = S (S (clock w)).
Proof.
intros H.
destruct (process_video_returned _ _ _ _ _ _ _ _ _ _ H)
  as (vs & md & eff & det & written & fi & td & pfps & avg
      & _ & _ & _ & _ & Ha & Hcaps & Hwrs & Hobj & Hdirs & Hfiles & Hclock & _).
eexists _, _, _. rewrite Hcaps, Hwrs, Hobj.
repeat split; try reflexivity; assumption.
Qed.

Lemma stream_outcome_prefix P det imgs :
forall (steps : list (list Detection * ndarray)) tail fi td written pending r,
  Forall2 (fun img s => turn P det img = Ok s) imgs steps ->
  stream_outcome P det tail (fi + Z.of_nat (length imgs))
    (td + Z.of_nat (length (concat (map fst steps))))
  = (written, pending, r) ->
  stream_outcome P det (map Frame imgs ++ tail) fi td
  = (map snd steps ++ written, pending, r).
Proof.
induction imgs as [|img imgs IH];
  intros steps tail fi td written pending r Hsteps Htail.
- inversion Hsteps; subst. cbn in *. rewrite !Z.add_0_r in Htail. exact Htail.
- inversion Hsteps as [|? [ds out] ? steps' Hturn Hrest]; subst.
  cbn [map app stream_outcome]. rewrite Hturn.
  rewrite (IH steps' tail _ _ written pending r Hrest); [reflexivity|].
  rewrite <- Htail. cbn [map fst concat length]. rewrite length_app.
  f_equal; lia.
Qed.

(** What a run of [process_video] does when the loop raises. *)
Lemma process_video_stream_raises P i o mp cf sz dev w capture md w1 eff det
  writer w2 vs written pending e :
open_video_capture P i w = (Ok (capture, md), w1) ->
_adjust_imgsz_to_stride
  (match sz with
   | None => ImgPair (height md) (width md)
   | Some requested => requested
   end) 32 = Ok eff ->
detector.__init__ P mp cf (Some eff) (_normalize_device P dev) = Ok det ->
create_video_writer P o md w1 = (Ok writer, w2) ->
decode P (str i) = Some vs ->
stream_outcome P det (vs_reads vs) 0 0 = (written, pending, Raise e) ->
exists w',
  process_video P i o mp cf sz dev w = (Raise e, w') /\
  captures w' = captures w ++ [closed_capture (opened_capture vs)] /\
  writers w' = writers w ++ [output o md written] /\
  objects w' = objects w /\ files w' = files w.
Proof.
intros Hopen Heff Hdet Hwr Hdec Hout.
destruct (open_video_capture_inv _ _ _ _ _ _ Hopen)
  as (vs' & _ & Hdec' & -> & -> & _).
assert (vs' = vs) as -> by congruence.
destruct (create_video_writer_inv _ _ _ _ _ _ Hwr) as [-> ->].
cbn [writers with_captures] in *.
unfold process_video.
rewrite bind_unfold, Hopen, bind_unfold, lift_unfold, Heff,
  bind_unfold, lift_unfold, Hdet, bind_unfold, Hwr, bind_unfold.
unfold perf_counter at 1. cbv beta iota. rewrite bind_unfold.
match goal with
| |- context [try_finally _ _ ?w0] =>
    destruct (streaming_phase_outcome P (length (captures w)) det
                (length (writers w)) w0 (opened_capture vs) (sink o md)
                written pending (Raise e))
      as (w3 & Hphase & Hcaps & Hwrs & Hstr)
end; try reflexivity.
{ cbn. apply lookup_snoc. }
{ cbn. apply lookup_snoc. }
{ exact Hout. }
cbn [cap_pending opened_capture] in Hphase. rewrite Hphase.
destruct Hstr as (Hobj & _ & Hfiles & _).
cbn in Hcaps, Hwrs, Hobj, Hfiles.
rewrite insert_last in Hcaps. rewrite insert_last in Hwrs.
exists w3. repeat split; assumption.
Qed.

(** X15. When source, detector and writer have been acquired and the loop
  fails at some read, after frames that went through, then
  [process_video] raises what failed: the message of the read that
  raised, or what [detect] or [draw_detections] raised on the frame
  read.  The writer is released and holds the annotated frames of the
  reads before the failure and no other; the capture is released; no
  record is made and no file written. *)
Theorem process_video_interrupted P i o mp cf sz dev w capture md w1 eff det
  writer w2 vs
  (done : list (ndarray * (list Detection * ndarray)))
  (ev : read_event) (rest : list read_event) (e : exn) :
open_video_capture P i w = (Ok (capture, md), w1) ->
_adjust_imgsz_to_stride
  (match sz with
   | None => ImgPair (height md) (width md)
   | Some requested => requested
   end) 32 = Ok eff ->
detector.__init__ P mp cf (Some eff) (_normalize_device P dev) = Ok det ->
create_video_writer P o md w1 = (Ok writer, w2) ->
decode P (str i) = Some vs ->
vs_reads vs = map (fun s => Frame s.1) done ++ ev :: rest ->
Forall (fun s => detect det s.1 = Ok s.2.1 /\
                 annotate P s.1 s.2.1 = Ok s.2.2) done ->
match ev with
| ReadError msg => e = Exn External msg
| Frame img =>
    detect det img = Raise e \/
    exists ds, detect det img = Ok ds /\ annotate P img ds = Raise e
end ->
exists w' c wr,
  process_video P i o mp cf sz dev w = (Raise e, w') /\
  captures w' = captures w ++ [c] /\ cap_opened c = false /\
  writers w' = writers w ++ [wr] /\ wr_opened wr = false /\
  wr_frames wr = map (fun s => s.2.2) done /\
  objects w' = objects w /\ files w' = files w.
Proof.
intros Hopen Heff Hdet Hwr Hdec Hreads Hdone Hev.
assert (Hout : stream_outcome P det (vs_reads vs) 0 0
               = (map snd (map snd done) ++ [], rest, Raise e)).
{ rewrite Hreads, <- (map_map fst Frame).
  apply stream_outcome_prefix.
  - clear Hreads. induction Hdone as [|[img [ds out]] done [Hd Ha] _ IH];
      cbn; constructor; [|exact IH].
    unfold turn. cbn in Hd, Ha. rewrite Hd. unfold mbind, result_bind.
    cbn [rbind]. rewrite Ha. reflexivity.
  - destruct ev as [img|msg]; cbn [stream_outcome].
    + unfold turn. destruct Hev as [Hd|(ds & Hd & Ha)]; rewrite Hd;
        [reflexivity|].
      unfold mbind, result_bind. cbn [rbind]. rewrite Ha. reflexivity.
    + now subst e. }
destruct (process_video_stream_raises P i o mp cf sz dev w capture md w1 eff
            det writer w2 vs _ _ e Hopen Heff Hdet Hwr Hdec Hout)
  as (w' & Hrun & Hcaps & Hwrs & Hobj & Hfiles).
eexists w', _, _. split; [exact Hrun|]. rewrite Hcaps, Hwrs.
repeat split; try reflexivity; try assumption.
cbn. now rewrite app_nil_r, map_map.
Qed.

(** X26. In the record of a completed run no count and no rate is
  negative, and no rate is a NaN: frames and total_detections are at
  least 0, and so, as floats, are avg_detections_per_frame and
  processing_fps. *)
Theorem process_video_metrics_not_negative P i o mp cf sz dev w a w' :
process_video P i o mp cf sz dev w = (Ok a, w') ->
exists m,
  objects w' !! a = Some (Instance m) /\
  0 <= frames m /\ 0 <= total_detections m /\
  fle f0 (avg_detections_per_frame m) = true /\
  fle f0 (processing_fps m) = true.
Proof.
intros H.
destruct (process_video_returned _ _ _ _ _ _ _ _ _ _ H)
  as (vs & md & eff & det & written & fi & td & pfps & avg
      & _ & _ & _ & Hout & -> & _ & _ & Hobj & _ & _ & _ & _ & Hfps & Havg).
destruct (stream_outcome_ok _ _ _ _ _ _ _ _ _ Hout)
  as (_ & steps & _ & _ & _ & Hfi & Htd).
assert (Hfi0 : 0 <= fi) by lia. assert (Htd0 : 0 <= td) by lia.
eexists. split; [rewrite Hobj; apply lookup_snoc|]. cbn.
split; [exact Hfi0|]. split; [exact Htd0|]. split.
- destruct (Z.eqb_spec fi 0) as [_|Hne]; cbn [negb] in Havg.
  { inversion Havg. reflexivity. }
  unfold int_truediv in Havg.
  destruct (Z.eqb_spec fi 0) as [|_]; [contradiction|].
  destruct (is_inf _); inversion Havg.
  destruct (exact_int_nonneg td Htd0) as [F N].
  apply fdiv_nonneg; [exact F|exact N|apply exact_int_positive; lia].
- cbv zeta in Hfps.
  destruct (fgt _ f0) eqn:Hdur; [|inversion Hfps; reflexivity].
  unfold int_div_float in Hfps.
  destruct (float_of_int fi) as [x|e] eqn:Hx; [|discriminate].
  cbn [rbind] in Hfps.
  destruct (is_zero _); inversion Hfps.
  destruct (float_of_int_nonneg fi x Hfi0 Hx) as [F N].
  now apply fdiv_nonneg.
Qed.

(** X27. On a source that opens but delivers no frame, once detector and
  writer are acquired, [process_video] returns: the record counts no
  frame and no detection, its average is 0.0 and its rate is zero, and
  the writer is released without a frame. *)
Theorem process_video_empty_source P i o mp cf sz dev w capture md w1 eff det
  writer w2 vs :
open_video_capture P i w = (Ok (capture, md), w1) ->
_adjust_imgsz_to_stride
  (match sz with
   | None => ImgPair (height md) (width md)
   | Some requested => requested
   end) 32 = Ok eff ->
detector.__init__ P mp cf (Some eff) (_normalize_device P dev) = Ok det ->
create_video_writer P o md w1 = (Ok writer, w2) ->
decode P (str i) = Some vs ->
vs_reads vs = [] ->
exists a w' m wr,
  process_video P i o mp cf sz dev w = (Ok a, w') /\
  objects w' !! a = Some (Instance m) /\
  frames m = 0 /\ total_detections m = 0 /\
  avg_detections_per_frame m = f0 /\
  is_zero (processing_fps m) = true /\
  writers w' !! writer = Some wr /\
  wr_opened wr = false /\ wr_frames wr = [].
Proof.
intros Hopen Heff Hdet Hwr Hdec Hreads.
destruct (open_video_capture_inv _ _ _ _ _ _ Hopen)
  as (vs' & _ & Hdec' & -> & -> & _).
assert (vs' = vs) as -> by congruence.
destruct (create_video_writer_inv _ _ _ _ _ _ Hwr) as [-> ->].
cbn [writers with_captures] in *.
unfold process_video.
rewrite bind_unfold, Hopen, bind_unfold, lift_unfold, Heff,
  bind_unfold, lift_unfold, Hdet, bind_unfold, Hwr, bind_unfold.
unfold perf_counter at 1. cbv beta iota. rewrite bind_unfold.
match goal with
| |- context [try_finally _ _ ?w0] =>
    destruct (streaming_phase_outcome P (length (captures w)) det
                (length (writers w)) w0 (opened_capture vs) (sink o md)
                [] [] (Ok (0, 0)))
      as (w3 & Hphase & Hcaps & Hwrs & Hstr)
end; try reflexivity.
{ cbn. apply lookup_snoc. }
{ cbn. apply lookup_snoc. }
{ cbn. now rewrite Hreads. }
cbn [cap_pending opened_capture] in Hphase. rewrite Hphase.
destruct Hstr as (Hobj & _ & _ & Hclock & _).
cbn in Hwrs, Hobj, Hclock. rewrite insert_last in Hwrs.
rewrite bind_unfold. unfold perf_counter at 1. cbv beta iota.
rewrite bind_unfold, lift_unfold.
set (duration := fsub _ _).
assert (Hrate : exists pfps,
          (if fgt duration f0 then int_div_float 0 duration else Ok f0)
          = Ok pfps /\ is_zero pfps = true).
{ destruct (fgt duration f0) eqn:Hd; [|exists f0; split; reflexivity].
  unfold int_div_float. cbn [float_of_int binary_normalize is_inf rbind].
  destruct duration as [s|s| |s m e]; try discriminate; cbn [is_zero].
  - eexists. split; reflexivity.
  - eexists. split; reflexivity. }
destruct Hrate as (pfps & -> & Hzero).
rewrite bind_unfold, lift_unfold. cbn [Z.eqb negb].
unfold new_object. cbv beta iota.
eexists _, _, _, _. split; [reflexivity|].
cbn [objects with_objects with_clock writers].
split; [apply lookup_snoc|]. cbn.
repeat split; try assumption.
rewrite Hwrs. apply lookup_snoc.
all: reflexivity.
Qed.

End process_video_results.

(* ===================================================================== *)
(** ** main.py: the batch and the entry point *)
(* ===================================================================== *)

Section batch.
Import draw video_io main.

#[local] Instance files_kept_preorder : PreOrder files_kept.
Proof.
split; [intros w; reflexivity|].
intros w1 w2 w3 H1 H2. unfold files_kept in *. congruence.
Qed.

Lemma respects_weaken (R R' : relation world) {A} (m : M A) :
(forall w w', R w w' -> R' w w') -> respects R m -> respects R' m.
Proof. intros H Hm w. apply H, Hm. Qed.

Lemma process_video_files P i o mp cf sz dev :
respects files_kept (process_video P i o mp cf sz dev).
Proof.
assert (Hacq : forall w w', acquiring w w' -> files_kept w w')
  by (intros w w' H; apply H).
assert (Hstr : forall w w', streaming w w' -> files_kept w w')
  by (intros w w' H; apply H).
unfold process_video.
apply respects_bind; [typeclasses eauto| |intros [capture md]].
{ exact (respects_weaken _ _ _ Hacq (open_video_capture_acquiring P i)). }
apply respects_bind; [typeclasses eauto|apply respects_lift; typeclasses eauto|].
intros eff.
apply respects_bind; [typeclasses eauto|apply respects_lift; typeclasses eauto|].
intros det.
apply respects_bind; [typeclasses eauto| |intros writer].
{ exact (respects_weaken _ _ _ Hacq (create_video_writer_acquiring P o md)). }
apply respects_bind; [typeclasses eauto| |intros start].
{ apply respects_perf_counter. intros w. reflexivity. }
apply respects_bind; [typeclasses eauto| |intros [fi td]].
{ exact (respects_weaken _ _ _ Hstr (streaming_phase P capture det writer)). }
apply respects_bind; [typeclasses eauto| |intros finish].
{ apply respects_perf_counter. intros w. reflexivity. }
apply respects_bind; [typeclasses eauto|apply respects_lift; typeclasses eauto|].
intros pfps.
apply respects_bind; [typeclasses eauto|apply respects_lift; typeclasses eauto|].
intros avg. apply respects_new_object. intros w. reflexivity.
Qed.

Lemma process_directory_files P input_dir output_dir mp cf sz dev :
respects files_kept (process_directory P input_dir output_dir mp cf sz dev).
Proof.
unfold process_directory, _list_videos.
apply respects_bind; [typeclasses eauto| |intros videos].
{ apply respects_bind; [typeclasses eauto|apply respects_lift; typeclasses eauto|].
  intros children. apply respects_ret. typeclasses eauto. }
destruct videos as [|video videos]; [apply respects_raise; typeclasses eauto|].
apply respects_bind; [typeclasses eauto| |intros _].
{ apply respects_mkdir. intros w. reflexivity. }
apply respects_map_m; [typeclasses eauto|]. intros v.
apply process_video_files.
Qed.

(** X18. Neither [process_video] nor [process_directory] writes a file,
  whether it returns or raises: the files are those it started with. *)
Theorem processing_writes_no_file P (i o : Path) mp cf sz dev (w : world) :
files (process_video P i o mp cf sz dev w).2 = files w /\
files (process_directory P i o mp cf sz dev w).2 = files w.
Proof.
split; [apply process_video_files|apply process_directory_files].
Qed.

(** The records a batch of runs of [process_video] leaves in the store. *)
Lemma batch_records P output_dir mp cf sz dev (videos : list Path) :
forall w ms w',
  runs_in_order
    (fun video_path =>
       process_video P video_path (joinpath output_dir (name video_path))
         mp cf sz dev)
    videos w ms w' ->
  exists records,
    objects w' = objects w ++ map Instance records /\
    ms = seq (length (objects w)) (length videos) /\
    Forall2 (fun video m =>
               input_path m = str video /\
               output_path m = str (joinpath output_dir (name video)))
      videos records.
Proof.
intros w ms w' H. induction H as [w|video videos a ms w w1 w' Hrun Hrest IH].
- exists []. cbn. rewrite app_nil_r. repeat split. constructor.
- destruct (process_video_returned _ _ _ _ _ _ _ _ _ _ Hrun)
    as (vs & md & eff & det & written & fi & td & pfps & avg
        & _ & _ & _ & _ & -> & _ & _ & Hobj & _).
  destruct IH as (records & Hobjs & -> & Hpaths).
  eexists (_ :: records). rewrite Hobjs, Hobj, <- app_assoc. cbn [map app].
  split; [reflexivity|].
  split; [cbn; rewrite length_app; cbn; now rewrite Nat.add_1_r|].
  constructor; [split; reflexivity|exact Hpaths].
Qed.

(** What a run of [process_directory] that returns has done. *)
Lemma process_directory_returned P input_dir output_dir mp cf sz dev w ms w' :
process_directory P input_dir output_dir mp cf sz dev w = (Ok ms, w') ->
exists videos records,
  _list_videos P input_dir w = (Ok videos, w) /\ videos <> [] /\
  Forall2 (fun a m => objects w' !! a = Some (Instance m)) ms records /\
  Forall2 (fun video m =>
             input_path m = str video /\
             output_path m = str (joinpath output_dir (name video)))
    videos records /\
  In output_dir (dirs w') /\ files w' = files w.
Proof.
intros H.
pose proof (process_directory_files P input_dir output_dir mp cf sz dev w) as Hf.
rewrite H in Hf. cbn in Hf.
unfold process_directory in H.
apply bind_ok in H as (videos & w0 & Hlist & H).
assert (w0 = w) as ->.
{ unfold _list_videos in Hlist.
  apply bind_ok in Hlist as (children & w0' & Hc & Hlist).
  apply lift_ok in Hc as [_ ->]. now inversion Hlist. }
destruct videos as [|video videos]; [discriminate|].
apply bind_ok in H as ([] & w1 & Hmk & H).
unfold mkdir in Hmk. inversion Hmk; subst w1. clear Hmk.
apply map_m_ok in H.
assert (Hdirs : In output_dir (dirs w')).
{ assert (Hkeep : forall (vs : list Path) w1 ms1 w2,
            runs_in_order
              (fun video_path =>
                 process_video P video_path
                   (joinpath output_dir (name video_path)) mp cf sz dev)
              vs w1 ms1 w2 ->
            In output_dir (dirs w1) -> In output_dir (dirs w2)).
  { intros vs w1 ms1 w2 Hr. induction Hr as [|? ? ? ? ? ? ? Hrun _ IH]; [auto|].
    intros Hin. apply IH.
    destruct (process_video_returned _ _ _ _ _ _ _ _ _ _ Hrun)
      as (? & ? & ? & ? & ? & ? & ? & ? & ? & _ & _ & _ & _ & _ & _ & _ & _
          & Hd & _).
    rewrite Hd. apply in_or_app. now left. }
  apply (Hkeep _ _ _ _ H). cbn. apply in_or_app. right. now left. }
destruct (batch_records _ _ _ _ _ _ _ _ _ _ H) as (records & Hobjs & -> & Hpaths).
exists (video :: videos), records.
split; [exact Hlist|]. split; [discriminate|].
split; [|split; [exact Hpaths|split; [exact Hdirs|exact Hf]]].
rewrite Hobjs. cbn [objects with_dirs].
rewrite (Forall2_length _ _ _ Hpaths).
pose proof (lookup_seq_appended Instance (objects w) records []) as Hl.
rewrite app_nil_r in Hl. exact Hl.
Qed.

(** X20. [process_directory] stops at the first video whose run raises: it
  raises the same, after the videos before it have been processed, and
  leaves the world as that run left it, so the videos after it are not
  opened. *)
Theorem process_directory_stops_at_first_failure P input_dir output_dir mp cf
  sz dev (w : world) (done : list Path) (video : Path) (rest : list Path)
  (ms : list nat) (w1 : world) (e : exn) (w2 : world) :
_list_videos P input_dir w = (Ok (done ++ video :: rest), w) ->
runs_in_order
  (fun video_path =>
     process_video P video_path (joinpath output_dir (name video_path))
       mp cf sz dev)
  done (with_dirs (fun l => l ++ [output_dir]) w) ms w1 ->
process_video P video (joinpath output_dir (name video)) mp cf sz dev w1
= (Raise e, w2) ->
process_directory P input_dir output_dir mp cf sz dev w = (Raise e, w2).
Proof.
intros Hlist Hdone Hfail. unfold process_directory.
rewrite bind_unfold, Hlist.
destruct (done ++ video :: rest) as [|first others] eqn:E.
{ now destruct done. }
rewrite bind_unfold, mkdir_unfold. cbv iota beta. rewrite <- E.
exact (map_m_stops _ _ _ _ _ _ _ _ _ Hdone Hfail).
Qed.

(** X19. A run of [process_directory] that returns has found at least one
  video and returns one address per video, in the order of
  [_list_videos]; each address holds the record of its video, whose
  input path is the path of the video and whose output path is the
  output directory joined with the name of the video.  The output
  directory has been made. *)
Theorem process_directory_records P input_dir output_dir mp cf sz dev w ms w' :
process_directory P input_dir output_dir mp cf sz dev w = (Ok ms, w') ->
exists videos records,
  _list_videos P input_dir w = (Ok videos, w) /\ videos <> [] /\
  Forall2 (fun a m => objects w' !! a = Some (Instance m)) ms records /\
  Forall2 (fun video m =>
             input_path m = str video /\
             output_path m = str (joinpath output_dir (name video)))
    videos records /\
  In output_dir (dirs w').
Proof.
intros H.
destruct (process_directory_returned _ _ _ _ _ _ _ _ _ _ H)
  as (videos & records & H1 & H2 & H3 & H4 & H5 & _).
exists videos, records. auto.
Qed.

Lemma write_metrics_files_files (metrics : list nat) (ms : list VideoMetrics)
  (output_dir : Path) (w : world) :
Forall2 (fun a m => objects w !! a = Some (Instance m)) metrics ms ->
exists w',
  write_metrics_files metrics output_dir w = (Ok tt, w') /\
  files w' = with_metrics output_dir ms (files w).
Proof.
intros H. rewrite (write_metrics_files_eq _ _ _ _ H). eexists.
split; [reflexivity|]. cbn. unfold with_metrics. destruct ms; reflexivity.
Qed.

(** X21. When assets is a directory and the batch goes through, [main]
  returns after writing outputs/metrics.json and outputs/metrics.csv
  from the records of the batch: one record per video, in the order the
  videos were processed, floats rounded to 2 places; no other file is
  touched. *)
Theorem main_exports_batch P (is_dir : string -> bool) (args : Namespace)
  (w : world) (ms : list nat) (w1 : world) :
is_dir "assets" = true ->
process_directory P ["assets"] ["outputs"] (args_model args) (args_conf args)
  (option_map ImgInt (args_imgsz args)) (args_device args) w = (Ok ms, w1) ->
exists first rest w',
  Forall2 (fun a m => objects w1 !! a = Some (Instance m)) ms (first :: rest) /\
  main P is_dir args w = (Ok tt, w') /\
  files w' !! "outputs/metrics.json"
  = Some (JsonDoc (exported (first :: rest))) /\
  files w' !! "outputs/metrics.csv"
  = Some (CsvDoc (map fst (fields first))
            (map (map snd) (exported (first :: rest)))) /\
  (forall p, p <> "outputs/metrics.json" -> p <> "outputs/metrics.csv" ->
     files w' !! p = files w !! p).
Proof.
intros Hdir Hrun.
destruct (process_directory_returned _ _ _ _ _ _ _ _ _ _ Hrun)
  as (videos & records & _ & Hsome & Hobjs & Hpaths & _ & Hfiles).
destruct records as [|first rest].
{ inversion Hpaths; subst. contradiction. }
destruct (write_metrics_files_files ms (first :: rest) ["outputs"] w1 Hobjs)
  as (w' & Hwrite & Hw').
exists first, rest, w'. split; [exact Hobjs|].
split.
{ unfold main. change (str ["assets"]) with "assets". rewrite Hdir.
  change (String.eqb (suffix ["outputs"]) "") with true. cbv iota zeta.
  rewrite bind_unfold, Hrun. exact Hwrite. }
rewrite Hw', Hfiles. unfold with_metrics.
change (str (joinpath ["outputs"] "metrics.json")) with "outputs/metrics.json".
change (str (joinpath ["outputs"] "metrics.csv")) with "outputs/metrics.csv".
split; [|split].
- rewrite lookup_insert_ne by discriminate. apply lookup_insert_eq.
- apply lookup_insert_eq.
- intros p H1 H2. rewrite !lookup_insert_ne by congruence. reflexivity.
Qed.

(** X22. When [main] raises, it has written no file: the metrics files are
  written only after every video has been processed, and not at all when
  one of them fails. *)
Theorem main_failure_writes_nothing P (is_dir : string -> bool)
  (args : Namespace) (w : world) (e : exn) (w' : world) :
main P is_dir args w = (Raise e, w') -> files w' = files w.
Proof.
unfold main. change (String.eqb (suffix ["outputs"]) "") with true.
rewrite orb_true_r. cbv iota zeta.
destruct (is_dir (str ["assets"])).
- rewrite bind_unfold.
  pose proof (process_directory_files P ["assets"] ["outputs"] (args_model args)
                (args_conf args) (option_map ImgInt (args_imgsz args))
                (args_device args) w) as Hf.
  destruct (process_directory _ _ _ _ _ _ _ w) as [[ms|e1] w1] eqn:Hrun.
  + destruct (process_directory_returned _ _ _ _ _ _ _ _ _ _ Hrun)
      as (videos & records & _ & _ & Hobjs & _).
    destruct (write_metrics_files_files ms records ["outputs"] w1 Hobjs)
      as (w2 & Hwrite & _).
    rewrite Hwrite. discriminate.
  + intros H. inversion H; subst. exact Hf.
- rewrite !bind_unfold, mkdir_unfold. cbv iota beta. rewrite ret_unfold.
  change (name ["assets"]) with "assets".
  change (joinpath ["outputs"] "assets") with ["outputs"; "assets"].
  rewrite bind_unfold.
  pose proof (process_video_files P ["assets"] ["outputs"; "assets"]
                (args_model args) (args_conf args)
                (option_map ImgInt (args_imgsz args)) (args_device args)
                (with_dirs (fun l => l ++ [["outputs"]]) w)) as Hf.
  destruct (process_video _ _ _ _ _ _ _ _) as [[a|e1] w1] eqn:Hrun.
  + destruct (process_video_returned _ _ _ _ _ _ _ _ _ _ Hrun)
      as (vs & md & eff & det & written & fi & td & pfps & avg
          & _ & _ & _ & _ & -> & _ & _ & Hobj & _).
    match type of Hobj with
    | _ = ?l ++ [Instance ?r] =>
        destruct (write_metrics_files_files [length l] [r]
                    (parent ["outputs"; "assets"]) w1) as (w2 & Hwrite & _)
    end.
    { constructor; [|constructor]. rewrite Hobj. apply lookup_snoc. }
    rewrite Hwrite. discriminate.
  + intros H. inversion H; subst. exact Hf.
Qed.

(** X23. When assets is not a directory, [main] makes the directory outputs
  and runs [process_video] on assets with the output outputs/assets.  If
  assets does not exist it raises [FileNotFoundError], leaving the new
  directory and nothing else; if the run returns, it writes the record of
  that one run to outputs/metrics.json and outputs/metrics.csv. *)
Theorem main_single_input P (is_dir : string -> bool) (args : Namespace)
  (w : world) :
is_dir "assets" = false ->
let started := with_dirs (fun l => l ++ [["outputs"]]) w in
(path_exists P "assets" = false ->
   main P is_dir args w
   = (Raise (Exn FileNotFoundError "Input video not found: assets"), started)) /\
(forall a w1,
   process_video P ["assets"] ["outputs"; "assets"] (args_model args)
     (args_conf args) (option_map ImgInt (args_imgsz args))
     (args_device args) started = (Ok a, w1) ->
   exists m w',
     objects w1 !! a = Some (Instance m) /\
     input_path m = "assets" /\ output_path m = "outputs/assets" /\
     main P is_dir args w = (Ok tt, w') /\
     files w' !! "outputs/metrics.json" = Some (JsonDoc (exported [m])) /\
     files w' !! "outputs/metrics.csv"
     = Some (CsvDoc (map fst (fields m)) (map (map snd) (exported [m])))).
Proof.
intros Hdir started.
assert (Hmain : main P is_dir args w
                = (metrics ← process_video P ["assets"] ["outputs"; "assets"]
                               (args_model args) (args_conf args)
                               (option_map ImgInt (args_imgsz args))
                               (args_device args);
                   write_metrics_files [metrics] ["outputs"]) started).
{ unfold main. change (str ["assets"]) with "assets". rewrite Hdir.
  change (String.eqb (suffix ["outputs"]) "") with true.
  rewrite orb_true_r. cbv iota zeta.
  rewrite (bind_unfold (_ ← mkdir ["outputs"]; _)), bind_unfold, mkdir_unfold.
  cbv iota beta. rewrite ret_unfold. reflexivity. }
split.
- intros Hmissing. rewrite Hmain, bind_unfold.
  unfold process_video. rewrite bind_unfold, open_video_capture_eq.
  change (str ["assets"]) with "assets". rewrite Hmissing. reflexivity.
- intros a w1 Hrun.
  destruct (process_video_returned _ _ _ _ _ _ _ _ _ _ Hrun)
    as (vs & md & eff & det & written & fi & td & pfps & avg
        & _ & _ & _ & _ & -> & _ & _ & Hobj & _).
  match type of Hobj with
  | _ = _ ++ [Instance ?r] => set (m := r) in *
  end.
  destruct (write_metrics_files_files [length (objects started)] [m]
              ["outputs"] w1) as (w' & Hwrite & Hw').
  { constructor; [|constructor]. rewrite Hobj. apply lookup_snoc. }
  exists m, w'. split; [rewrite Hobj; apply lookup_snoc|].
  split; [reflexivity|]. split; [reflexivity|].
  split; [rewrite Hmain, bind_unfold, Hrun; exact Hwrite|].
  rewrite Hw'. unfold with_metrics.
  change (str (joinpath ["outputs"] "metrics.json")) with "outputs/metrics.json".
  change (str (joinpath ["outputs"] "metrics.csv")) with "outputs/metrics.csv".
  split; [rewrite lookup_insert_ne by discriminate|]; apply lookup_insert_eq.
Qed.

End batch.

(* ===================================================================== *)
(** ** main.py: sizes that are already aligned, exports that are repeated *)
(* ===================================================================== *)

Section sizes_and_exports.
Import main.

Lemma snap_fixed (x : Z) :
- 2 ^ 53 <= x <= 2 ^ 53 ->
exists r, snap x 32 = Ok r /\ snap r 32 = Ok r /\ ((32 | x) -> r = x).
Proof.
intros Hx. pose proof (ceil_multiple x) as (Hdiv & Hle & Hmin). cbv zeta in *.
set (r := - ((- x) / 32) * 32) in *.
assert (Hr : - 2 ^ 53 <= r <= 2 ^ 53).
{ split; [lia|]. apply Hmin; [exists (2 ^ 48); reflexivity|lia]. }
exists r. split; [now apply snap_exact|]. split.
- rewrite (snap_exact r Hr). f_equal. destruct Hdiv as [k Hk]. rewrite Hk.
  replace (- (k * 32)) with ((- k) * 32) by lia.
  rewrite Z.div_mul by lia. lia.
- intros Hx32. assert (r <= x) by (apply Hmin; [exact Hx32|lia]). lia.
Qed.

(** X24. For dimensions of magnitude at most 2^53,
  [_adjust_imgsz_to_stride] is idempotent for the stride 32: adjusting
  what it returned returns the same; and a size whose dimensions are
  multiples of 32 already is returned as it is. *)
Theorem adjust_imgsz_to_stride_fixed_points (imgsz : imgsz_t) :
match imgsz with
| ImgInt n => - 2 ^ 53 <= n <= 2 ^ 53
| ImgPair h w => - 2 ^ 53 <= h <= 2 ^ 53 /\ - 2 ^ 53 <= w <= 2 ^ 53
end ->
exists adjusted,
  _adjust_imgsz_to_stride imgsz 32 = Ok adjusted /\
  _adjust_imgsz_to_stride adjusted 32 = Ok adjusted /\
  (match imgsz with
   | ImgInt n => (32 | n)
   | ImgPair h w => (32 | h) /\ (32 | w)
   end -> adjusted = imgsz).
Proof.
destruct imgsz as [n|h w]; cbn [_adjust_imgsz_to_stride].
- intros Hn. destruct (snap_fixed n Hn) as (r & H1 & H2 & H3).
  exists (ImgInt r). cbn [_adjust_imgsz_to_stride]. rewrite H1, H2. cbn.
  repeat split. intros Hd. now rewrite H3.
- intros [Hh Hw].
  destruct (snap_fixed h Hh) as (rh & H1 & H2 & H3).
  destruct (snap_fixed w Hw) as (rw & H4 & H5 & H6).
  exists (ImgPair rh rw). cbn [_adjust_imgsz_to_stride].
  rewrite H1, H4, H2, H5. cbn.
  repeat split. intros [Hd1 Hd2]. now rewrite H3, H6.
Qed.

Lemma with_metrics_again output_dir ms fs :
with_metrics output_dir ms (with_metrics output_dir ms fs)
= with_metrics output_dir ms fs.
Proof.
unfold with_metrics. destruct ms as [|first rest].
- apply insert_insert_eq.
- apply map_eq. intros p.
  destruct (decide (str (joinpath output_dir "metrics.csv") = p)) as [->|Hc].
  + now rewrite !lookup_insert_eq.
  + rewrite !(lookup_insert_ne _ _ p _ Hc).
    destruct (decide (str (joinpath output_dir "metrics.json") = p)) as [->|Hj].
    * now rewrite !lookup_insert_eq.
    * now rewrite !(lookup_insert_ne _ _ p _ Hj), !(lookup_insert_ne _ _ p _ Hc),
        !(lookup_insert_ne _ _ p _ Hj).
Qed.

(** X25. Exporting the same records to the same directory a second time
  succeeds and leaves the files as the first export left them: the
  metrics files are replaced, no row is appended to an existing CSV.  An
  export touches no file other than metrics.json and metrics.csv of the
  output directory. *)
Theorem write_metrics_files_again (metrics : list nat) (ms : list VideoMetrics)
  (output_dir : Path) (w : world) :
Forall2 (fun a m => objects w !! a = Some (Instance m)) metrics ms ->
let once := write_metrics_files metrics output_dir w in
let twice := write_metrics_files metrics output_dir once.2 in
once.1 = Ok tt /\ twice.1 = Ok tt /\
files twice.2 = files once.2 /\
(forall p, p <> str (joinpath output_dir "metrics.json") ->
           p <> str (joinpath output_dir "metrics.csv") ->
           files once.2 !! p = files w !! p).
Proof.
intros H once twice.
assert (Hold : forall a, (a < length (objects w))%nat ->
                         objects once.2 !! a = objects w !! a).
{ intros a Ha. subst once. rewrite (write_metrics_files_eq _ _ _ _ H). cbn.
  rewrite lookup_app_l by (rewrite length_app; lia). now apply lookup_app_l. }
assert (H' : Forall2 (fun a m => objects once.2 !! a = Some (Instance m))
               metrics ms).
{ eapply Forall2_impl; [exact H|]. intros a m Ha. cbn beta in *.
  rewrite Hold; [exact Ha|]. now apply lookup_lt_Some in Ha. }
destruct (write_metrics_files_files metrics ms output_dir w H)
  as (w1 & Hrun1 & Hfiles1).
destruct (write_metrics_files_files metrics ms output_dir once.2 H')
  as (w2 & Hrun2 & Hfiles2).
subst twice. rewrite Hrun2. subst once. rewrite Hrun1 in *. cbn [fst snd] in *.
split; [reflexivity|]. split; [reflexivity|]. split.
- rewrite Hfiles2, Hfiles1. apply with_metrics_again.
- intros p Hj Hc. rewrite Hfiles1. unfold with_metrics.
  destruct ms; rewrite ?lookup_insert_ne by congruence; reflexivity.
Qed.

End sizes_and_exports.

(* ===================================================================== *)
(** * Further properties at the sample collaborators *)
(* ===================================================================== *)

Section more_samples.
Import draw video_io main.

(** The first of two detections has a NaN coordinate: [int] raises and the
  frame is as it was. *)
Lemma draw_detections_outcomes_witness :
(draw_detections sample.pc 0 [sample.lost; sample.detection]
   sample.with_frame).1
= Raise (Exn ValueError "cannot convert float NaN to integer") /\
arrays (draw_detections sample.pc 0 [sample.lost; sample.detection]
          sample.with_frame).2 !! 0%nat = Some sample.frame.
Proof.
destruct (draw_detections_outcomes sample.pc 0 [sample.lost; sample.detection]
            sample.with_frame (mk_is_Some _ _ eq_refl))
  as (_ & Hraise & Hfirst).
split.
- destruct (Hfirst sample.lost [sample.detection] eq_refl eq_refl)
    as (e & He & Hout & _).
  rewrite Hout. vm_compute in He. now inversion He.
- apply Hraise. apply Exists_cons_hd. reflexivity.
Defined.

(** A label for a box whose top is 10 pixels below the edge: 17 pixels
  high, it starts at the top edge. *)
Lemma draw_label_placement_witness :
exists y_top,
  _draw_label sample.pc 0 10 10 "person 0.87" f0_40 1 2 sample.with_frame
  = (Ok tt,
     with_arrays
       (fun l =>
          <[0%nat :=
              cv2_putText sample.pc
                (cv2_rectangle sample.pc sample.frame (10, y_top)
                   (10 + 60 + 2 * 2, y_top + 9 + 4 + 2 * 2)
                   BOX_COLOR cv2.FILLED cv2.LINE_AA)
                "person 0.87"
                (10 + 2, y_top + 9 + 4 + 2 * 2 - 2 - 4 / 2)
                FONT f0_40 TEXT_COLOR 1 cv2.LINE_AA]> l) sample.with_frame) /\
  y_top = 0.
Proof.
destruct (draw_label_placement sample.pc 0 10 10 "person 0.87" f0_40 1 2
            sample.with_frame sample.frame 60 9 4 eq_refl eq_refl)
  as (y_top & Hrun & _ & _ & Htop).
exists y_top. split; [exact Hrun|]. apply Htop. lia.
Defined.

(** The run on the three-frame clip: three frames read, three written,
  one detection in each. *)
Lemma process_video_output_witness :
exists vs m wr eff det (steps : list (ndarray * (list Detection * ndarray))),
  decode sample.pc "assets/a.mp4" = Some vs /\
  objects sample.run.2 !! 0%nat = Some (Instance m) /\
  writers sample.run.2 !! 0%nat = Some wr /\
  imgsz m = Some eff /\
  detector.__init__ sample.pc "yolov8n.pt" sample.threshold (Some eff) (device m)
  = Ok det /\
  vs_reads vs = map (fun s => Frame s.1) steps /\
  Forall (fun s => detect det s.1 = Ok s.2.1 /\
                   annotate sample.pc s.1 s.2.1 = Ok s.2.2) steps /\
  wr_frames wr = map (fun s => s.2.2) steps /\
  frames m = Z.of_nat (length steps) /\
  total_detections m
  = Z.of_nat (length (concat (map (fun s => s.2.1) steps))).
Proof.
apply (process_video_output sample.pc ["assets"; "a.mp4"] ["outputs"; "a.mp4"]
         "yolov8n.pt" sample.threshold None "auto" sample.boot).
vm_compute. reflexivity.
Defined.

(** Ten frames in which nobody is found come out as they went in. *)
Lemma process_video_without_detections_witness :
let out :=
  process_video sample.pc_quiet ["assets"; "a.mp4"] ["outputs"; "a.mp4"]
    "yolov8n.pt" sample.threshold None "auto" sample.boot in
exists vs m wr,
  decode sample.pc_quiet "assets/a.mp4" = Some vs /\
  objects out.2 !! 0%nat = Some (Instance m) /\
  writers out.2 !! length (writers sample.boot) = Some wr /\
  (total_detections m = 0 -> map Frame (wr_frames wr) = vs_reads vs).
Proof.
cbv zeta.
apply (process_video_without_detections sample.pc_quiet ["assets"; "a.mp4"]
         ["outputs"; "a.mp4"] "yolov8n.pt" sample.threshold None "auto"
         sample.boot).
vm_compute. reflexivity.
Defined.

(** The writer of the run on the three-frame clip: 640x480 at 25 frames
  per second. *)
Lemma process_video_sink_witness :
exists wr,
  writers sample.run.2 = [wr] /\ wr_opened wr = false /\
  wr_path wr = "outputs/a.mp4" /\ wr_size wr = (640, 480) /\
  wr_fps wr = literal 25 1.
Proof.
destruct (process_video_sink sample.pc ["assets"; "a.mp4"] ["outputs"; "a.mp4"]
            "yolov8n.pt" sample.threshold None "auto" sample.boot 0%nat
            sample.run.2)
  as (vs & wr & wd & ht & Hdec & Hwrs & Hop & Hpath & Hwd & Hht & _ & _
      & Hsize & Hfps & _); [vm_compute; reflexivity|].
vm_compute in Hdec. inversion Hdec; subst vs.
vm_compute in Hwd. inversion Hwd; subst wd.
vm_compute in Hht. inversion Hht; subst ht.
exists wr. split; [exact Hwrs|]. split; [exact Hop|]. split; [exact Hpath|].
split; [exact Hsize|]. rewrite Hfps. vm_compute. reflexivity.
Defined.

Lemma process_video_footprint_witness :
exists c wr m,
  captures sample.run.2 = captures sample.boot ++ [c] /\
  cap_opened c = false /\ cap_pending c = [] /\
  writers sample.run.2 = writers sample.boot ++ [wr] /\
  objects sample.run.2 = objects sample.boot ++ [Instance m] /\
  0%nat = length (objects sample.boot) /\
  dirs sample.run.2 = dirs sample.boot ++ [parent ["outputs"; "a.mp4"]] /\
  files sample.run.2 = files sample.boot /\
  clock sample.run.2 = S (S (clock sample.boot)).
Proof.
apply (process_video_footprint sample.pc ["assets"; "a.mp4"]
         ["outputs"; "a.mp4"] "yolov8n.pt" sample.threshold None "auto"
         sample.boot 0%nat sample.run.2).
vm_compute. reflexivity.
Defined.

(** The third read of the torn clip fails: the run raises, and the writer
  is left released with the two frames annotated before. *)
Lemma process_video_interrupted_witness :
exists w' c wr,
  process_video sample.pc_torn ["assets"; "a.mp4"] ["outputs"; "a.mp4"]
    "yolov8n.pt" sample.threshold None "auto" sample.boot
  = (Raise (Exn External "truncated"), w') /\
  captures w' = captures sample.boot ++ [c] /\ cap_opened c = false /\
  writers w' = writers sample.boot ++ [wr] /\ wr_opened wr = false /\
  wr_frames wr = [sample.annotated; sample.annotated] /\
  objects w' = objects sample.boot /\ files w' = files sample.boot.
Proof.
apply (process_video_interrupted sample.pc_torn ["assets"; "a.mp4"]
         ["outputs"; "a.mp4"] "yolov8n.pt" sample.threshold None "auto"
         sample.boot 0%nat
         {| width := 640; height := 480; fps := literal 25 1; frame_count := 3 |}
         (open_video_capture sample.pc_torn ["assets"; "a.mp4"] sample.boot).2
         (ImgPair 480 640) sample.detector 0%nat
         (create_video_writer sample.pc_torn ["outputs"; "a.mp4"]
            {| width := 640; height := 480; fps := literal 25 1;
               frame_count := 3 |}
            (open_video_capture sample.pc_torn ["assets"; "a.mp4"]
               sample.boot).2).2
         sample.torn_clip
         [(sample.frame, ([sample.detection], sample.annotated));
          (sample.frame, ([sample.detection], sample.annotated))]
         (ReadError "truncated") []).
- vm_compute. reflexivity.
- vm_compute. reflexivity.
- vm_compute. reflexivity.
- vm_compute. reflexivity.
- vm_compute. reflexivity.
- vm_compute. reflexivity.
- repeat (constructor; [split; vm_compute; reflexivity|]). constructor.
- reflexivity.
Defined.

(** The batch over the sample directory: a.mp4 before b.MP4. *)
Lemma process_directory_records_witness :
let out :=
  process_directory sample.pc ["assets"] ["outputs"] "yolov8n.pt"
    sample.threshold None "auto" sample.boot in
out.1 = Ok [0%nat; 1%nat] /\
exists first second,
  objects out.2 !! 0%nat = Some (Instance first) /\
  objects out.2 !! 1%nat = Some (Instance second) /\
  input_path first = "assets/a.mp4" /\ output_path first = "outputs/a.mp4" /\
  input_path second = "assets/b.MP4" /\ output_path second = "outputs/b.MP4".
Proof.
cbv zeta.
assert (Hrun : (process_directory sample.pc ["assets"] ["outputs"] "yolov8n.pt"
                  sample.threshold None "auto" sample.boot).1
               = Ok [0%nat; 1%nat]) by (vm_compute; reflexivity).
split; [exact Hrun|].
destruct (process_directory_records sample.pc ["assets"] ["outputs"] "yolov8n.pt"
            sample.threshold None "auto" sample.boot [0%nat; 1%nat]
            (process_directory sample.pc ["assets"] ["outputs"] "yolov8n.pt"
               sample.threshold None "auto" sample.boot).2)
  as (videos & records & Hlist & _ & Hobjs & Hpaths & _).
{ rewrite <- Hrun. now destruct (process_directory _ _ _ _ _ _ _ _). }
vm_compute in Hlist. inversion Hlist; subst videos. clear Hlist.
inversion Hpaths as [|v1 first ? rest1 [Hi1 Ho1] Hrest1]; subst.
inversion Hrest1 as [|v2 second ? rest2 [Hi2 Ho2] Hrest2]; subst.
inversion Hrest2; subst.
inversion Hobjs as [|? ? ? ? H0 Hobjs1]; subst.
inversion Hobjs1 as [|? ? ? ? H1 _]; subst.
exists first, second. repeat split; assumption.
Defined.

(** [main] over the sample directory writes both metrics files, two
  records each. *)
Lemma main_exports_batch_witness :
exists first rest w',
  main sample.pc sample.assets_is_dir sample.args sample.boot = (Ok tt, w') /\
  length (first :: rest) = 2%nat /\
  files w' !! "outputs/metrics.json"
  = Some (JsonDoc (exported (first :: rest))) /\
  files w' !! "outputs/metrics.csv"
  = Some (CsvDoc (map fst (fields first))
            (map (map snd) (exported (first :: rest)))).
Proof.
destruct (main_exports_batch sample.pc sample.assets_is_dir sample.args
            sample.boot [0%nat; 1%nat]
            (process_directory sample.pc ["assets"] ["outputs"] "yolov8n.pt"
               sample.threshold None "auto" sample.boot).2)
  as (first & rest & w' & Hobjs & Hmain & Hjson & Hcsv & _);
  [reflexivity|vm_compute; reflexivity|].
exists first, rest, w'. split; [exact Hmain|].
split; [exact (eq_sym (Forall2_length _ _ _ Hobjs))|]. split; assumption.
Defined.

(** [main] over a directory without videos raises and writes nothing. *)
Lemma main_failure_writes_nothing_witness :
let out :=
  main sample.pc_without_videos sample.assets_is_dir sample.args sample.boot in
out.1 = Raise (Exn FileNotFoundError
                 "No videos with extensions ['.avi', '.mkv', '.mov', '.mp4'] found in assets") /\
files out.2 = files sample.boot.
Proof.
cbv zeta.
assert (Hrun : (main sample.pc_without_videos sample.assets_is_dir sample.args
                  sample.boot).1
               = Raise (Exn FileNotFoundError
                          "No videos with extensions ['.avi', '.mkv', '.mov', '.mp4'] found in assets"))
  by (vm_compute; reflexivity).
split; [exact Hrun|].
apply (main_failure_writes_nothing sample.pc_without_videos
         sample.assets_is_dir sample.args sample.boot
         (Exn FileNotFoundError
            "No videos with extensions ['.avi', '.mkv', '.mov', '.mp4'] found in assets")).
rewrite <- Hrun. now destruct (main _ _ _ _).
Defined.

(** Without a directory assets, and without a file of that name, [main]
  makes outputs and raises. *)
Lemma main_single_input_witness :
main sample.pc (fun _ => false) sample.args sample.boot
= (Raise (Exn FileNotFoundError "Input video not found: assets"),
   with_dirs (fun l => l ++ [["outputs"]]) sample.boot).
Proof.
apply (proj1 (main_single_input sample.pc (fun _ => false) sample.args
                sample.boot eq_refl)).
reflexivity.
Defined.

(** 500 becomes 512, and 512 stays; 480 by 640 is aligned already. *)
Lemma adjust_imgsz_to_stride_fixed_points_witness :
_adjust_imgsz_to_stride (ImgInt 512) 32 = Ok (ImgInt 512) /\
_adjust_imgsz_to_stride (ImgPair 480 640) 32 = Ok (ImgPair 480 640).
Proof.
split.
- destruct (adjust_imgsz_to_stride_fixed_points (ImgInt 500))
    as (adjusted & H1 & H2 & _); [cbn; lia|].
  vm_compute in H1. inversion H1; subst adjusted. exact H2.
- destruct (adjust_imgsz_to_stride_fixed_points (ImgPair 480 640))
    as (adjusted & H1 & _ & H3); [cbn; lia|].
  rewrite H1. f_equal. apply H3.
  split; [exists 15|exists 20]; reflexivity.
Defined.

(** Exporting the sample record twice: one row in the CSV, not two. *)
Lemma write_metrics_files_again_witness :
let once := write_metrics_files [0%nat] ["outputs"] sample.with_record in
let twice := write_metrics_files [0%nat] ["outputs"] once.2 in
twice.1 = Ok tt /\ files twice.2 = files once.2 /\
exists header row,
  files twice.2 !! "outputs/metrics.csv" = Some (CsvDoc header [row]).
Proof.
cbv zeta.
destruct (write_metrics_files_again [0%nat] [sample.record] ["outputs"]
            sample.with_record) as (_ & Hok & Hfiles & _).
{ repeat constructor. }
split; [exact Hok|]. split; [exact Hfiles|].
rewrite Hfiles. eexists _, _. vm_compute. reflexivity.
Defined.

(** Drawing the sample detection twice, at once or in two goes. *)
Lemma draw_detections_in_batches_witness :
draw_detections sample.pc 0 [] sample.with_frame
= (Ok 1%nat, with_arrays (fun l => l ++ [sample.frame]) sample.with_frame) /\
exists w12,
  draw_detections sample.pc 0 ([sample.detection] ++ [sample.detection])
    sample.with_frame = (Ok 1%nat, w12) /\
  arrays w12 !! 1%nat = Some sample.annotated.
Proof.
destruct (draw_detections_in_batches sample.pc 0 sample.with_frame sample.frame
            eq_refl) as [Hnil Hbatches].
split; [exact Hnil|].
destruct (Hbatches [sample.detection] [sample.detection] 1%nat
            (draw_detections sample.pc 0 [sample.detection] sample.with_frame).2
            2%nat
            (draw_detections sample.pc 1 [sample.detection]
               (draw_detections sample.pc 0 [sample.detection]
                  sample.with_frame).2).2)
  as (w12 & Hrun & Hsame); [vm_compute; reflexivity ..|].
exists w12. split; [exact Hrun|]. rewrite Hsame. vm_compute. reflexivity.
Defined.

(** The metadata of the three-frame clip. *)
Lemma open_video_capture_metadata_witness :
exists vs,
  path_exists sample.pc "assets/a.mp4" = true /\
  decode sample.pc "assets/a.mp4" = Some vs /\
  0%nat = length (captures sample.boot) /\
  (open_video_capture sample.pc ["assets"; "a.mp4"] sample.boot).2
  = with_captures
      (fun l => l ++ [{| cap_opened := true; cap_stream := Some vs;
                         cap_pending := vs_reads vs |}]) sample.boot /\
  int_of_float (vs_frame_count vs) = Ok 3 /\
  literal 25 1 = (if is_zero (vs_fps vs) then f0 else vs_fps vs).
Proof.
apply (open_video_capture_metadata sample.pc ["assets"; "a.mp4"] sample.boot
         0%nat
         {| width := 640; height := 480; fps := literal 25 1; frame_count := 3 |}).
vm_compute. reflexivity.
Defined.

(** A box with swapped corners. *)
Lemma scales_for_degenerate_bbox_witness :
_scales_for_bbox (literal 300 1, literal 10 1, literal 20 1, literal 400 1)
= scale_small.
Proof.
apply scales_for_degenerate_bbox. left. vm_compute. reflexivity.
Defined.

(** a.mp4 goes through, b.MP4 cannot be decoded. *)
Lemma process_directory_stops_at_first_failure_witness :
let first :=
  process_video sample.pc_second_broken ["assets"; "a.mp4"]
    ["outputs"; "a.mp4"] "yolov8n.pt" sample.threshold None "auto"
    (with_dirs (fun l => l ++ [["outputs"]]) sample.boot) in
let second :=
  process_video sample.pc_second_broken ["assets"; "b.MP4"]
    ["outputs"; "b.MP4"] "yolov8n.pt" sample.threshold None "auto" first.2 in
process_directory sample.pc_second_broken ["assets"] ["outputs"] "yolov8n.pt"
  sample.threshold None "auto" sample.boot
= (Raise (Exn ValueError "Failed to open video: assets/b.MP4"), second.2).
Proof.
cbv zeta.
apply (process_directory_stops_at_first_failure sample.pc_second_broken
         ["assets"] ["outputs"] "yolov8n.pt" sample.threshold None "auto"
         sample.boot [["assets"; "a.mp4"]] ["assets"; "b.MP4"] [] [0%nat]
         (process_video sample.pc_second_broken ["assets"; "a.mp4"]
            ["outputs"; "a.mp4"] "yolov8n.pt" sample.threshold None "auto"
            (with_dirs (fun l => l ++ [["outputs"]]) sample.boot)).2).
- vm_compute. reflexivity.
- econstructor; [vm_compute; reflexivity|constructor].
- vm_compute. reflexivity.
Defined.

(** The run on the torn clip ends in an exception, with both handles
  released. *)
Lemma process_video_releases_once_acquired_witness :
let out :=
  process_video sample.pc_torn ["assets"; "a.mp4"] ["outputs"; "a.mp4"]
    "yolov8n.pt" sample.threshold None "auto" sample.boot in
out.1 = Raise (Exn External "truncated") /\
(exists c, captures out.2 !! 0%nat = Some c /\ cap_opened c = false) /\
(exists wr, writers out.2 !! 0%nat = Some wr /\ wr_opened wr = false).
Proof.
cbv zeta. split; [vm_compute; reflexivity|].
apply (process_video_releases_once_acquired sample.pc_torn ["assets"; "a.mp4"]
         ["outputs"; "a.mp4"] "yolov8n.pt" sample.threshold None "auto"
         sample.boot 0%nat
         {| width := 640; height := 480; fps := literal 25 1; frame_count := 3 |}
         (open_video_capture sample.pc_torn ["assets"; "a.mp4"] sample.boot).2
         (ImgPair 480 640) sample.detector 0%nat
         (create_video_writer sample.pc_torn ["outputs"; "a.mp4"]
            {| width := 640; height := 480; fps := literal 25 1;
               frame_count := 3 |}
            (open_video_capture sample.pc_torn ["assets"; "a.mp4"]
               sample.boot).2).2);
  vm_compute; reflexivity.
Defined.

(** A model without a person class: the run raises and no record is made. *)
Lemma process_video_raise_keeps_objects_witness :
let out :=
  process_video sample.pc_without_person ["assets"; "a.mp4"]
    ["outputs"; "a.mp4"] "plates.pt" sample.threshold None "auto" sample.boot in
out.1 = Raise (Exn ValueError
                 "The loaded model does not contain a 'person' class.") /\
objects out.2 = objects sample.boot.
Proof.
cbv zeta.
assert (Hrun : (process_video sample.pc_without_person ["assets"; "a.mp4"]
                  ["outputs"; "a.mp4"] "plates.pt" sample.threshold None "auto"
                  sample.boot).1
               = Raise (Exn ValueError
                          "The loaded model does not contain a 'person' class."))
  by (vm_compute; reflexivity).
split; [exact Hrun|].
apply (process_video_raise_keeps_objects sample.pc_without_person
         ["assets"; "a.mp4"] ["outputs"; "a.mp4"] "plates.pt" sample.threshold
         None "auto" sample.boot
         (Exn ValueError "The loaded model does not contain a 'person' class.")).
rewrite <- Hrun. now destruct (process_video _ _ _ _ _ _ _ _).
Defined.

Lemma process_video_metrics_not_negative_witness :
exists m,
  objects sample.run.2 !! 0%nat = Some (Instance m) /\
  0 <= frames m /\ 0 <= total_detections m /\
  fle f0 (avg_detections_per_frame m) = true /\
  fle f0 (processing_fps m) = true.
Proof.
apply (process_video_metrics_not_negative sample.pc ["assets"; "a.mp4"]
         ["outputs"; "a.mp4"] "yolov8n.pt" sample.threshold None "auto"
         sample.boot).
vm_compute. reflexivity.
Defined.

(** A container without a frame: a record of zeros and an empty output. *)
Lemma process_video_empty_source_witness :
exists a w' m wr,
  process_video sample.pc_empty ["assets"; "a.mp4"] ["outputs"; "a.mp4"]
    "yolov8n.pt" sample.threshold None "auto" sample.boot = (Ok a, w') /\
  objects w' !! a = Some (Instance m) /\
  frames m = 0 /\ total_detections m = 0 /\
  avg_detections_per_frame m = f0 /\
  is_zero (processing_fps m) = true /\
  writers w' !! 0%nat = Some wr /\
  wr_opened wr = false /\ wr_frames wr = [].
Proof.
apply (process_video_empty_source sample.pc_empty ["assets"; "a.mp4"]
         ["outputs"; "a.mp4"] "yolov8n.pt" sample.threshold None "auto"
         sample.boot 0%nat
         {| width := 640; height := 480; fps := literal 25 1; frame_count := 0 |}
         (open_video_capture sample.pc_empty ["assets"; "a.mp4"] sample.boot).2
         (ImgPair 480 640) sample.detector 0%nat
         (create_video_writer sample.pc_empty ["outputs"; "a.mp4"]
            {| width := 640; height := 480; fps := literal 25 1;
               frame_count := 0 |}
            (open_video_capture sample.pc_empty ["assets"; "a.mp4"]
               sample.boot).2).2
         sample.empty_clip);
  vm_compute; reflexivity.
Defined.

(** One detection on the sample frame: the label is painted last. *)
Lemma draw_detections_paints_witness :
annotate sample.pc sample.frame [sample.detection] = Ok sample.annotated /\
draw_detections sample.pc 0 [sample.detection] sample.with_frame
= (Ok 1%nat, with_arrays (fun l => l ++ [sample.annotated]) sample.with_frame).
Proof.
assert (H : annotate sample.pc sample.frame [sample.detection]
            = Ok sample.annotated) by (vm_compute; reflexivity).
split; [exact H|].
pose proof (draw_detections_paints sample.pc 0 [sample.detection]
              sample.with_frame sample.frame eq_refl) as Hrun.
rewrite H in Hrun. exact Hrun.
Defined.

End more_samples.
